(** * GridSignalVisual: the signal-to-grid layout engine of visbrain

    A shallow embedding of [visbrain/visuals/GridSignalVisual.py]: the
    constructor, [set_data], the [scale], [space] and [color] properties,
    [rect], [clean], [_convert_row_cols] and the two shaders, over a small
    model of the numpy arrays and of the Python values they receive; and of
    the [AxisCanvas] class of [visbrain/sleep/interface/uiInit.py].

    Conventions.
    - A numpy array is its shape and its elements in C (row-major) order.
    - Samples are exact rationals; the only float effect that is modelled is
      a division by zero, whose result (nan or inf) is [None].  Rounding is
      not modelled.
    - A method is a function from the object to the object it leaves behind
      and either the exception it raised or its result: what a raising call
      has already written stays written, as in Python.
    - A vertex buffer is the array last sent to it, the number of components
      per vertex it was created with and whether it was deleted: vispy
      refuses an array with another number of components, and any array
      once the buffer is deleted.  A shader variable takes a tuple of 2 to 4
      elements and refuses a tuple of another length.
    - The transforms and the drawing itself belong to vispy and are left
      out. *)

From Stdlib Require Import String.
From Stdlib Require Import List ZArith QArith Qabs Qminmax Qfield Qround Lqa Lia Bool Arith.
Import ListNotations.

Local Open Scope nat_scope.

(** ** Numpy arrays *)

Record ndarray (A : Type) : Type := mk_ndarray {
  shape : list nat;
  flat : list A
}.

Arguments mk_ndarray {A} shape flat.
Arguments shape {A} n.
Arguments flat {A} n.

Definition prod_shape (sh : list nat) : nat := fold_right Nat.mul 1 sh.

Definition ndim {A} (a : ndarray A) : nat := length (shape a).

(** [a.size] *)
Definition size {A} (a : ndarray A) : nat := prod_shape (shape a).

(** The elements really are those of an array of that shape. *)
Definition wf_ndarray {A} (a : ndarray A) : Prop :=
  length (flat a) = size a.

(** Every index shuffle of numpy used by the source (swapaxes, flipud, a
    Fortran-order reshape) reads the element at a source position for each
    position of the result. *)
Definition gather {A} (d : A) (len : nat) (src : nat -> nat) (l : list A)
  : list A :=
  map (fun p => nth (src p) l d) (seq 0 len).

(** [np.arange(m)] *)
Definition arange (m : nat) : ndarray nat := mk_ndarray [m] (seq 0 m).

(** [a.reshape] in C order, for a shape without [-1]: the elements keep
    their order; numpy raises ValueError when the sizes differ. *)
Definition reshape {A} (sh : list nat) (a : ndarray A) : option (ndarray A) :=
  if prod_shape sh =? size a then Some (mk_ndarray sh (flat a)) else None.

(** [np.flipud(a)]: the blocks along the first axis in reverse order. *)
Definition flipud (a : ndarray nat) : ndarray nat :=
  match shape a with
  | [] => a
  | r :: rest =>
      let w := prod_shape rest in
      mk_ndarray (shape a)
        (gather 0 (r * w) (fun p => (r - 1 - p / w) * w + p mod w) (flat a))
  end.

(** ** The grid planner *)

Module Planner.

(** Modelled from the spec: [ndsubplot] ([visbrain.utils]) is imported by the
    source but is not among the sources.  Section 4.1 asks for a near-square
    grid with [rows * cols >= channel_count], [(1, 1)] for one channel, and
    section 8 gives [(2, 3)] as a valid answer for five channels: the number
    of rows is the integer square root of the count, the number of columns
    the least one that makes room for every channel. *)
Definition ndsubplot (c : nat) : nat * nat :=
  let rows := Nat.sqrt c in
  (rows, (c + rows - 1) / rows).

(** [|r - k|] *)
Definition imbalance (r k : nat) : nat := (r - k) + (k - r).

End Planner.

(** ** Python values, exceptions and the numpy helpers of the source *)

(** The values the dynamically typed arguments ([color], [scale], [space],
    [sf]) can be. *)
#[warnings="-register-all"] Inductive pyval : Type :=
  | PyNone
  | PyInt (z : Z)
  | PyFloat (q : Q)
  | PyStr (s : string)
  | PyTuple (l : list pyval)
  | PyList (l : list pyval).

Inductive pyexc : Type :=
  | AssertionError
  | IndexError
  | UnboundLocalError
  | ValueError
  | AxisError
  | AttributeError
  | TypeError
  | ColorError (msg : string).

(** [isinstance(v, (int, float))] *)
Definition is_number (v : pyval) : bool :=
  match v with PyInt _ | PyFloat _ => true | _ => false end.

(** [isinstance(v, (tuple, list)) and len(v) == 2] *)
Definition is_pair (v : pyval) : bool :=
  match v with
  | PyTuple l | PyList l => length l =? 2
  | _ => false
  end.

(** [isinstance(v, tuple)] *)
Definition is_tuple (v : pyval) : bool :=
  match v with PyTuple _ => true | _ => false end.

(** [isinstance(v, float)] *)
Definition is_float (v : pyval) : bool :=
  match v with PyFloat _ => true | _ => false end.

(** A tuple or list a shader variable takes as a vector: 2 to 4 elements. *)
Definition is_vec (v : pyval) : bool :=
  match v with
  | PyTuple l | PyList l => (2 <=? length l) && (length l <=? 4)
  | _ => false
  end.

(** [v is None] *)
Definition is_none (v : pyval) : bool :=
  match v with PyNone => true | _ => false end.

(** [v == 'random'] *)
Definition is_random (v : pyval) : bool :=
  match v with PyStr s => String.eqb s "random" | _ => false end.

(** Python's index into a sequence of length [len]: a negative index counts
    from the end, anything outside [-len, len) raises IndexError. *)
Definition wrap_index (len : nat) (i : Z) : option nat :=
  if ((- Z.of_nat len <=? i) && (i <? Z.of_nat len))%Z
  then Some (Z.to_nat (if (i <? 0)%Z then i + Z.of_nat len else i)%Z)
  else None.

(** [sh[i]] for a shape tuple *)
Definition shape_getitem (sh : list nat) (i : Z) : option nat :=
  match wrap_index (length sh) i with
  | Some k => nth_error sh k
  | None => None
  end.

(** [np.repeat(l, k)] (along axis 0): every element [k] times in a row. *)
Definition np_repeat {A} (l : list A) (k : nat) : list A :=
  flat_map (fun x => repeat x k) l.

(** [np.tile(l, k)]: the whole list [k] times. *)
Definition np_tile {A} (l : list A) (k : nat) : list A :=
  concat (repeat l k).

(** [np.c_[a, b, c]] of three columns of one length. *)
Definition np_c3 {A} (a b c : list A) : list (A * A * A) :=
  combine (combine a b) c.

(** [np.swapaxes(d, 0, 1)] of a 2-D array. *)
Definition swapaxes2 (d : ndarray Q) : ndarray Q :=
  match shape d with
  | [a; b] =>
      mk_ndarray [b; a]
        (gather 0%Q (b * a) (fun p => (p mod a) * b + p / a) (flat d))
  | _ => d
  end.

(** [np.swapaxes(d, axis, -1)] of a 3-D array; numpy raises AxisError for an
    axis outside [-3, 3). *)
Definition swapaxes3 (d : ndarray Q) (axis : Z) : pyexc + ndarray Q :=
  match shape d with
  | [a; b; c] =>
      match wrap_index 3 axis with
      | None => inl AxisError
      | Some 0 =>
          inr (mk_ndarray [c; b; a]
                 (gather 0%Q (c * b * a)
                    (fun p => ((p mod a) * b + (p / a) mod b) * c + p / (a * b))
                    (flat d)))
      | Some 1 =>
          inr (mk_ndarray [a; c; b]
                 (gather 0%Q (a * c * b)
                    (fun p => ((p / (b * c)) * b + p mod b) * c + (p / b) mod c)
                    (flat d)))
      | Some _ => inr d
      end
  | _ => inr d
  end.

(** The lines of an array along its last axis: [m] lines of [n] elements of
    a list, and the lines of an array. *)
Definition chunks {A} (n m : nat) (l : list A) : list (list A) :=
  map (fun i => firstn n (skipn (i * n) l)) (seq 0 m).

Definition last_dim (sh : list nat) : nat := last sh 1.
Definition lead_dims (sh : list nat) : nat := prod_shape (removelast sh).

Definition lines {A} (a : ndarray A) : list (list A) :=
  chunks (last_dim (shape a)) (lead_dims (shape a)) (flat a).

(** ** Demeaning and normalisation *)

(** A float that may have stopped being a number: [None] is the nan or inf
    left by a division by zero.  The samples are exact rationals: rounding
    is outside the model, so the arithmetic below is that of the code on
    inputs the floats compute exactly (small integers with an exact mean,
    for instance) and an idealisation elsewhere; in particular the float
    peak of a line is zero where the exact one is only when the demeaning
    itself is exact. *)
Definition fval : Type := option Q.

Definition Qsum (l : list Q) : Q := fold_right Qplus 0%Q l.

(** [x.mean()] *)
Definition mean (l : list Q) : Q := (Qsum l / inject_Z (Z.of_nat (length l)))%Q.

(** [np.abs(x).max()] of a line that is not empty: absolute values are not
    negative, so the fold from 0 is their maximum. *)
Definition max_abs (l : list Q) : Q :=
  fold_right (fun x acc => Qmax (Qabs x) acc) 0%Q l.

(** [x / d] as numpy divides: a zero divisor leaves no number (a warning,
    not an exception). *)
Definition np_div (x d : Q) : fval :=
  if Qeq_bool d 0 then None else Some (x / d)%Q.

(** One line through [data -= data.mean(axis=-1, keepdims=True)] and
    [data /= np.abs(data).max(axis=-1, keepdims=True)]. *)
Definition normalise_row (row : list Q) : list fval :=
  let mu := mean row in
  let dm := map (fun x => (x - mu)%Q) row in
  let mx := max_abs dm in
  map (fun x => np_div x mx) dm.

(** The two statements on the whole array; the maximum over an axis of
    length zero raises ValueError (the mean of an empty line only warns). *)
Definition normalise (a : ndarray Q) : pyexc + ndarray fval :=
  let n := last_dim (shape a) in
  if n =? 0 then inl ValueError
  else inr (mk_ndarray (shape a)
              (concat (map normalise_row (chunks n (lead_dims (shape a)) (flat a))))).



(** ** The visual object *)

Definition rgb : Type := (Q * Q * Q)%type.
Definition rgba : Type := (Q * Q * Q * Q)%type.

(** [c[:, 0:3]] on one line of colours *)
Definition drop_alpha (c : rgba) : rgb :=
  let '(r, g, b, _) := c in (r, g, b).

(** A [gloo.VertexBuffer] of vispy (the library is not part of the
    repository): the array last handed to [set_data], the number of
    components per vertex the buffer was created with, and whether [delete]
    was called.  An array of vec3 is an array whose elements are triples. *)
Record VertexBuffer (A : Type) : Type := mk_buffer {
  vb_data : ndarray A;
  vb_last_dim : nat;
  vb_deleted : bool
}.

Arguments mk_buffer {A} vb_data vb_last_dim vb_deleted.
Arguments vb_data {A} v.
Arguments vb_last_dim {A} v.
Arguments vb_deleted {A} v.

(** The components per vertex vispy reads off an array of numbers: the
    last dimension when the array has more than one dimension and that
    dimension is 2, 3 or 4, and 1 otherwise. *)
Definition components (sh : list nat) : nat :=
  match sh with
  | _ :: _ :: _ =>
      if (2 <=? last_dim sh) && (last_dim sh <=? 4) then last_dim sh else 1
  | _ => 1
  end.

(** The buffer with another array in it. *)
Definition vb_with_data {A} (x : ndarray A) (b : VertexBuffer A)
  : VertexBuffer A :=
  mk_buffer x (vb_last_dim b) (vb_deleted b).

(** [buffer.set_data(x)] for an array of [c] components per vertex: vispy
    raises ValueError when [c] is not the number the buffer was created
    with, and the call fails on a buffer that was deleted (its command
    queue is gone). *)
Definition vb_set_data {A} (c : nat) (x : ndarray A) (b : VertexBuffer A)
  : pyexc + VertexBuffer A :=
  if negb (c =? vb_last_dim b) then inl ValueError
  else if vb_deleted b then inl AttributeError
  else inr (vb_with_data x b).

(** Whether a buffer takes an array of [c] components per vertex, and the
    exception it raises when it does not. *)
Definition takes {A} (c : nat) (b : VertexBuffer A) : bool :=
  (c =? vb_last_dim b) && negb (vb_deleted b).

Definition refusal {A} (c : nat) (b : VertexBuffer A) : pyexc :=
  if negb (c =? vb_last_dim b) then ValueError else AttributeError.

(** [buffer.delete()] *)
Definition vb_delete {A} (b : VertexBuffer A) : VertexBuffer A :=
  mk_buffer (vb_data b) (vb_last_dim b) true.

(** The attributes of a [GridSignalVisual] and the variables of its shader
    program.  An attribute that may not have been assigned yet is an option.
    [n_updates] counts the calls of [self.update()]. *)
Record visual : Type := mk_visual {
  _sh : list nat;
  _n : nat;
  _axis : Z;
  _sf : pyval;
  _color : pyval;
  _uscale : option pyval;
  _scale : option pyval;
  _space : option pyval;
  u_scale : option pyval;
  u_space : option pyval;
  u_size : nat * nat;
  u_n : nat;
  _dbuffer : VertexBuffer fval;
  _ibuffer : VertexBuffer (nat * nat * nat);
  _cbuffer : VertexBuffer rgb;
  _ori_shape : option (list nat);
  _opt_shape : option (list nat);
  _sig_index : option (ndarray nat);
  _g_size : option (nat * nat);
  n_updates : nat
}.

Definition set__color (v : pyval) (s : visual) : visual :=
  mk_visual (_sh s) (_n s) (_axis s) (_sf s) v (_uscale s) (_scale s)
    (_space s) (u_scale s) (u_space s) (u_size s) (u_n s) (_dbuffer s)
    (_ibuffer s) (_cbuffer s) (_ori_shape s) (_opt_shape s) (_sig_index s)
    (_g_size s) (n_updates s).

Definition set__uscale (v : pyval) (s : visual) : visual :=
  mk_visual (_sh s) (_n s) (_axis s) (_sf s) (_color s) (Some v) (_scale s)
    (_space s) (u_scale s) (u_space s) (u_size s) (u_n s) (_dbuffer s)
    (_ibuffer s) (_cbuffer s) (_ori_shape s) (_opt_shape s) (_sig_index s)
    (_g_size s) (n_updates s).

Definition set__scale (v : pyval) (s : visual) : visual :=
  mk_visual (_sh s) (_n s) (_axis s) (_sf s) (_color s) (_uscale s) (Some v)
    (_space s) (u_scale s) (u_space s) (u_size s) (u_n s) (_dbuffer s)
    (_ibuffer s) (_cbuffer s) (_ori_shape s) (_opt_shape s) (_sig_index s)
    (_g_size s) (n_updates s).

Definition set__space (v : pyval) (s : visual) : visual :=
  mk_visual (_sh s) (_n s) (_axis s) (_sf s) (_color s) (_uscale s) (_scale s)
    (Some v) (u_scale s) (u_space s) (u_size s) (u_n s) (_dbuffer s)
    (_ibuffer s) (_cbuffer s) (_ori_shape s) (_opt_shape s) (_sig_index s)
    (_g_size s) (n_updates s).

Definition set_u_scale (v : pyval) (s : visual) : visual :=
  mk_visual (_sh s) (_n s) (_axis s) (_sf s) (_color s) (_uscale s) (_scale s)
    (_space s) (Some v) (u_space s) (u_size s) (u_n s) (_dbuffer s)
    (_ibuffer s) (_cbuffer s) (_ori_shape s) (_opt_shape s) (_sig_index s)
    (_g_size s) (n_updates s).

Definition set_u_space (v : pyval) (s : visual) : visual :=
  mk_visual (_sh s) (_n s) (_axis s) (_sf s) (_color s) (_uscale s) (_scale s)
    (_space s) (u_scale s) (Some v) (u_size s) (u_n s) (_dbuffer s)
    (_ibuffer s) (_cbuffer s) (_ori_shape s) (_opt_shape s) (_sig_index s)
    (_g_size s) (n_updates s).

Definition set_u_size (v : nat * nat) (s : visual) : visual :=
  mk_visual (_sh s) (_n s) (_axis s) (_sf s) (_color s) (_uscale s) (_scale s)
    (_space s) (u_scale s) (u_space s) v (u_n s) (_dbuffer s)
    (_ibuffer s) (_cbuffer s) (_ori_shape s) (_opt_shape s) (_sig_index s)
    (_g_size s) (n_updates s).

Definition set__dbuffer (v : VertexBuffer fval) (s : visual) : visual :=
  mk_visual (_sh s) (_n s) (_axis s) (_sf s) (_color s) (_uscale s) (_scale s)
    (_space s) (u_scale s) (u_space s) (u_size s) (u_n s) v
    (_ibuffer s) (_cbuffer s) (_ori_shape s) (_opt_shape s) (_sig_index s)
    (_g_size s) (n_updates s).

Definition set__ibuffer (v : VertexBuffer (nat * nat * nat)) (s : visual)
  : visual :=
  mk_visual (_sh s) (_n s) (_axis s) (_sf s) (_color s) (_uscale s) (_scale s)
    (_space s) (u_scale s) (u_space s) (u_size s) (u_n s) (_dbuffer s)
    v (_cbuffer s) (_ori_shape s) (_opt_shape s) (_sig_index s)
    (_g_size s) (n_updates s).

Definition set__cbuffer (v : VertexBuffer rgb) (s : visual) : visual :=
  mk_visual (_sh s) (_n s) (_axis s) (_sf s) (_color s) (_uscale s) (_scale s)
    (_space s) (u_scale s) (u_space s) (u_size s) (u_n s) (_dbuffer s)
    (_ibuffer s) v (_ori_shape s) (_opt_shape s) (_sig_index s)
    (_g_size s) (n_updates s).

Definition set__ori_shape (v : list nat) (s : visual) : visual :=
  mk_visual (_sh s) (_n s) (_axis s) (_sf s) (_color s) (_uscale s) (_scale s)
    (_space s) (u_scale s) (u_space s) (u_size s) (u_n s) (_dbuffer s)
    (_ibuffer s) (_cbuffer s) (Some v) (_opt_shape s) (_sig_index s)
    (_g_size s) (n_updates s).

Definition set__opt_shape (v : list nat) (s : visual) : visual :=
  mk_visual (_sh s) (_n s) (_axis s) (_sf s) (_color s) (_uscale s) (_scale s)
    (_space s) (u_scale s) (u_space s) (u_size s) (u_n s) (_dbuffer s)
    (_ibuffer s) (_cbuffer s) (_ori_shape s) (Some v) (_sig_index s)
    (_g_size s) (n_updates s).

Definition set__sig_index (v : ndarray nat) (s : visual) : visual :=
  mk_visual (_sh s) (_n s) (_axis s) (_sf s) (_color s) (_uscale s) (_scale s)
    (_space s) (u_scale s) (u_space s) (u_size s) (u_n s) (_dbuffer s)
    (_ibuffer s) (_cbuffer s) (_ori_shape s) (_opt_shape s) (Some v)
    (_g_size s) (n_updates s).

Definition set__g_size (v : nat * nat) (s : visual) : visual :=
  mk_visual (_sh s) (_n s) (_axis s) (_sf s) (_color s) (_uscale s) (_scale s)
    (_space s) (u_scale s) (u_space s) (u_size s) (u_n s) (_dbuffer s)
    (_ibuffer s) (_cbuffer s) (_ori_shape s) (_opt_shape s) (_sig_index s)
    (Some v) (n_updates s).

(** [self.update()] *)
Definition update (s : visual) : visual :=
  mk_visual (_sh s) (_n s) (_axis s) (_sf s) (_color s) (_uscale s) (_scale s)
    (_space s) (u_scale s) (u_space s) (u_size s) (u_n s) (_dbuffer s)
    (_ibuffer s) (_cbuffer s) (_ori_shape s) (_opt_shape s) (_sig_index s)
    (_g_size s) (S (n_updates s)).

(** ** Methods: state and exceptions *)

(** A method body: it runs on the object, leaves an object behind, and
    either raises or returns. *)
Definition M (A : Type) : Type := visual -> visual * (pyexc + A).

Definition ret {A} (a : A) : M A := fun s => (s, inr a).

Definition raise {A} (e : pyexc) : M A := fun s => (s, inl e).

Definition bind {A B} (m : M A) (k : A -> M B) : M B :=
  fun s =>
    match m s with
    | (s', inr a) => k a s'
    | (s', inl e) => (s', inl e)
    end.

Definition get : M visual := fun s => (s, inr s).

Definition modify (f : visual -> visual) : M unit := fun s => (f s, inr tt).

Definition of_option {A} (e : pyexc) (o : option A) : M A :=
  match o with Some a => ret a | None => raise e end.

Definition of_sum {A} (r : pyexc + A) : M A :=
  match r with inr a => ret a | inl e => raise e end.

Declare Scope method_scope.
Delimit Scope method_scope with method.
Notation "x <- m ;; k" := (bind m (fun x => k))
  (at level 61, m at next level, right associativity) : method_scope.
Notation "m ;; k" := (bind m (fun _ => k))
  (at level 61, right associativity) : method_scope.

(** ** Parts of the object compared before and after a call *)

(** The attributes no statement of [set_data] assigns. *)
Definition same_inputs (st st' : visual) : Prop :=
  _sh st' = _sh st /\ _n st' = _n st /\ _axis st' = _axis st /\
  _sf st' = _sf st /\ _color st' = _color st /\ _uscale st' = _uscale st /\
  _scale st' = _scale st /\ _space st' = _space st /\
  u_scale st' = u_scale st /\ u_space st' = u_space st /\
  u_n st' = u_n st /\ n_updates st' = n_updates st.

(** What the position and index buffers, the grid shape and the recorded
    mapping are. *)
Definition same_geometry (st st' : visual) : Prop :=
  _dbuffer st' = _dbuffer st /\ _ibuffer st' = _ibuffer st /\
  _sig_index st' = _sig_index st /\ _opt_shape st' = _opt_shape st /\
  _g_size st' = _g_size st /\ u_size st' = u_size st.

(** ** The methods of [GridSignalVisual] *)

Module Visual.

Section Methods.

Local Open Scope method_scope.

(** Three helpers of [visbrain.utils] are imported by the source and are
    not among the sources; the methods take them as they come.
    [ndsubplot m] is the grid chosen for [m] signals,
    [prepare_data sf d] is [PrepareData._prepare_data] with demean and
    detrend off (set_data switches both off before the call), and
    [color2vb color m] resolves a colour specification to [m] RGBA lines
    or raises. *)
Variable ndsubplot : nat -> nat * nat.
Variable prepare_data : pyval -> ndarray Q -> ndarray Q.
Variable color2vb : pyval -> nat -> pyexc + list rgba.

(** [__len__] *)
Definition __len__ (self : visual) : nat := _n self.

(** The branch on [data.ndim]: the array as [(n_rows, n_cols, n_time)] and
    the first [g_size].  With any other number of dimensions no branch runs
    and [g_size] is read unassigned two lines further. *)
Definition to_3d (axis : Z) (d : ndarray Q)
  : pyexc + (ndarray Q * (nat * nat)) :=
  match shape d with
  | [_] => inr (mk_ndarray [1; 1; size d] (flat d), (1, 1))
  | [_; _] =>
      let d' := if (axis =? 0)%Z then swapaxes2 d else d in
      inr (mk_ndarray (1 :: shape d') (flat d'), (hd 0 (shape d'), 1))
  | [_; _; _] =>
      match (if (axis =? 2)%Z then inr d else swapaxes3 d axis) with
      | inl e => inl e
      | inr d' => inr (d', (nth 0 (shape d') 0, nth 1 (shape d') 0))
      end
  | _ => inl UnboundLocalError
  end.

(** [np.reshape(d, (m, n), order='F')] of a 3-D array: position [(i, t)] of
    the result is the element number [i + m * t] of [d] counted with the
    first index fastest. *)
Definition reshape_order_F (m n : nat) (d : ndarray Q) : ndarray Q :=
  match shape d with
  | [R; C; T] =>
      mk_ndarray [m; n]
        (gather 0%Q (m * n)
           (fun p =>
              let j := p / n + m * (p mod n) in
              ((j mod R) * C + (j / R) mod C) * T + j / (R * C))
           (flat d))
  | _ => d
  end.

(** The index triples [(col, row, time)], one per sample. *)
Definition index_triples (n_rows n_cols n m : nat) : list (nat * nat * nat) :=
  np_c3 (np_repeat (np_repeat (seq 0 n_cols) n_rows) n)
        (np_repeat (np_tile (seq 0 n_rows) n_cols) n)
        (np_tile (seq 0 n) m).

(** The [if isinstance(data, np.ndarray)] block of [set_data]. *)
Definition set_data_geometry (axis : Z) (data : ndarray Q) : M unit :=
  c <- of_sum (to_3d axis data) ;;
  let d3 := fst c in
  let g_size := snd c in
  let m := lead_dims (shape d3) in
  sig_index <- of_option ValueError
                 (reshape [fst g_size; snd g_size] (arange m)) ;;
  modify (set__ori_shape (removelast (shape d3))) ;;
  self <- get ;;
  let opt_rows := fst (ndsubplot m) in
  let opt_cols := snd (ndsubplot m) in
  d <- of_option ValueError (reshape [opt_rows; opt_cols; __len__ self] d3) ;;
  sig_index <- of_option ValueError (reshape [opt_rows; opt_cols] sig_index) ;;
  modify (set__opt_shape (removelast (shape d))) ;;
  modify (set__sig_index (flipud sig_index)) ;;
  let d := reshape_order_F m (__len__ self) d in
  let d := prepare_data (_sf self) d in
  d <- of_sum (normalise d) ;;
  let n := __len__ self in
  let index := index_triples opt_rows opt_cols n m in
  self <- get ;;
  db <- of_sum (vb_set_data (components (shape d)) d (_dbuffer self)) ;;
  modify (set__dbuffer db) ;;
  self <- get ;;
  ib <- of_sum (vb_set_data 3 (mk_ndarray [length index] index)
                  (_ibuffer self)) ;;
  modify (set__ibuffer ib) ;;
  modify (set_u_size (opt_rows, opt_cols)) ;;
  modify (set__g_size (opt_rows, opt_cols)).

(** The [if color is not None] block of [set_data]; [rnd k] is the [k]-th
    triple [np.random.uniform] is about to draw. *)
Definition set_data_color (color : pyval) (rnd : nat -> rgb) : M unit :=
  self <- get ;;
  g_size <- of_option AttributeError (_g_size self) ;;
  let m := fst g_size * snd g_size in
  let n := __len__ self in
  singcol <- (if is_random color then ret (map rnd (seq 0 m))
              else c <- of_sum (color2vb color m) ;; ret (map drop_alpha c)) ;;
  let a_color := np_repeat singcol n in
  cb <- of_sum (vb_set_data 3 (mk_ndarray [length a_color] a_color)
                  (_cbuffer self)) ;;
  modify (set__cbuffer cb).

(** [set_data(data, axis, color)]; [data] is [None] when the argument is
    not an array, [axis] is [None] when it is not an int. *)
Definition set_data (data : option (ndarray Q)) (axis : option Z)
           (color : pyval) (rnd : nat -> rgb) : M unit :=
  self <- get ;;
  let axis := match axis with Some a => a | None => _axis self end in
  let axis := if (axis =? -1)%Z
              then (Z.of_nat (length (_sh self)) - 1)%Z else axis in
  match data with
  | Some d => set_data_geometry axis d
  | None => ret tt
  end ;;
  if is_none color then ret tt else set_data_color color rnd.

(** [clean] *)
Definition clean : M unit :=
  modify (fun s => set__dbuffer (vb_delete (_dbuffer s)) s) ;;
  modify (fun s => set__ibuffer (vb_delete (_ibuffer s)) s) ;;
  modify (fun s => set__cbuffer (vb_delete (_cbuffer s)) s).

(** The [scale] setter.  The assignment to the shader variable is vispy's:
    it takes a tuple of 2 to 4 elements as a vec2, vec3 or vec4 and raises
    TypeError for a tuple of any other length. *)
Definition scale_setter (value : pyval) : M unit :=
  if is_tuple value then
    modify (set__uscale value) ;;
    modify (set__scale value) ;;
    (if is_vec value then modify (set_u_scale value) else raise TypeError) ;;
    modify update
  else ret tt.

(** The [space] setter *)
Definition space_setter (value : pyval) : M unit :=
  if is_float value then
    modify (set__space value) ;;
    modify (set_u_space value) ;;
    modify update
  else ret tt.

(** The [color] setter *)
Definition color_setter (value : pyval) (rnd : nat -> rgb) : M unit :=
  modify (set__color value) ;;
  set_data None None value rnd.

(** [a[row, col]] of a 2-D array of indices. *)
Definition getitem2 (a : ndarray nat) (row col : Z) : option nat :=
  match shape a with
  | [R; C] =>
      match wrap_index R row, wrap_index C col with
      | Some r, Some c => nth_error (flat a) (r * C + c)
      | _, _ => None
      end
  | _ => None
  end.

(** The first position of [x] in [l]. *)
Fixpoint index_of (x : nat) (l : list nat) : option nat :=
  match l with
  | [] => None
  | y :: t => if y =? x then Some 0 else option_map S (index_of x t)
  end.

(** The [try] block of [_convert_row_cols]: [None] when a statement of it
    raises. *)
Definition convert_try (self : visual) (row col : Z) : option (nat * nat) :=
  match _sig_index self, _ori_shape self with
  | Some sig, Some ori =>
      match getitem2 sig row col with
      | Some index =>
          match reshape ori sig, ori with
          | Some a, [_; o1] =>
              match index_of index (flat a) with
              | Some p => Some (p / o1, p mod o1)
              | None => None
              end
          | _, _ => None
          end
      | None => None
      end
  | _, _ => None
  end.

(** [_convert_row_cols(row, col)] *)
Definition _convert_row_cols (self : visual) (row col : Z) : Z * Z :=
  match convert_try self row col with
  | Some (a, b) => (Z.of_nat a, Z.of_nat b)
  | None => (row, col)
  end.

(** [__init__(data, axis, sf, color, space, scale)]: the object when the
    constructor returns, the exception when it raises. *)
Definition __init__ (data : ndarray Q) (axis : Z) (sf color space scale : pyval)
           (rnd : nat -> rgb) : pyexc + visual :=
  if negb ((ndim data <=? 3) && is_number sf && is_number space
           && is_pair scale)
  then inl AssertionError
  else
    match shape_getitem (shape data) axis with
    | None => inl IndexError
    | Some n =>
        let zero3 := (0%Q, 0%Q, 0%Q) in
        let self :=
          mk_visual (shape data) n axis sf color None None None None None
            (1, 1) n
            (mk_buffer (mk_ndarray [3] [Some 0%Q; Some 0%Q; Some 0%Q]) 1 false)
            (mk_buffer (mk_ndarray [1] [(0, 0, 0)]) 3 false)
            (mk_buffer (mk_ndarray [1] [zero3]) 3 false)
            None None None None 0 in
        let r := (scale_setter scale ;;
                  space_setter space ;;
                  set_data (Some data) (Some axis) color rnd) self in
        match snd r with
        | inl e => inl e
        | inr _ => inr (fst r)
        end
    end.

(** *** What [set_data] leaves behind, statement by statement *)

(** The time axis after the two lines under "Axis". *)
Definition resolve_axis (self : visual) (axis : option Z) : Z :=
  let a := match axis with Some a => a | None => _axis self end in
  if (a =? -1)%Z then (Z.of_nat (length (_sh self)) - 1)%Z else a.

(** The grid asked from the planner for a canonical array. *)
Definition grid_of (d3 : ndarray Q) : nat * nat :=
  ndsubplot (lead_dims (shape d3)).

(** Both reshapes to the planned grid go through. *)
Definition fits (self : visual) (d3 : ndarray Q) : bool :=
  let rows := fst (grid_of d3) in
  let cols := snd (grid_of d3) in
  (rows * cols * _n self =? size d3) && (rows * cols =? lead_dims (shape d3)).

(** The [(m, n)] array handed to the normalisation. *)
Definition prepared (self : visual) (d3 : ndarray Q) : ndarray Q :=
  let m := lead_dims (shape d3) in
  prepare_data (_sf self)
    (reshape_order_F m (_n self)
       (mk_ndarray [fst (grid_of d3); snd (grid_of d3); _n self] (flat d3))).

(** The object once [_ori_shape], [_opt_shape] and [_sig_index] are
    assigned. *)
Definition recorded (self : visual) (d3 : ndarray Q) : visual :=
  let m := lead_dims (shape d3) in
  let rows := fst (grid_of d3) in
  let cols := snd (grid_of d3) in
  set__sig_index (flipud (mk_ndarray [rows; cols] (seq 0 m)))
    (set__opt_shape [rows; cols]
       (set__ori_shape (removelast (shape d3)) self)).

(** The object once the position and index buffers are sent. *)
Definition uploaded (self : visual) (d3 : ndarray Q) (dn : ndarray fval)
  : visual :=
  let m := lead_dims (shape d3) in
  let rows := fst (grid_of d3) in
  let cols := snd (grid_of d3) in
  let index := index_triples rows cols (_n self) m in
  set__g_size (rows, cols)
    (set_u_size (rows, cols)
       (set__ibuffer
          (vb_with_data (mk_ndarray [length index] index) (_ibuffer self))
          (set__dbuffer (vb_with_data dn (_dbuffer self)) (recorded self d3)))).

(** The object once the colours [singcol], one per signal, are sent. *)
Definition painted (self : visual) (singcol : list rgb) : visual :=
  let a_color := np_repeat singcol (_n self) in
  set__cbuffer
    (vb_with_data (mk_ndarray [length a_color] a_color) (_cbuffer self)) self.

(** The upload of the colours [singcol]: the object and the outcome. *)
Definition paint (self : visual) (singcol : list rgb)
  : visual * (pyexc + unit) :=
  if takes 3 (_cbuffer self) then (painted self singcol, inr tt)
  else (self, inl (refusal 3 (_cbuffer self))).

(** The calls that change an object after its construction. *)
Inductive operation : Type :=
  | OpSetData (data : option (ndarray Q)) (axis : option Z) (color : pyval)
              (rnd : nat -> rgb)
  | OpScale (value : pyval)
  | OpSpace (value : pyval)
  | OpColor (value : pyval) (rnd : nat -> rgb)
  | OpClean.

Definition run_operation (op : operation) : M unit :=
  match op with
  | OpSetData data axis color rnd => set_data data axis color rnd
  | OpScale v => scale_setter v
  | OpSpace v => space_setter v
  | OpColor v rnd => color_setter v rnd
  | OpClean => clean
  end.

(** A caller that goes on after an exception: the object after a sequence
    of calls. *)
Fixpoint run_operations (ops : list operation) (self : visual) : visual :=
  match ops with
  | [] => self
  | op :: rest => run_operations rest (fst (run_operation op self))
  end.

End Methods.

End Visual.

Import Visual.

(** ** Stand-ins for the helpers, and sample inputs *)

Module Sample.

(** [_prepare_data] with every option off hands the array back. *)
Definition prepare_off (sf : pyval) (d : ndarray Q) : ndarray Q := d.

(** Modelled from the spec: colour resolution ([color2vb], [visbrain.utils])
    is not among the sources.  Section 4.3: one uniform colour is resolved
    from a named or RGBA specification and repeated for every channel; here
    two names and RGB or RGBA tuples of floats are known, anything else is
    refused. *)
Definition color2vb (color : pyval) (m : nat) : pyexc + list rgba :=
  match color with
  | PyStr "red" => inr (repeat (1, 0, 0, 1)%Q m)
  | PyStr "white" => inr (repeat (1, 1, 1, 1)%Q m)
  | PyTuple [PyFloat r; PyFloat g; PyFloat b] => inr (repeat (r, g, b, 1%Q) m)
  | PyTuple [PyFloat r; PyFloat g; PyFloat b; PyFloat a] =>
      inr (repeat (r, g, b, a) m)
  | _ => inl (ColorError "not a recognized type of color")
  end.

(** Two draws of the random generator. *)
Definition rnd1 (k : nat) : rgb :=
  ((2 + inject_Z (Z.of_nat k)) / 10, 1 # 2, 1 # 2)%Q.
Definition rnd2 (k : nat) : rgb :=
  (1 # 2, (3 + inject_Z (Z.of_nat k)) / 10, 1 # 2)%Q.

(** Six signals of five samples, as a [(2, 3, 5)] array and as a [(6, 5)]
    array, and the same numbers in the opposite order. *)
Definition samples30 : list Q :=
  [1; 3; 2; 6; 0; 4; 5; 1; 7; 3; 2; 8; 6; 4; 0;
   9; 1; 5; 3; 7; 0; 2; 4; 2; 1; 5; 4; 3; 2; 1]%Q.
Definition data_2x3x5 : ndarray Q := mk_ndarray [2; 3; 5] samples30.
Definition data_6x5 : ndarray Q := mk_ndarray [6; 5] samples30.
Definition data_6x5_rev : ndarray Q := mk_ndarray [6; 5] (rev samples30).

(** Six signals of two samples and four signals of three samples: arrays
    of another time length. *)
Definition samples12 : list Q :=
  [1; 3; 2; 6; 0; 4; 5; 1; 7; 3; 2; 8]%Q.
Definition data_2x3x2 : ndarray Q := mk_ndarray [2; 3; 2] samples12.
Definition data_4x3 : ndarray Q := mk_ndarray [4; 3] samples12.

(** Five signals of five samples. *)
Definition data_5x5 : ndarray Q :=
  mk_ndarray [5; 5]
    [1; 3; 2; 6; 0; 4; 5; 1; 7; 3; 2; 8; 6; 4; 0;
     9; 1; 5; 3; 7; 0; 2; 4; 2; 1]%Q.


(** A 4-D array. *)
Definition data_4d : ndarray Q := mk_ndarray [1; 1; 2; 2] [1; 3; 2; 6]%Q.

(** The constructor with the stand-ins and the default [sf], [space] and
    [scale]. *)
Definition init (data : ndarray Q) (axis : Z) (color : pyval) : pyexc + visual :=
  __init__ Planner.ndsubplot prepare_off color2vb data axis
    (PyFloat 1) color (PyFloat 2) (PyTuple [PyFloat 1; PyFloat 1]) rnd1.

(** An object with nothing in it. *)
Definition blank : visual :=
  mk_visual [] 0 0 PyNone PyNone None None None None None (0, 0) 0
    (mk_buffer (mk_ndarray [] []) 1 false)
    (mk_buffer (mk_ndarray [] []) 3 false)
    (mk_buffer (mk_ndarray [] []) 3 false) None None None None 0.

(** [set_data] with the stand-ins. *)
Definition set_data (data : option (ndarray Q)) (axis : option Z)
           (color : pyval) (rnd : nat -> rgb) : M unit :=
  Visual.set_data Planner.ndsubplot prepare_off color2vb data axis color rnd.

Definition run_operations (ops : list operation) (self : visual) : visual :=
  Visual.run_operations Planner.ndsubplot prepare_off color2vb ops self.

(** The object built from the [(2, 3, 5)] array with random colours
    ([blank] stands for a construction that raises), and the same object
    after a [set_data] with the [(6, 5)] array in red. *)
Definition grid_2x3_t5 : visual :=
  match init data_2x3x5 (-1) (PyStr "random") with
  | inr v => v
  | inl _ => blank
  end.

Definition redrawn : visual :=
  fst (set_data (Some data_6x5) None (PyStr "red") rnd2 grid_2x3_t5).

(** The object built with an int [space] and a list [scale]. *)
Definition grid_untyped : visual :=
  match __init__ Planner.ndsubplot prepare_off color2vb data_2x3x5 (-1)
          (PyFloat 1) (PyStr "random") (PyInt 2)
          (PyList [PyFloat 1; PyFloat 1]) rnd1 with
  | inr v => v
  | inl _ => blank
  end.

(** Three signals of one sample, the object built from them, and that
    object after the array was set again. *)
Definition data_3x1 : ndarray Q := mk_ndarray [3; 1] [1; 2; 3]%Q.

Definition grid_single : visual :=
  match init data_3x1 (-1) (PyStr "random") with
  | inr v => v
  | inl _ => blank
  end.

Definition single_again : visual :=
  fst (set_data (Some data_3x1) None PyNone rnd1 grid_single).

(** The object built from the [(6, 5)] array, and the [(2, 3, 5)] array
    with its last two axes swapped. *)
Definition grid_6x5 : visual :=
  match init data_6x5 (-1) (PyStr "random") with
  | inr v => v
  | inl _ => blank
  end.

Definition data_2x5x3 : ndarray Q :=
  match swapaxes3 data_2x3x5 1 with
  | inr d => d
  | inl _ => data_2x3x5
  end.


End Sample.

(** ** The rest of the class: getters, [rect] and the shaders *)

(** The [scale], [space] and [color] getters: reading an attribute that was
    never assigned raises AttributeError. *)
Definition scale_getter : M pyval :=
  bind get (fun self => of_option AttributeError (_scale self)).

Definition space_getter : M pyval :=
  bind get (fun self => of_option AttributeError (_space self)).

Definition color_getter : M pyval :=
  bind get (fun self => ret (_color self)).

(** The object of [__init__] once the inputs are kept and the three
    placeholder buffers are created, before the setters and [set_data] have
    run; [n] is [data.shape[axis]]. *)
Definition born (data : ndarray Q) (n : nat) (axis : Z) (sf color : pyval)
  : visual :=
  mk_visual (shape data) n axis sf color None None None None None (1, 1) n
    (mk_buffer (mk_ndarray [3] [Some 0%Q; Some 0%Q; Some 0%Q]) 1 false)
    (mk_buffer (mk_ndarray [1] [(0, 0, 0)]) 3 false)
    (mk_buffer (mk_ndarray [1] [(0%Q, 0%Q, 0%Q)]) 3 false)
    None None None None 0.

(** The tuples handed to the [scale] setter in a sequence of calls, those
    among them the shader variable takes, and the floats handed to the
    [space] setter. *)
Definition stored_scales (ops : list operation) : list pyval :=
  flat_map (fun op => match op with
                      | OpScale v => if is_tuple v then [v] else []
                      | _ => []
                      end) ops.

Definition uniform_scales (ops : list operation) : list pyval :=
  flat_map (fun op => match op with
                      | OpScale v =>
                          if is_tuple v && is_vec v then [v] else []
                      | _ => []
                      end) ops.

Definition accepted_spaces (ops : list operation) : list pyval :=
  flat_map (fun op => match op with
                      | OpSpace v => if is_float v then [v] else []
                      | _ => []
                      end) ops.

(** A Python number as a rational. *)
Definition as_number (v : pyval) : option Q :=
  match v with
  | PyInt z => Some (inject_Z z)
  | PyFloat q => Some q
  | _ => None
  end.

(** The [rect] property, [(-1.05, -1.1, self._space + .1, self._space + .2)];
    [None] when reading it raises (AttributeError without [_space], TypeError
    when [_space] is not a number). *)
Definition rect (self : visual) : option (Q * Q * Q * Q) :=
  match _space self with
  | Some v =>
      match as_number v with
      | Some s => Some (- (105 # 100), - (11 # 10), s + (1 # 10), s + (2 # 10))%Q
      | None => None
      end
  | None => None
  end.

(** A point of the scene lies in a rectangle [(x, y, width, height)], the
    form in which [rect] is handed to the camera. *)
Definition in_rect (r : Q * Q * Q * Q) (v : Q * Q) : Prop :=
  let '(x, y, w, h) := r in
  (x <= fst v /\ fst v <= x + w /\ y <= snd v /\ snd v <= y + h)%Q.

Module Shader.

(** [vertex_shader], up to the argument handed to [$transform]: the first two
    coordinates of the [vec4].  A division by zero leaves no number.  All
    variables are floats on the GPU; [vec2(x, a_pos)] takes [x] and the first
    coordinate of [a_pos], which is [a_position]. *)
Definition main_vertex (u_size : Q * Q) (u_n : Q) (u_scale : Q * Q) (u_space : Q)
           (a_index : Q * Q * Q) (a_position : Q) : option (Q * Q) :=
  let nrows := fst u_size in
  let ncols := snd u_size in
  let '(ix, iy, iz) := a_index in
  match np_div (2 * iz) (u_n - 1), np_div 1 (fst u_scale),
        np_div 1 ncols, np_div 1 nrows,
        np_div (u_space * (ix + (1 # 2))) ncols,
        np_div (u_space * (iy + (1 # 2))) nrows with
  | Some t, Some inv_sx, Some inv_c, Some inv_r, Some bx, Some by_ =>
      let x := (-1 + t)%Q in
      let position := ((x - (1 - inv_sx))%Q, a_position) in
      let a := ((inv_c * (98 # 100))%Q, (inv_r * (98 # 100))%Q) in
      let b := ((-1 + bx)%Q, (-1 + by_)%Q) in
      Some ((fst a * fst u_scale * fst position + fst b)%Q,
            (snd a * snd u_scale * snd position + snd b)%Q)
  | _, _, _, _, _, _ => None
  end.

(** [fract(x)] *)
Definition fract (x : Q) : Q := (x - inject_Z (Qfloor x))%Q.

Definition Qpositive (x : Q) : bool := negb (Qle_bool x 0).

(** [fragment_shader]: the colour of the fragment, [None] when it is
    discarded. *)
Definition main_fragment (v_color : Q * Q * Q * Q) (v_index : Q * Q * Q)
  : option (Q * Q * Q * Q) :=
  let '(ix, iy, _) := v_index in
  if Qpositive (fract ix) || Qpositive (fract iy) then None else Some v_color.

(** A [vec2] uniform from the tuple assigned to it. *)
Definition as_vec2 (v : pyval) : option (Q * Q) :=
  match v with
  | PyTuple [a; b] =>
      match as_number a, as_number b with
      | Some x, Some y => Some (x, y)
      | _, _ => None
      end
  | _ => None
  end.

Definition index_as_vec3 (t : nat * nat * nat) : Q * Q * Q :=
  let '(c, r, k) := t in
  (inject_Z (Z.of_nat c), inject_Z (Z.of_nat r), inject_Z (Z.of_nat k)).

(** The vertex stage on vertex number [p] of the object: the attributes are
    read in the three buffers, the uniforms in the program.  [None] when a
    variable is missing or is not a number. *)
Definition vertex (self : visual) (p : nat) : option (Q * Q) :=
  match u_scale self, u_space self,
        nth_error (flat (vb_data (_ibuffer self))) p,
        nth_error (flat (vb_data (_dbuffer self))) p with
  | Some sc, Some sp, Some idx, Some (Some y) =>
      match as_vec2 sc, as_number sp with
      | Some scale, Some space =>
          main_vertex (inject_Z (Z.of_nat (fst (u_size self))),
                       inject_Z (Z.of_nat (snd (u_size self))))
            (inject_Z (Z.of_nat (u_n self))) scale space
            (index_as_vec3 idx) y
      | _, _ => None
      end
  | _, _, _, _ => None
  end.

(** The rasteriser between two vertices of a line strip: a varying at
    parameter [t] of the segment. *)
Definition mix3 (u v : Q * Q * Q) (t : Q) : Q * Q * Q :=
  let '(u1, u2, u3) := u in
  let '(v1, v2, v3) := v in
  ((u1 * (1 - t) + v1 * t)%Q, (u2 * (1 - t) + v2 * t)%Q,
   (u3 * (1 - t) + v3 * t)%Q).

End Shader.

(** ** The canvas with axes of [uiInit.py] *)

Module AxisCanvas.

(** A vispy axis widget, as far as the class touches it. *)
Record axis_widget : Type := mk_axis {
  axis_label : string;
  visible : bool;
  linked : bool;
  updates : nat
}.

(** The widgets that only exist when the canvas was built with an axis. *)
Record axis_parts : Type := mk_parts {
  titleObj_text : string;
  titleObj_visible : bool;
  yaxis : axis_widget;
  xaxis : axis_widget;
  rpad_visible : bool
}.

(** An [AxisCanvas]: the saved variables, the widgets, the camera of the
    main view and the number of [canvas.update()] calls. *)
Record canvas : Type := mk_canvas {
  _axis : bool;
  _title : string;
  _xlabel : string;
  _ylabel : string;
  parts : option axis_parts;
  wc_camera : option string;
  canvas_updates : nat
}.

Definition C (A : Type) : Type := canvas -> canvas * (pyexc + A).

(** [__init__(axis, x_label, y_label, title)] *)
Definition __init__ (axis : bool) (x_label y_label title : string) : canvas :=
  mk_canvas axis title x_label y_label
    (if axis
     then Some (mk_parts title true (mk_axis y_label true false 0)
                  (mk_axis x_label true false 0) true)
     else None)
    None 0.

Definition with_parts (p : axis_parts) (c : canvas) : canvas :=
  mk_canvas (_axis c) (_title c) (_xlabel c) (_ylabel c) (Some p)
    (wc_camera c) (canvas_updates c).

Definition link (w : axis_widget) : axis_widget :=
  mk_axis (axis_label w) (visible w) true (updates w).

(** [set_camera(camera)] *)
Definition set_camera (camera : string) : C unit :=
  fun c =>
    let c1 := mk_canvas (_axis c) (_title c) (_xlabel c) (_ylabel c) (parts c)
                (Some camera) (canvas_updates c) in
    if _axis c1 then
      match parts c1 with
      | Some p =>
          (with_parts (mk_parts (titleObj_text p) (titleObj_visible p)
                         (link (yaxis p)) (link (xaxis p)) (rpad_visible p)) c1,
           inr tt)
      | None => (c1, inl AttributeError)
      end
    else (c1, inr tt).

Definition relabel (label : option string) (w : axis_widget) : axis_widget :=
  match label with
  | Some l => mk_axis l (visible w) (linked w) (S (updates w))
  | None => w
  end.

(** [set_info(title, xlabel, ylabel)] *)
Definition set_info (title xlabel ylabel : option string) : C unit :=
  fun c =>
    if _axis c then
      match parts c with
      | Some p =>
          let p' := mk_parts
                      (match title with Some t => t | None => titleObj_text p end)
                      (titleObj_visible p) (relabel ylabel (yaxis p))
                      (relabel xlabel (xaxis p)) (rpad_visible p) in
          (mk_canvas (_axis c) (_title c) (_xlabel c) (_ylabel c) (Some p')
             (wc_camera c) (S (canvas_updates c)), inr tt)
      | None =>
          match xlabel, ylabel, title with
          | None, None, None =>
              (mk_canvas (_axis c) (_title c) (_xlabel c) (_ylabel c) None
                 (wc_camera c) (S (canvas_updates c)), inr tt)
          | _, _, _ => (c, inl AttributeError)
          end
      end
    else (c, inl ValueError).

Definition show (v : bool) (w : axis_widget) : axis_widget :=
  mk_axis (axis_label w) v (linked w) (updates w).

(** [visible_axis(visible)] *)
Definition visible_axis (v : bool) : C unit :=
  fun c =>
    let c1 := mk_canvas v (_title c) (_xlabel c) (_ylabel c) (parts c)
                (wc_camera c) (canvas_updates c) in
    match parts c1 with
    | Some p =>
        (with_parts (mk_parts (titleObj_text p) v (show v (yaxis p))
                       (show v (xaxis p)) v) c1, inr tt)
    | None => (c1, inl AttributeError)
    end.

(** The calls made on a canvas after its construction. *)
Inductive operation : Type :=
  | OpSetCamera (camera : string)
  | OpSetInfo (title xlabel ylabel : option string)
  | OpVisibleAxis (v : bool).

Definition run_operation (op : operation) : C unit :=
  match op with
  | OpSetCamera camera => set_camera camera
  | OpSetInfo title xlabel ylabel => set_info title xlabel ylabel
  | OpVisibleAxis v => visible_axis v
  end.

(** A caller that goes on after an exception: the canvas after a sequence
    of calls. *)
Fixpoint run_operations (ops : list operation) (c : canvas) : canvas :=
  match ops with
  | [] => c
  | op :: rest => run_operations rest (fst (run_operation op c))
  end.

(** The arguments of the [visible_axis] calls of a sequence, in order. *)
Definition asked_visible (ops : list operation) : list bool :=
  flat_map (fun op => match op with
                      | OpVisibleAxis v => [v]
                      | _ => []
                      end) ops.

(** The canvas has the attributes [xaxis], [yaxis], [_titleObj], [_rpad]. *)
Definition has_widgets (c : canvas) : bool :=
  match parts c with
  | Some _ => true
  | None => false
  end.

(** An argument that was given, or else the value in place. *)
Definition given (arg : option string) (old : string) : string :=
  match arg with
  | Some v => v
  | None => old
  end.

End AxisCanvas.

(** * Properties *)

(** ** The planner *)

Lemma ndsubplot_bounds (c : nat) :
  1 <= c ->
  let s := fst (Planner.ndsubplot c) in
  let k := snd (Planner.ndsubplot c) in
  1 <= s /\ s * s <= c /\ c < (s + 1) * (s + 1) /\ c <= s * k /\ s * k < c + s.
Proof.
  intros Hc. unfold Planner.ndsubplot. cbn [fst snd].
  pose proof (Nat.sqrt_spec c (Nat.le_0_l c)) as [Hlo Hhi].
  set (s := Nat.sqrt c) in *.
  assert (Hs : 1 <= s).
  { destruct s; [cbn in Hhi; lia | lia]. }
  assert (Hs0 : s <> 0) by lia.
  pose proof (Nat.Div0.mul_div_le (c + s - 1) s) as Hd1.
  pose proof (Nat.mul_succ_div_gt (c + s - 1) s Hs0) as Hd2.
  set (k := (c + s - 1) / s) in *.
  repeat split; lia.
Qed.

(** C3. For every channel count [c >= 1] the planner returns [(rows, cols)]
    with [rows * cols >= c]; no pair [(r', k')] that also holds [c] channels
    has a strictly smaller [|r' - k'|] together with a product that is not
    larger; and one channel gets the grid [(1, 1)].  The planner is a
    function of [c] alone. *)
Theorem ndsubplot_near_square (c : nat) (Hc : 1 <= c) :
  let rows := fst (Planner.ndsubplot c) in
  let cols := snd (Planner.ndsubplot c) in
  c <= rows * cols /\
  (forall r' k',
      c <= r' * k' ->
      ~ (Planner.imbalance r' k' < Planner.imbalance rows cols
         /\ r' * k' <= rows * cols)) /\
  Planner.ndsubplot 1 = (1, 1).
Proof.
  destruct (ndsubplot_bounds c Hc) as (Hs & Hlo & Hhi & Hk1 & Hk2).
  cbv zeta.
  set (s := fst (Planner.ndsubplot c)) in *.
  set (k := snd (Planner.ndsubplot c)) in *.
  split; [exact Hk1 | split; [|reflexivity]].
  intros r' k' Hfit [Hd Ha].
  unfold Planner.imbalance in Hd.
  assert (Hcases : k = s \/ k = s + 1 \/ k = s + 2) by nia.
  destruct Hcases as [Hk | [Hk | Hk]]; rewrite Hk in *.
  - lia.
  - assert (r' = k') by lia. subst k'.
    destruct (le_lt_dec r' s); nia.
  - destruct (le_lt_dec r' s); destruct (le_lt_dec k' s); nia.
Qed.

Lemma ndsubplot_near_square_witness :
  5 <= 2 * 3 /\
  (forall r' k',
      5 <= r' * k' ->
      ~ (Planner.imbalance r' k' < Planner.imbalance 2 3 /\ r' * k' <= 2 * 3)) /\
  Planner.ndsubplot 1 = (1, 1).
Proof.
  apply (ndsubplot_near_square 5). lia.
Defined.

(** ** Lists and arrays *)

Lemma gather_length {A} (d : A) len src l :
  length (gather d len src l) = len.
Proof. unfold gather. now rewrite length_map, length_seq. Qed.

Lemma nth_error_gather {A} (d : A) len src l p :
  p < len -> nth_error (gather d len src l) p = Some (nth (src p) l d).
Proof.
  intros Hp. unfold gather.
  rewrite nth_error_map, nth_error_seq.
  destruct (Nat.ltb_spec p len); [reflexivity | lia].
Qed.

Lemma wrap_index_of_nat len i :
  i < len -> wrap_index len (Z.of_nat i) = Some i.
Proof.
  intros Hi. unfold wrap_index.
  replace ((- Z.of_nat len <=? Z.of_nat i)%Z) with true
    by (symmetry; apply Z.leb_le; lia).
  replace ((Z.of_nat i <? Z.of_nat len)%Z) with true
    by (symmetry; apply Z.ltb_lt; lia).
  replace ((Z.of_nat i <? 0)%Z) with false
    by (symmetry; apply Z.ltb_ge; lia).
  cbn. now rewrite Nat2Z.id.
Qed.

(** ** Sums, peaks and lines *)

Lemma Qsum_cons x t : Qsum (x :: t) = (x + Qsum t)%Q.
Proof. reflexivity. Qed.

Lemma max_abs_cons x t : max_abs (x :: t) = Qmax (Qabs x) (max_abs t).
Proof. reflexivity. Qed.



Lemma max_abs_nonneg l : (0 <= max_abs l)%Q.
Proof.
  destruct l as [|x t].
  - apply Qle_refl.
  - rewrite max_abs_cons. eapply Qle_trans; [apply Qabs_nonneg | apply Q.le_max_l].
Qed.

Lemma max_abs_ge l x : In x l -> (Qabs x <= max_abs l)%Q.
Proof.
  induction l as [|y t IH]; [contradiction|].
  rewrite max_abs_cons. intros [-> | Hin].
  - apply Q.le_max_l.
  - eapply Qle_trans; [apply IH, Hin | apply Q.le_max_r].
Qed.


Lemma max_abs_flat l : (forall x, In x l -> x == 0)%Q -> (max_abs l == 0)%Q.
Proof.
  induction l as [|x t IH]; intros Hall.
  - reflexivity.
  - rewrite max_abs_cons.
    rewrite (IH (fun y Hy => Hall y (or_intror Hy))).
    rewrite (Hall x (or_introl eq_refl)). reflexivity.
Qed.




(** A line whose samples all equal its mean: every sample becomes nan. *)
Lemma normalise_row_flat row :
  (forall x, In x row -> (x == mean row)%Q) ->
  normalise_row row = map (fun _ => None) row.
Proof.
  intros Hall. unfold normalise_row.
  set (mu := mean row).
  assert (HM : Qeq_bool (max_abs (map (fun v => (v - mu)%Q) row)) 0 = true).
  { apply Qeq_bool_iff, max_abs_flat.
    intros v Hv. apply in_map_iff in Hv. destruct Hv as (x & <- & Hx).
    rewrite (Hall x Hx). fold mu. ring. }
  rewrite map_map. apply map_ext. intros v. unfold np_div. now rewrite HM.
Qed.

Lemma Qsum_constant x0 row :
  (forall y, In y row -> (y == x0)%Q) ->
  (Qsum row == inject_Z (Z.of_nat (length row)) * x0)%Q.
Proof.
  induction row as [|y t IH]; intros Hall.
  - cbn. ring.
  - cbn [length]. rewrite Nat2Z.inj_succ. unfold Z.succ.
    rewrite inject_Z_plus, Qsum_cons.
    rewrite (IH (fun z Hz => Hall z (or_intror Hz))).
    rewrite (Hall y (or_introl eq_refl)). ring.
Qed.

(** A line whose samples are all equal: every sample becomes nan. *)
Lemma normalise_row_constant row :
  (forall x y, In x row -> In y row -> (x == y)%Q) ->
  normalise_row row = map (fun _ => None) row.
Proof.
  intros Heq. apply normalise_row_flat.
  intros x Hx. unfold mean.
  rewrite (Qsum_constant x row (fun y Hy => Heq y x Hy Hx)).
  assert (Hn : ~ (inject_Z (Z.of_nat (length row)) == 0)%Q).
  { destruct row as [|r0 rt]; [contradiction|].
    cbn [length]. rewrite Nat2Z.inj_succ. unfold Z.succ.
    rewrite inject_Z_plus.
    assert (0 <= inject_Z (Z.of_nat (length rt)))%Q.
    { change 0%Q with (inject_Z 0). rewrite <- Zle_Qle. lia. }
    change (inject_Z 1) with 1%Q. lra. }
  field. exact Hn.
Qed.

Lemma chunks_length {A} n m (l : list A) : length (chunks n m l) = m.
Proof. unfold chunks. now rewrite length_map, length_seq. Qed.

Lemma skipn_past {A} (r l : list A) k :
  skipn (length r + k) (r ++ l) = skipn k l.
Proof. induction r as [|x t IH]; [reflexivity | exact IH]. Qed.

Lemma chunks_succ {A} n m (r l : list A) :
  length r = n -> chunks n (S m) (r ++ l) = r :: chunks n m l.
Proof.
  intros Hr. unfold chunks. cbn [seq map Nat.mul skipn].
  rewrite firstn_app, Hr, Nat.sub_diag, firstn_O, app_nil_r.
  rewrite <- Hr at 1. rewrite firstn_all. f_equal.
  rewrite <- seq_shift, map_map. apply map_ext. intros i.
  f_equal. replace (S i * n) with (length r + i * n) by (cbn; lia).
  apply skipn_past.
Qed.

Lemma chunks_concat {A} n (rows : list (list A)) :
  Forall (fun r => length r = n) rows ->
  chunks n (length rows) (concat rows) = rows.
Proof.
  induction 1 as [|r t Hr Ht IH]; [reflexivity|].
  cbn [length concat]. rewrite chunks_succ by exact Hr. now rewrite IH.
Qed.

Lemma chunks_row_length {A} n m (l : list A) :
  length l = m * n -> Forall (fun r => length r = n) (chunks n m l).
Proof.
  intros Hl. unfold chunks. apply Forall_map, Forall_forall.
  intros i Hi. apply in_seq in Hi.
  rewrite length_firstn, length_skipn. nia.
Qed.

Lemma normalise_row_length row : length (normalise_row row) = length row.
Proof. unfold normalise_row. now rewrite !length_map. Qed.

Lemma normalise_lines P m n dn :
  shape P = [m; n] -> length (flat P) = m * n ->
  normalise P = inr dn ->
  lines dn = map normalise_row (lines P) /\ length (lines P) = m /\ 0 < n.
Proof.
  intros Hs Hl. unfold normalise, lines. rewrite Hs.
  cbn [last_dim last lead_dims removelast prod_shape fold_right].
  rewrite Nat.mul_1_r.
  destruct (Nat.eqb_spec n 0) as [|Hn]; [discriminate|].
  intros [= <-]. cbn [shape flat last_dim last lead_dims removelast prod_shape fold_right].
  rewrite Nat.mul_1_r, chunks_length.
  repeat split; [|lia].
  rewrite <- (chunks_length n m (flat P)) at 1.
  rewrite <- (length_map normalise_row).
  apply chunks_concat.
  apply Forall_map. eapply Forall_impl; [|apply chunks_row_length, Hl].
  intros r Hr. now rewrite normalise_row_length.
Qed.

(** ** What the methods compute *)

Section Properties.

Variable ndsubplot : nat -> nat * nat.
Variable prepare_data : pyval -> ndarray Q -> ndarray Q.
Variable color2vb : pyval -> nat -> pyexc + list rgba.

Local Abbreviation set_data_geometry :=
  (set_data_geometry ndsubplot prepare_data).
Local Abbreviation set_data_color := (set_data_color color2vb).
Local Abbreviation set_data := (set_data ndsubplot prepare_data color2vb).
Local Abbreviation color_setter :=
  (color_setter ndsubplot prepare_data color2vb).
Local Abbreviation __init__ := (__init__ ndsubplot prepare_data color2vb).
Local Abbreviation run_operation :=
  (run_operation ndsubplot prepare_data color2vb).
Local Abbreviation run_operations :=
  (run_operations ndsubplot prepare_data color2vb).
Local Abbreviation grid_of := (grid_of ndsubplot).
Local Abbreviation fits := (fits ndsubplot).
Local Abbreviation prepared := (prepared ndsubplot prepare_data).
Local Abbreviation recorded := (recorded ndsubplot).
Local Abbreviation uploaded := (uploaded ndsubplot).

(** The canonical array has three axes and the first [g_size] holds as
    many cells as it has signals: the first reshape of [sig_index] never
    fails. *)
Lemma to_3d_g_size axis d d3 g :
  to_3d axis d = inr (d3, g) ->
  fst g * snd g = lead_dims (shape d3) /\ length (shape d3) = 3.
Proof.
  unfold to_3d.
  destruct (shape d) as [|a [|b [|c [|x t]]]] eqn:Hs; try discriminate.
  - intros H; injection H as <- <-. cbn. lia.
  - intros H; injection H as <- <-.
    destruct (axis =? 0)%Z.
    + unfold swapaxes2. rewrite Hs. cbn. lia.
    + rewrite Hs. cbn. lia.
  - destruct (axis =? 2)%Z.
    + intros H; injection H as <- <-. rewrite Hs. cbn. lia.
    + unfold swapaxes3. rewrite Hs.
      destruct (wrap_index 3 axis) as [[|[|k]]|]; try discriminate;
        intros H; injection H as <- <-; try rewrite Hs; cbn; lia.
Qed.

(** The data block of [set_data], outcome by outcome. *)
Lemma set_data_geometry_run axis d st :
  set_data_geometry axis d st =
  match to_3d axis d with
  | inl e => (st, inl e)
  | inr (d3, _) =>
      if fits st d3 then
        match normalise (prepared st d3) with
        | inl e => (recorded st d3, inl e)
        | inr dn =>
            if takes (components (shape dn)) (_dbuffer st) then
              if takes 3 (_ibuffer st) then (uploaded st d3 dn, inr tt)
              else (set__dbuffer (vb_with_data dn (_dbuffer st))
                      (recorded st d3),
                    inl (refusal 3 (_ibuffer st)))
            else (recorded st d3,
                  inl (refusal (components (shape dn)) (_dbuffer st)))
        end
      else (set__ori_shape (removelast (shape d3)) st, inl ValueError)
  end.
Proof.
  unfold Visual.set_data_geometry, bind, of_sum, of_option, modify, get,
    ret, raise.
  destruct (to_3d axis d) as [e | [d3 g]] eqn:H3; [reflexivity|].
  cbn [fst snd].
  destruct (to_3d_g_size _ _ _ _ H3) as [Hg Hnd].
  unfold Visual.fits, Visual.prepared, Visual.uploaded,
    Visual.recorded, Visual.grid_of, reshape, size, arange, __len__.
  cbn [shape flat prod_shape fold_right _n _sf set__ori_shape].
  replace (fst g * (snd g * 1) =? lead_dims (shape d3) * 1) with true
    by (symmetry; apply Nat.eqb_eq; lia).
  set (m := lead_dims (shape d3)) in *.
  set (rows := fst (ndsubplot m)). set (cols := snd (ndsubplot m)).
  replace (rows * (cols * (_n st * 1))) with (rows * cols * _n st) by lia.
  cbn [shape flat prod_shape fold_right].
  replace (rows * (cols * 1) =? fst g * (snd g * 1)) with (rows * cols =? m)
    by (f_equal; lia).
  fold (prod_shape (shape d3)).
  destruct (rows * cols * _n st =? prod_shape (shape d3)); [|reflexivity].
  destruct (rows * cols =? m); [|reflexivity].
  cbn [andb shape flat removelast].
  destruct (normalise _) as [e|dn]; [reflexivity|].
  unfold vb_set_data, takes, refusal.
  cbn [_dbuffer _ibuffer set__opt_shape set__sig_index set__ori_shape
       set__dbuffer].
  destruct (components (shape dn) =? vb_last_dim (_dbuffer st));
    cbn [negb andb]; [|reflexivity].
  destruct (vb_deleted (_dbuffer st)); cbn [negb andb]; [reflexivity|].
  cbn [_dbuffer _ibuffer set__opt_shape set__sig_index set__ori_shape
       set__dbuffer].
  destruct (3 =? vb_last_dim (_ibuffer st)); cbn [negb andb]; [|reflexivity].
  destruct (vb_deleted (_ibuffer st)); reflexivity.
Qed.

(** The colour block of [set_data], outcome by outcome. *)
Lemma set_data_color_run color rnd st :
  set_data_color color rnd st =
  match _g_size st with
  | None => (st, inl AttributeError)
  | Some g =>
      if is_random color
      then paint st (map rnd (seq 0 (fst g * snd g)))
      else match color2vb color (fst g * snd g) with
           | inl e => (st, inl e)
           | inr c => paint st (map drop_alpha c)
           end
  end.
Proof.
  assert (Hpaint : forall singcol,
             match vb_set_data 3
                     (mk_ndarray [length (np_repeat singcol (_n st))]
                        (np_repeat singcol (_n st))) (_cbuffer st) with
             | inl e => (st, @inl pyexc unit e)
             | inr cb => (set__cbuffer cb st, inr tt)
             end = paint st singcol).
  { intros singcol. unfold paint, painted, vb_set_data, takes, refusal.
    destruct (3 =? vb_last_dim (_cbuffer st)); cbn [negb andb];
      [|reflexivity].
    destruct (vb_deleted (_cbuffer st)); reflexivity. }
  unfold Visual.set_data_color, bind, of_sum, of_option, modify, get,
    ret, raise, __len__.
  destruct (_g_size st) as [g|]; [|reflexivity].
  destruct (is_random color).
  - rewrite <- Hpaint.
    destruct (vb_set_data 3 _ (_cbuffer st)); reflexivity.
  - destruct (color2vb color (fst g * snd g)) as [e|c]; [reflexivity|].
    rewrite <- Hpaint.
    destruct (vb_set_data 3 _ (_cbuffer st)); reflexivity.
Qed.

(** The upload of the colours writes the colour buffer and nothing else,
    and nothing at all when it raises. *)
Lemma paint_frame st singcol :
  fst (paint st singcol) = set__cbuffer (_cbuffer (fst (paint st singcol))) st /\
  (forall e, snd (paint st singcol) = inl e -> fst (paint st singcol) = st).
Proof.
  unfold paint, painted.
  destruct (takes 3 (_cbuffer st)); cbn [fst snd].
  - split; [now destruct st | discriminate].
  - split; [now destruct st | reflexivity].
Qed.

(** [set_data]: the data block if there is an array, then the colour block
    if there is a colour. *)
Lemma set_data_run data axis color rnd st :
  set_data data axis color rnd st =
  let after :=
    match data with
    | Some d => set_data_geometry (resolve_axis st axis) d st
    | None => (st, inr tt)
    end in
  match snd after with
  | inl e => (fst after, inl e)
  | inr _ =>
      if is_none color then (fst after, inr tt)
      else set_data_color color rnd (fst after)
  end.
Proof.
  unfold Visual.set_data, bind, get, ret, resolve_axis.
  destruct data as [d|]; cbn [fst snd].
  - destruct (set_data_geometry _ d st) as [s1 [e|[]]]; cbn [fst snd];
      [reflexivity|].
    destruct (is_none color); reflexivity.
  - destruct (is_none color); reflexivity.
Qed.

(** An upload of colours that returns has painted the object. *)
Lemma paint_returns st singcol st' :
  paint st singcol = (st', inr tt) ->
  st' = painted st singcol /\ takes 3 (_cbuffer st) = true.
Proof.
  unfold paint. destruct (takes 3 (_cbuffer st)); [|discriminate].
  intros H; injection H as <-. split; reflexivity.
Qed.

(** *** Frames *)

Lemma set_data_geometry_inputs axis d st :
  same_inputs st (fst (set_data_geometry axis d st)) /\
  _cbuffer (fst (set_data_geometry axis d st)) = _cbuffer st.
Proof.
  rewrite set_data_geometry_run.
  destruct (to_3d axis d) as [e | [d3 g]]; [repeat split|].
  destruct (fits st d3); [|repeat split].
  destruct (normalise _) as [e|dn]; [repeat split|].
  destruct (takes _ (_dbuffer st)); [|repeat split].
  destruct (takes 3 (_ibuffer st)); repeat split.
Qed.

(** The colour block writes the colour buffer and nothing else. *)
Lemma set_data_color_frame color rnd st :
  fst (set_data_color color rnd st)
  = set__cbuffer (_cbuffer (fst (set_data_color color rnd st))) st.
Proof.
  rewrite set_data_color_run.
  destruct (_g_size st) as [g|]; [|destruct st; reflexivity].
  destruct (is_random color); [exact (proj1 (paint_frame _ _))|].
  destruct (color2vb color (fst g * snd g)); [destruct st; reflexivity|].
  exact (proj1 (paint_frame _ _)).
Qed.

(** A colour block that raises has written nothing. *)
Lemma set_data_color_raise color rnd st e :
  snd (set_data_color color rnd st) = inl e ->
  fst (set_data_color color rnd st) = st.
Proof.
  rewrite set_data_color_run.
  destruct (_g_size st) as [g|]; [|reflexivity].
  destruct (is_random color); [exact (proj2 (paint_frame _ _) e)|].
  destruct (color2vb color (fst g * snd g)); [reflexivity|].
  exact (proj2 (paint_frame _ _) e).
Qed.

(** A data block that raises has left the index buffer and the grid shape
    alone; it has left the position buffer alone too, unless that buffer
    took the upload and the index buffer refused its own. *)
Lemma set_data_geometry_raise axis d st e :
  snd (set_data_geometry axis d st) = inl e ->
  _ibuffer (fst (set_data_geometry axis d st)) = _ibuffer st /\
  _g_size (fst (set_data_geometry axis d st)) = _g_size st /\
  u_size (fst (set_data_geometry axis d st)) = u_size st /\
  (_dbuffer (fst (set_data_geometry axis d st)) = _dbuffer st \/
   takes 3 (_ibuffer st) = false /\ e = refusal 3 (_ibuffer st)).
Proof.
  rewrite set_data_geometry_run.
  destruct (to_3d axis d) as [e' | [d3 g]]; [intros _; repeat split; now left|].
  destruct (fits st d3); [|intros _; repeat split; now left].
  destruct (normalise _) as [e'|dn]; [intros _; repeat split; now left|].
  destruct (takes _ (_dbuffer st)); [|intros _; repeat split; now left].
  destruct (takes 3 (_ibuffer st)) eqn:Hi; [discriminate|].
  cbn [snd]. intros H; injection H as <-.
  repeat split. now right.
Qed.

Lemma nth_error_np_repeat {A} (l : list A) n k j :
  j < n -> nth_error (np_repeat l n) (k * n + j) = nth_error l k.
Proof.
  intros Hj. revert k.
  induction l as [|x t IH]; intros k.
  - cbn. now destruct (k * n + j), k.
  - unfold np_repeat. cbn [flat_map]. fold (np_repeat t n).
    destruct k as [|k].
    + cbn [Nat.mul Nat.add nth_error].
      rewrite nth_error_app1 by now rewrite repeat_length.
      now apply nth_error_repeat.
    + rewrite nth_error_app2 by (rewrite repeat_length; lia).
      rewrite repeat_length.
      replace (S k * n + j - n) with (k * n + j) by lia.
      apply IH.
Qed.

(** *** The sample count *)

Lemma run_operation_keeps op st :
  _n (fst (run_operation op st)) = _n st /\
  _sh (fst (run_operation op st)) = _sh st.
Proof.
  destruct op as [data axis color rnd | v | v | v rnd | ]; cbn [Visual.run_operation].
  - rewrite set_data_run. cbv zeta.
    assert (Hg : forall ax d,
               _n (fst (set_data_geometry ax d st)) = _n st /\
               _sh (fst (set_data_geometry ax d st)) = _sh st).
    { intros ax d. destruct (set_data_geometry_inputs ax d st) as [Hi _].
      unfold same_inputs in Hi. tauto. }
    destruct data as [d|].
    + specialize (Hg (resolve_axis st axis) d).
      destruct (set_data_geometry _ d st) as [s1 [e|[]]]; cbn [fst snd] in *;
        [exact Hg|].
      destruct (is_none color); [exact Hg|].
      rewrite set_data_color_frame. exact Hg.
    + cbn [fst snd]. destruct (is_none color); [split; reflexivity|].
      rewrite set_data_color_frame. split; reflexivity.
  - unfold scale_setter. destruct (is_tuple v), (is_vec v); split; reflexivity.
  - unfold space_setter. destruct (is_float v); split; reflexivity.
  - unfold Visual.color_setter, bind, modify. cbn [fst snd].
    rewrite set_data_run. cbn [fst snd].
    destruct (is_none v); [split; reflexivity|].
    rewrite set_data_color_frame. split; reflexivity.
  - split; reflexivity.
Qed.

Lemma run_operations_keep ops st :
  _n (run_operations ops st) = _n st /\ _sh (run_operations ops st) = _sh st.
Proof.
  revert st. induction ops as [|op rest IH]; intros st; cbn.
  - split; reflexivity.
  - destruct (IH (fst (run_operation op st))) as [-> ->].
    apply run_operation_keeps.
Qed.

(** The [space] setter never raises; the [scale] setter raises for a
    tuple the shader variable does not take, and for nothing else. *)
Lemma setters_return v st :
  snd (scale_setter v st)
  = (if is_tuple v && negb (is_vec v) then inl TypeError else inr tt) /\
  snd (space_setter v st) = inr tt.
Proof.
  unfold scale_setter, space_setter.
  destruct (is_tuple v), (is_vec v), (is_float v); split; reflexivity.
Qed.

(** What the constructor asserts of [scale] is enough for the setter. *)
Lemma is_pair_scale_returns v st :
  is_pair v = true -> snd (scale_setter v st) = inr tt.
Proof.
  intros Hp. rewrite (proj1 (setters_return v st)).
  destruct v as [| | | |l|l]; try discriminate Hp; [|reflexivity].
  cbn in Hp |- *. apply Nat.eqb_eq in Hp. rewrite Hp. reflexivity.
Qed.

(** A constructor that returns ran the two setters and [set_data] on an
    object that holds the shape of its array and the length of its time
    axis. *)
Lemma init_returns data axis sf color space scale rnd self :
  __init__ data axis sf color space scale rnd = inr self ->
  exists s0,
    shape_getitem (shape data) axis = Some (_n s0) /\
    _sh s0 = shape data /\ ndim data <= 3 /\ _n s0 = _n self /\
    _sh s0 = _sh self /\
    set_data (Some data) (Some axis) color rnd
      (fst (space_setter space (fst (scale_setter scale s0))))
    = (self, inr tt).
Proof.
  unfold Visual.__init__.
  destruct (ndim data <=? 3) eqn:Hnd; cbn [andb negb]; [|discriminate].
  destruct (is_number sf); cbn [andb negb]; [|discriminate].
  destruct (is_number space); cbn [andb negb]; [|discriminate].
  destruct (is_pair scale) eqn:Hpair; cbn [andb negb]; [|discriminate].
  destruct (shape_getitem (shape data) axis) as [n|]; [|discriminate].
  cbv zeta. set (s0 := mk_visual _ _ _ _ _ _ _ _ _ _ _ _ _ _ _ _ _ _ _ _).
  unfold bind.
  pose proof (is_pair_scale_returns scale s0 Hpair) as Hsc.
  destruct (scale_setter scale s0) as [s1 r1] eqn:H1. cbn [snd] in Hsc.
  subst r1.
  pose proof (setters_return space s1) as [_ Hsp].
  destruct (space_setter space s1) as [s2 r2] eqn:H2. cbn [snd] in Hsp.
  subst r2.
  destruct (set_data (Some data) (Some axis) color rnd s2) as [s3 [e|[]]] eqn:H3;
    cbn [fst snd]; [discriminate|].
  intros H; injection H as <-.
  exists s0.
  pose proof (run_operation_keeps (OpScale scale) s0) as K1.
  pose proof (run_operation_keeps (OpSpace space) s1) as K2.
  pose proof (run_operation_keeps (OpSetData (Some data) (Some axis) color rnd) s2)
    as K3.
  cbn [Visual.run_operation] in K1, K2, K3.
  rewrite H1 in K1. rewrite H2 in K2. rewrite H3 in K3. cbn [fst] in *.
  apply Nat.leb_le in Hnd.
  repeat split; try reflexivity; try assumption.
  - destruct K1 as [K1 _], K2 as [K2 _], K3 as [K3 _]. congruence.
  - destruct K1 as [_ K1], K2 as [_ K2], K3 as [_ K3]. congruence.
  - rewrite H1. cbn [fst]. rewrite H2. cbn [fst]. exact H3.
Qed.

Lemma index_triples_length rows cols n :
  length (index_triples rows cols n (rows * cols)) = rows * cols * n.
Proof.
  assert (Hrep : forall (A : Type) (l : list A) k,
             length (np_repeat l k) = length l * k).
  { intros A l k. unfold np_repeat.
    induction l as [|x t IH]; cbn; [reflexivity|].
    rewrite length_app, repeat_length, IH. reflexivity. }
  assert (Htile : forall (A : Type) (l : list A) k,
             length (np_tile l k) = k * length l).
  { intros A l k. unfold np_tile.
    induction k as [|k IH]; cbn; [reflexivity|].
    rewrite length_app, IH. reflexivity. }
  unfold index_triples, np_c3.
  rewrite !length_combine, !Hrep, !Htile, !length_seq. lia.
Qed.

(** A [set_data] that returns was handed (signals x [__len__]) samples and
    has sent that many index triples. *)
Lemma set_data_uses_len st d ax c r st' :
  set_data (Some d) ax c r st = (st', inr tt) ->
  exists d3 g,
    to_3d (resolve_axis st ax) d = inr (d3, g) /\
    size d3 = lead_dims (shape d3) * __len__ st /\
    length (flat (vb_data (_ibuffer st')))
    = lead_dims (shape d3) * __len__ st /\
    __len__ st' = __len__ st.
Proof.
  intros Hset.
  destruct (run_operation_keeps (OpSetData (Some d) ax c r) st) as [Kn _].
  cbn [Visual.run_operation] in Kn. rewrite Hset in Kn. cbn [fst] in Kn.
  rewrite set_data_run in Hset. cbv zeta in Hset.
  rewrite set_data_geometry_run in Hset.
  destruct (to_3d (resolve_axis st ax) d) as [e | [d3 g]];
    [discriminate|].
  exists d3, g. split; [reflexivity|].
  destruct (fits st d3) eqn:Hfit; [|discriminate].
  destruct (normalise (prepared st d3)) as [e | dn]; [discriminate|].
  destruct (takes _ (_dbuffer st)); [|discriminate].
  destruct (takes 3 (_ibuffer st)); [|discriminate].
  cbn [fst snd] in Hset.
  apply andb_prop in Hfit. destruct Hfit as [Hf1 Hf2].
  apply Nat.eqb_eq in Hf1, Hf2.
  assert (Hib : flat (vb_data (_ibuffer st'))
                = index_triples (fst (grid_of d3)) (snd (grid_of d3)) (_n st)
                    (lead_dims (shape d3))).
  { destruct (is_none c).
    - injection Hset as <-. reflexivity.
    - pose proof (set_data_color_frame c r (uploaded st d3 dn)) as Hfr.
      rewrite Hset in Hfr. cbn [fst] in Hfr. rewrite Hfr. reflexivity. }
  rewrite Hib. unfold __len__.
  assert (Hlen : length (index_triples (fst (grid_of d3)) (snd (grid_of d3))
                           (_n st) (lead_dims (shape d3)))
                 = lead_dims (shape d3) * _n st).
  { rewrite <- Hf2. apply index_triples_length. }
  rewrite Hlen, <- Hf1, Hf2.
  split; [reflexivity|]. split; [reflexivity | exact Kn].
Qed.

(** C10. The number of samples is fixed at construction: [__len__] is the
    length of the constructor's array along the constructor's axis, and it
    is still that, with the stored input shape, after every sequence of
    calls (set_data, the three setters, clean), raising or not.  A later
    [set_data] with a fresh array reshapes it against this number: it only
    returns if the array holds (signals x that number) samples, and it then
    sends that many index triples. *)
Theorem len_fixed_at_construction data axis sf color space scale rnd self ops :
  __init__ data axis sf color space scale rnd = inr self ->
  shape_getitem (shape data) axis = Some (__len__ self) /\
  _sh self = shape data /\
  __len__ (run_operations ops self) = __len__ self /\
  _sh (run_operations ops self) = shape data /\
  (forall d ax c r self',
      set_data (Some d) ax c r (run_operations ops self) = (self', inr tt) ->
      exists d3 g,
        to_3d (resolve_axis (run_operations ops self) ax) d = inr (d3, g) /\
        size d3 = lead_dims (shape d3) * __len__ self /\
        length (flat (vb_data (_ibuffer self')))
        = lead_dims (shape d3) * __len__ self /\
        __len__ self' = __len__ self).
Proof.
  intros Hinit.
  destruct (init_returns _ _ _ _ _ _ _ _ Hinit)
    as (s0 & Hn & Hsh & _ & Hn' & Hsh' & _).
  destruct (run_operations_keep ops self) as [Kn Ks].
  split; [unfold __len__; congruence|].
  split; [congruence|].
  split; [exact Kn|].
  split; [congruence|].
  intros d ax c r self' Hset.
  destruct (set_data_uses_len _ _ _ _ _ _ Hset) as (d3 & g & H3 & Hs & Hl & Hk).
  exists d3, g. unfold __len__ in *. rewrite <- Kn.
  split; [exact H3|]. split; [exact Hs|]. split; [exact Hl | exact Hk].
Qed.

(** *** Colour-only updates *)

(** The colour-only call, outcome by outcome. *)
Lemma set_data_color_only_run axis color rnd st :
  set_data None axis color rnd st =
  if is_none color then (st, inr tt)
  else match _g_size st with
       | None => (st, inl AttributeError)
       | Some g =>
           if is_random color
           then paint st (map rnd (seq 0 (fst g * snd g)))
           else match color2vb color (fst g * snd g) with
                | inl e => (st, inl e)
                | inr c => paint st (map drop_alpha c)
                end
       end.
Proof.
  rewrite set_data_run. cbn [fst snd].
  destruct (is_none color); [reflexivity|]. apply set_data_color_run.
Qed.

(** C6. [set_data] with only a colour ([data] is [None]) writes the colour
    buffer and nothing else: the position buffer, the index buffer, the
    recorded mapping and the grid shape are as before the call, whatever
    its outcome.  When the call returns, the colour buffer holds the colours
    just resolved, one per signal and each repeated for every sample: the
    draws of the generator for ['random'], the lines of the resolved colour
    (without alpha) otherwise.  It returns whenever the grid is known, the
    colour buffer takes the upload and the colour is resolved.  Two such
    calls with ['random'] whose draws differ for some signal return and
    leave different colour buffers and the same position and index buffers
    (there is at least one sample per signal). *)
Theorem set_data_color_only st axis color rnd :
  let r := set_data None axis color rnd st in
  fst r = set__cbuffer (_cbuffer (fst r)) st /\
  same_geometry st (fst r) /\
  _ori_shape (fst r) = _ori_shape st /\
  (is_none color = false ->
   snd r = inr tt ->
   exists g singcol,
     _g_size st = Some g /\
     (if is_random color
      then singcol = map rnd (seq 0 (fst g * snd g))
      else exists c,
          color2vb color (fst g * snd g) = inr c /\
          singcol = map drop_alpha c) /\
     vb_data (_cbuffer (fst r))
     = mk_ndarray [length (np_repeat singcol (__len__ st))]
         (np_repeat singcol (__len__ st))) /\
  (forall g,
      _g_size st = Some g ->
      takes 3 (_cbuffer st) = true ->
      is_random color = true \/
      (exists c, color2vb color (fst g * snd g) = inr c) ->
      snd r = inr tt) /\
  (forall g rnd1 rnd2 k,
      _g_size st = Some g ->
      takes 3 (_cbuffer st) = true ->
      0 < __len__ st ->
      k < fst g * snd g ->
      rnd1 k <> rnd2 k ->
      let r1 := set_data None axis (PyStr "random") rnd1 st in
      let r2 := set_data None axis (PyStr "random") rnd2 (fst r1) in
      snd r1 = inr tt /\ snd r2 = inr tt /\
      flat (vb_data (_cbuffer (fst r1)))
      = np_repeat (map rnd1 (seq 0 (fst g * snd g))) (__len__ st) /\
      flat (vb_data (_cbuffer (fst r2)))
      = np_repeat (map rnd2 (seq 0 (fst g * snd g))) (__len__ st) /\
      _cbuffer (fst r1) <> _cbuffer (fst r2) /\
      _dbuffer (fst r1) = _dbuffer (fst r2) /\
      _ibuffer (fst r1) = _ibuffer (fst r2)).
Proof.
  cbv zeta.
  assert (Hfr : forall c r s,
             fst (set_data None axis c r s)
             = set__cbuffer (_cbuffer (fst (set_data None axis c r s))) s).
  { intros c r s. rewrite set_data_run. cbn [fst snd].
    destruct (is_none c); [now destruct s|].
    apply set_data_color_frame. }
  split; [apply Hfr|].
  split; [rewrite Hfr; repeat split|].
  split; [rewrite Hfr; reflexivity|].
  split.
  { intros Hnone. rewrite set_data_color_only_run, Hnone.
    destruct (_g_size st) as [g|]; [|discriminate].
    unfold paint, painted, __len__.
    destruct (is_random color).
    - destruct (takes 3 (_cbuffer st)); [|discriminate].
      intros _. exists g. eexists. split; [reflexivity|].
      split; [reflexivity|]. reflexivity.
    - destruct (color2vb color (fst g * snd g)) as [e|c] eqn:Hc;
        [discriminate|].
      destruct (takes 3 (_cbuffer st)); [|discriminate].
      intros _. exists g, (map drop_alpha c). split; [reflexivity|].
      split; [exists c; split; [exact Hc | reflexivity]|]. reflexivity. }
  split.
  { intros g Hg Htakes Hcol. rewrite set_data_color_only_run, Hg.
    destruct (is_none color); [reflexivity|].
    unfold paint. rewrite Htakes.
    destruct (is_random color); [reflexivity|].
    destruct Hcol as [Hr | (c & ->)]; [discriminate | reflexivity]. }
  intros g rnd1 rnd2 k Hg Htakes Hn Hk Hdiff.
  assert (Hrun : forall r s,
             _g_size s = Some g -> takes 3 (_cbuffer s) = true ->
             set_data None axis (PyStr "random") r s
             = (painted s (map r (seq 0 (fst g * snd g))), inr tt)).
  { intros r s Hs Ht. rewrite set_data_color_only_run, Hs.
    cbn [is_none is_random String.eqb Ascii.eqb Bool.eqb].
    unfold paint. rewrite Ht. reflexivity. }
  rewrite (Hrun rnd1 st Hg Htakes). cbn [fst snd].
  rewrite (Hrun rnd2 (painted st (map rnd1 (seq 0 (fst g * snd g)))))
    by (try exact Hg; exact Htakes).
  unfold painted, __len__ in *. cbn.
  repeat split.
  intros Heq.
  assert (Hfl : np_repeat (map rnd1 (seq 0 (fst g * snd g))) (_n st)
                = np_repeat (map rnd2 (seq 0 (fst g * snd g))) (_n st)).
  { unfold vb_with_data in Heq. congruence. }
  apply (f_equal (fun l => nth_error l (k * _n st + 0))) in Hfl.
  rewrite !nth_error_np_repeat in Hfl by exact Hn.
  rewrite !nth_error_map, !nth_error_seq in Hfl.
  destruct (Nat.ltb_spec k (fst g * snd g)); [|lia].
  cbn in Hfl. congruence.
Qed.

(** *** The setters *)


(** *** Shapes that are refused *)

Lemma shape_getitem_out_of_range sh axis :
  ~ (- Z.of_nat (length sh) <= axis < Z.of_nat (length sh))%Z ->
  shape_getitem sh axis = None.
Proof.
  intros Hout. unfold shape_getitem, wrap_index.
  destruct (Z.leb_spec (- Z.of_nat (length sh)) axis);
    destruct (Z.ltb_spec axis (Z.of_nat (length sh))); cbn; try reflexivity.
  lia.
Qed.

(** C5, as the code has it.  The constructor raises, before the object or
    any buffer exists, when the array has more than three dimensions
    (AssertionError) and when the axis is out of range for its rank
    (IndexError, unless an assertion fails first).  A later [set_data]
    raises and leaves the object as it was when the array has no or more
    than three dimensions (UnboundLocalError) and, for a 3-D array, when
    the axis is out of range (AxisError). *)
Theorem shape_errors data axis sf color space scale rnd st axis' :
  (3 < ndim data ->
   __init__ data axis sf color space scale rnd = inl AssertionError) /\
  (~ (- Z.of_nat (ndim data) <= axis < Z.of_nat (ndim data))%Z ->
   __init__ data axis sf color space scale rnd = inl AssertionError \/
   __init__ data axis sf color space scale rnd = inl IndexError) /\
  (3 < ndim data \/ ndim data = 0 ->
   set_data (Some data) axis' color rnd st = (st, inl UnboundLocalError)) /\
  (ndim data = 3 ->
   ~ (-3 <= resolve_axis st axis' < 3)%Z ->
   set_data (Some data) axis' color rnd st = (st, inl AxisError)).
Proof.
  repeat split.
  - intros Hnd. unfold Visual.__init__.
    destruct (Nat.leb_spec (ndim data) 3); [lia | reflexivity].
  - intros Hout. unfold Visual.__init__.
    destruct (negb _); [left; reflexivity | right].
    unfold ndim in Hout.
    now rewrite (shape_getitem_out_of_range _ _ Hout).
  - intros Hnd. rewrite set_data_run. cbv zeta.
    rewrite set_data_geometry_run. unfold to_3d, ndim in *.
    destruct (shape data) as [|a [|b [|c [|x t]]]]; cbn in Hnd; try lia;
      reflexivity.
  - intros Hnd Hout. rewrite set_data_run. cbv zeta.
    rewrite set_data_geometry_run. unfold to_3d, ndim in *.
    destruct (shape data) as [|a [|b [|c [|x t]]]] eqn:Hs; cbn in Hnd;
      try lia.
    destruct (Z.eqb_spec (resolve_axis st axis') 2); [lia|].
    unfold swapaxes3. rewrite Hs.
    unfold wrap_index.
    destruct (Z.leb_spec (- Z.of_nat 3) (resolve_axis st axis'));
      destruct (Z.ltb_spec (resolve_axis st axis') (Z.of_nat 3));
      cbn [andb]; try reflexivity.
    lia.
Qed.

(** *** Calls that raise *)

(** C7, as the code has it.  A [set_data] call that raises leaves the
    colour buffer and the attributes kept from the constructor as they
    were.  Without an array the whole object is as before.  With an
    array, either the data block raised, and then the index buffer and the
    grid shape (attribute and uniform) are as before, and so is the
    position buffer unless the index buffer refused the upload that
    follows its own; or the data block returned and the colour block
    raised, and then the object is the one the data block left, new
    geometry included. *)
Theorem set_data_raise_frame data axis color rnd st e :
  snd (set_data data axis color rnd st) = inl e ->
  let st' := fst (set_data data axis color rnd st) in
  _cbuffer st' = _cbuffer st /\
  same_inputs st st' /\
  (data = None -> st' = st) /\
  (forall d,
      data = Some d ->
      (snd (set_data_geometry (resolve_axis st axis) d st) = inl e /\
       _ibuffer st' = _ibuffer st /\
       _g_size st' = _g_size st /\ u_size st' = u_size st /\
       (_dbuffer st' = _dbuffer st \/ takes 3 (_ibuffer st) = false))
      \/
      (set_data_geometry (resolve_axis st axis) d st = (st', inr tt) /\
       snd (set_data_color color rnd st') = inl e)).
Proof.
  rewrite set_data_run. cbv zeta.
  destruct data as [d|].
  - pose proof (set_data_geometry_inputs (resolve_axis st axis) d st)
      as [Hin Hcb].
    pose proof (set_data_geometry_raise (resolve_axis st axis) d st) as Hra.
    destruct (set_data_geometry (resolve_axis st axis) d st)
      as [s1 [e1|[]]] eqn:Hgeo; cbn [fst snd] in *.
    + intros [= ->].
      repeat split; try apply Hin; try exact Hcb; [discriminate|].
      intros d' [= <-]. left. rewrite Hgeo. cbn [fst snd].
      destruct (Hra e eq_refl) as (Hi & Hg & Hu & Hd).
      split; [reflexivity|]. split; [exact Hi|]. split; [exact Hg|].
      split; [exact Hu|].
      destruct Hd as [Hd | [Hd _]]; [left; exact Hd | right; exact Hd].
    + destruct (is_none color); [discriminate|].
      intros Hc.
      rewrite (set_data_color_raise color rnd s1 e Hc).
      repeat split; try apply Hin; try exact Hcb; [discriminate|].
      intros d' [= <-]. right. rewrite Hgeo. split; [reflexivity | exact Hc].
  - cbn [fst snd]. destruct (is_none color); [discriminate|].
    intros Hc. rewrite (set_data_color_raise color rnd st e Hc).
    repeat split. intros d [=].
Qed.

(** *** No padding *)

(** X23.  [set_data] never pads.  Whatever grid the planner answers, a
    grid that does not have exactly one cell per signal makes the reshape
    to it raise ValueError, with the buffers, the recorded mapping and the
    grid shape as they were; and a call that returns has a grid with
    exactly one cell per signal, which it records. *)
Theorem set_data_never_pads st d axis color rnd d3 g :
  to_3d (resolve_axis st axis) d = inr (d3, g) ->
  (fst (grid_of d3) * snd (grid_of d3) <> lead_dims (shape d3) ->
   snd (set_data (Some d) axis color rnd st) = inl ValueError /\
   same_geometry st (fst (set_data (Some d) axis color rnd st)) /\
   _cbuffer (fst (set_data (Some d) axis color rnd st)) = _cbuffer st) /\
  (forall st',
      set_data (Some d) axis color rnd st = (st', inr tt) ->
      fst (grid_of d3) * snd (grid_of d3) = lead_dims (shape d3) /\
      _g_size st' = Some (grid_of d3)).
Proof.
  intros H3. split.
  - intros Hlt. rewrite set_data_run. cbv zeta.
    rewrite set_data_geometry_run, H3.
    unfold Visual.fits.
    destruct (Nat.eqb_spec (fst (grid_of d3) * snd (grid_of d3))
                (lead_dims (shape d3))) as [Heq|_]; [contradiction|].
    rewrite andb_false_r. cbn [fst snd]. repeat split.
  - intros st'. rewrite set_data_run. cbv zeta.
    rewrite set_data_geometry_run, H3.
    destruct (fits st d3) eqn:Hfit; [|discriminate].
    destruct (normalise (prepared st d3)) as [e | dn]; [discriminate|].
    destruct (takes _ (_dbuffer st)); [|discriminate].
    destruct (takes 3 (_ibuffer st)); [|discriminate].
    cbn [fst snd].
    apply andb_prop in Hfit. destruct Hfit as [_ Hf2].
    apply Nat.eqb_eq in Hf2.
    intros Hset. split; [exact Hf2|].
    assert (Hg : _g_size st' = _g_size (uploaded st d3 dn)).
    { destruct (is_none color).
      - injection Hset as <-. reflexivity.
      - pose proof (set_data_color_frame color rnd (uploaded st d3 dn)) as Hfr.
        rewrite Hset in Hfr. cbn [fst] in Hfr. rewrite Hfr. reflexivity. }
    rewrite Hg. unfold Visual.uploaded. cbn.
    now destruct (grid_of d3).
Qed.

(** *** The recorded mapping *)

Lemma div_mod_cell cols r k :
  k < cols -> (r * cols + k) / cols = r /\ (r * cols + k) mod cols = k.
Proof.
  intros Hk. split.
  - rewrite Nat.div_add_l by lia. rewrite Nat.div_small by lia. lia.
  - rewrite Nat.add_comm, Nat.Div0.mod_add. now apply Nat.mod_small.
Qed.

Lemma flipud_shape a : shape (flipud a) = shape a.
Proof. unfold flipud. destruct (shape a) eqn:Hs; [exact Hs | reflexivity]. Qed.

(** The flipped grid of [rows * cols] signals, cell by cell. *)
Lemma flipud_grid rows cols r k :
  r < rows -> k < cols ->
  nth_error (flat (flipud (mk_ndarray [rows; cols] (seq 0 (rows * cols)))))
    (r * cols + k)
  = Some ((rows - 1 - r) * cols + k).
Proof.
  intros Hr Hk. unfold flipud. cbn [shape flat prod_shape fold_right].
  rewrite Nat.mul_1_r.
  rewrite nth_error_gather by nia.
  destruct (div_mod_cell cols r k Hk) as [-> ->].
  rewrite seq_nth by nia. reflexivity.
Qed.

Lemma flipud_grid_length rows cols :
  length (flat (flipud (mk_ndarray [rows; cols] (seq 0 (rows * cols)))))
  = rows * cols.
Proof.
  unfold flipud. cbn [shape flat prod_shape fold_right].
  rewrite gather_length. lia.
Qed.

Lemma cell_of_position cols p :
  0 < cols -> p = (p / cols) * cols + p mod cols /\ p mod cols < cols.
Proof.
  intros Hc. split.
  - pose proof (Nat.div_mod_eq p cols). lia.
  - apply Nat.mod_upper_bound. lia.
Qed.

Lemma flipud_grid_NoDup rows cols :
  NoDup (flat (flipud (mk_ndarray [rows; cols] (seq 0 (rows * cols))))).
Proof.
  apply NoDup_nth_error. intros i j Hi Heq.
  rewrite flipud_grid_length in Hi.
  assert (Hc : 0 < cols) by nia.
  destruct (cell_of_position cols i Hc) as [Hi1 Hi2].
  assert (Hir : i / cols < rows).
  { apply Nat.Div0.div_lt_upper_bound. lia. }
  rewrite Hi1 in Heq at 1.
  rewrite flipud_grid in Heq by assumption.
  destruct (Nat.lt_ge_cases j (rows * cols)) as [Hj | Hj].
  - destruct (cell_of_position cols j Hc) as [Hj1 Hj2].
    assert (Hjr : j / cols < rows).
    { apply Nat.Div0.div_lt_upper_bound. lia. }
    rewrite Hj1 in Heq.
    rewrite flipud_grid in Heq by assumption.
    injection Heq as Heq.
    pose proof (f_equal (fun x => x / cols) Heq) as Hq.
    pose proof (f_equal (fun x => x mod cols) Heq) as Hm.
    cbv beta in Hq, Hm.
    destruct (div_mod_cell cols (rows - 1 - i / cols) (i mod cols) Hi2)
      as [Q1 M1].
    destruct (div_mod_cell cols (rows - 1 - j / cols) (j mod cols) Hj2)
      as [Q2 M2].
    rewrite Q1, Q2 in Hq. rewrite M1, M2 in Hm.
    assert (E1 : i / cols = j / cols) by lia.
    rewrite Hi1, Hj1, E1, Hm. reflexivity.
  - rewrite <- (flipud_grid_length rows cols) in Hj.
    apply nth_error_None in Hj. rewrite Hj in Heq. discriminate.
Qed.

Lemma index_of_nth l p x :
  NoDup l -> nth_error l p = Some x -> index_of x l = Some p.
Proof.
  intros Hnd. revert p.
  induction Hnd as [|y t Hy Hnd IH]; intros p Hp.
  - now destruct p.
  - cbn [index_of]. destruct p as [|p]; cbn in Hp.
    + injection Hp as ->. now rewrite Nat.eqb_refl.
    + destruct (Nat.eqb_spec y x) as [->|_].
      * exfalso. apply Hy. eapply nth_error_In; eassumption.
      * now rewrite (IH p Hp).
Qed.

(** Where a returned [set_data] leaves the layout attributes. *)
Lemma set_data_layout st d axis color rnd st' :
  set_data (Some d) axis color rnd st = (st', inr tt) ->
  exists rows cols o0 o1,
    _g_size st' = Some (rows, cols) /\
    u_size st' = (rows, cols) /\
    _opt_shape st' = Some [rows; cols] /\
    _ori_shape st' = Some [o0; o1] /\
    o0 * o1 = rows * cols /\
    _sig_index st'
    = Some (flipud (mk_ndarray [rows; cols] (seq 0 (rows * cols)))).
Proof.
  rewrite set_data_run. cbv zeta. rewrite set_data_geometry_run.
  destruct (to_3d (resolve_axis st axis) d) as [e | [d3 g]] eqn:H3;
    [discriminate|].
  destruct (fits st d3) eqn:Hfit; [|discriminate].
  destruct (normalise (prepared st d3)) as [e | dn]; [discriminate|].
  destruct (takes _ (_dbuffer st)); [|discriminate].
  destruct (takes 3 (_ibuffer st)); [|discriminate].
  cbn [fst snd].
  apply andb_prop in Hfit. destruct Hfit as [_ Hf2].
  apply Nat.eqb_eq in Hf2.
  destruct (to_3d_g_size _ _ _ _ H3) as [_ Hnd].
  intros Hset.
  assert (Hst : st' = set__cbuffer (_cbuffer st') (uploaded st d3 dn)).
  { destruct (is_none color).
    - injection Hset as <-. now destruct (uploaded st d3 dn).
    - pose proof (set_data_color_frame color rnd (uploaded st d3 dn)) as Hfr.
      rewrite Hset in Hfr. exact Hfr. }
  destruct (shape d3) as [|a [|b [|c [|x t]]]] eqn:Hs; try discriminate.
  exists (fst (grid_of d3)), (snd (grid_of d3)), a, b.
  rewrite Hst. unfold Visual.uploaded, Visual.recorded.
  cbn -[flipud Nat.mul].
  rewrite Hs, <- Hf2.
  unfold lead_dims in Hf2. cbn in Hf2.
  repeat split. lia.
Qed.

(** C8. The mapping recorded by [set_data] is the natural row-major
    arrangement [arange(rows * cols).reshape(rows, cols)] upside down: grid
    row [r] holds the signals of natural row [rows - 1 - r], so row 0 holds
    those of the last row and row [rows - 1] those of row 0. *)
Theorem sig_index_flipped st d axis color rnd st' :
  set_data (Some d) axis color rnd st = (st', inr tt) ->
  exists rows cols sig,
    _g_size st' = Some (rows, cols) /\
    _sig_index st' = Some sig /\
    shape sig = [rows; cols] /\
    let natural := mk_ndarray [rows; cols] (seq 0 (rows * cols)) in
    (forall r k,
        r < rows -> k < cols ->
        getitem2 sig (Z.of_nat r) (Z.of_nat k)
        = Some ((rows - 1 - r) * cols + k) /\
        getitem2 natural (Z.of_nat (rows - 1 - r)) (Z.of_nat k)
        = Some ((rows - 1 - r) * cols + k)) /\
    (forall k,
        0 < rows -> k < cols ->
        getitem2 sig 0 (Z.of_nat k)
        = getitem2 natural (Z.of_nat (rows - 1)) (Z.of_nat k) /\
        getitem2 sig (Z.of_nat (rows - 1)) (Z.of_nat k)
        = getitem2 natural 0 (Z.of_nat k)).
Proof.
  intros Hset.
  destruct (set_data_layout _ _ _ _ _ _ Hset)
    as (rows & cols & o0 & o1 & Hg & _ & _ & _ & _ & Hsig).
  exists rows, cols, (flipud (mk_ndarray [rows; cols] (seq 0 (rows * cols)))).
  split; [exact Hg|]. split; [exact Hsig|]. split; [reflexivity|].
  cbv zeta.
  assert (Hcell : forall r k,
             r < rows -> k < cols ->
             getitem2 (flipud (mk_ndarray [rows; cols] (seq 0 (rows * cols))))
               (Z.of_nat r) (Z.of_nat k)
             = Some ((rows - 1 - r) * cols + k) /\
             getitem2 (mk_ndarray [rows; cols] (seq 0 (rows * cols)))
               (Z.of_nat (rows - 1 - r)) (Z.of_nat k)
             = Some ((rows - 1 - r) * cols + k)).
  { intros r k Hr Hk. unfold getitem2. cbn [shape flipud].
    rewrite !wrap_index_of_nat by lia.
    split; [now apply flipud_grid|].
    cbn [flat]. rewrite nth_error_seq.
    destruct (Nat.ltb_spec ((rows - 1 - r) * cols + k) (rows * cols));
      [reflexivity | nia]. }
  split; [exact Hcell|].
  intros k Hrows Hk.
  destruct (Hcell 0 k Hrows Hk) as [A1 A2].
  destruct (Hcell (rows - 1) k ltac:(lia) Hk) as [B1 B2].
  cbn [Z.of_nat] in A1. rewrite Nat.sub_0_r in A1, A2.
  replace (rows - 1 - (rows - 1)) with 0 in B1, B2 by lia.
  cbn [Z.of_nat] in B2.
  split; congruence.
Qed.

(** *** The lookup *)

(** On the object a returned [set_data] leaves, [_convert_row_cols] finds
    the index stored at [(row, col)] at position [(row, col)] of the same
    flipped array, and returns that position un-flattened against the
    original shape. *)
Lemma convert_row_cols_unravels_the_cell st d axis color rnd st' :
  set_data (Some d) axis color rnd st = (st', inr tt) ->
  exists rows cols o0 o1,
    _g_size st' = Some (rows, cols) /\
    _ori_shape st' = Some [o0; o1] /\
    o0 * o1 = rows * cols /\
    forall r k,
      r < rows -> k < cols ->
      _convert_row_cols st' (Z.of_nat r) (Z.of_nat k)
      = (Z.of_nat ((r * cols + k) / o1), Z.of_nat ((r * cols + k) mod o1)).
Proof.
  intros Hset.
  destruct (set_data_layout _ _ _ _ _ _ Hset)
    as (rows & cols & o0 & o1 & Hg & _ & _ & Hori & Hprod & Hsig).
  exists rows, cols, o0, o1. repeat split; try assumption.
  intros r k Hr Hk.
  unfold _convert_row_cols, convert_try. rewrite Hsig, Hori.
  unfold getitem2. rewrite flipud_shape. cbn [shape].
  rewrite !wrap_index_of_nat by lia.
  rewrite flipud_grid by assumption.
  unfold reshape, size. rewrite flipud_shape.
  cbn [shape prod_shape fold_right flat].
  replace (o0 * (o1 * 1) =? rows * (cols * 1)) with true
    by (symmetry; apply Nat.eqb_eq; lia).
  change (flat (mk_ndarray [o0; o1]
                  (flat (flipud (mk_ndarray [rows; cols] (seq 0 (rows * cols)))))))
    with (flat (flipud (mk_ndarray [rows; cols] (seq 0 (rows * cols))))).
  rewrite (index_of_nth _ (r * cols + k) _ (flipud_grid_NoDup rows cols)
             (flipud_grid rows cols r k Hr Hk)).
  reflexivity.
Qed.

(** The round trip through the recorded mapping: the cell that holds the
    signal of original index [(a, b)] is sent back to [(a, b)] only from
    the middle row of the grid. *)
Lemma round_trip_only_from_middle_row st d axis color rnd st' :
  set_data (Some d) axis color rnd st = (st', inr tt) ->
  exists rows cols o0 o1 sig,
    _g_size st' = Some (rows, cols) /\
    _ori_shape st' = Some [o0; o1] /\
    _sig_index st' = Some sig /\
    forall a b,
      a < o0 -> b < o1 ->
      let f := a * o1 + b in
      let r := rows - 1 - f / cols in
      let k := f mod cols in
      getitem2 sig (Z.of_nat r) (Z.of_nat k) = Some f /\
      (_convert_row_cols st' (Z.of_nat r) (Z.of_nat k)
       = (Z.of_nat a, Z.of_nat b)
       <-> 2 * (f / cols) = rows - 1).
Proof.
  intros Hset.
  destruct (convert_row_cols_unravels_the_cell _ _ _ _ _ _ Hset)
    as (rows & cols & o0 & o1 & Hg & Hori & Hprod & Hconv).
  destruct (set_data_layout _ _ _ _ _ _ Hset)
    as (rows' & cols' & o0' & o1' & Hg' & _ & _ & Hori' & _ & Hsig).
  assert (rows' = rows /\ cols' = cols) as [-> ->] by (split; congruence).
  exists rows, cols, o0, o1,
    (flipud (mk_ndarray [rows; cols] (seq 0 (rows * cols)))).
  repeat split; try assumption.
  - unfold getitem2. rewrite flipud_shape. cbn [shape].
    assert (Hf : a * o1 + b < rows * cols) by nia.
    assert (Hc : 0 < cols) by nia.
    destruct (cell_of_position cols (a * o1 + b) Hc) as [Hf1 Hf2].
    assert (Hq : (a * o1 + b) / cols < rows).
    { apply Nat.Div0.div_lt_upper_bound. lia. }
    rewrite !wrap_index_of_nat by lia.
    rewrite flipud_grid by lia.
    replace (rows - 1 - (rows - 1 - (a * o1 + b) / cols))
      with ((a * o1 + b) / cols) by lia.
    now rewrite <- Hf1.
  - assert (Hf : a * o1 + b < rows * cols) by nia.
    assert (Hc : 0 < cols) by nia.
    destruct (cell_of_position cols (a * o1 + b) Hc) as [Hf1 Hf2].
    assert (Hq : (a * o1 + b) / cols < rows).
    { apply Nat.Div0.div_lt_upper_bound. lia. }
    rewrite Hconv by lia.
    intros Heq. injection Heq as E1 E2.
    apply Nat2Z.inj in E1, E2.
    set (p := (rows - 1 - (a * o1 + b) / cols) * cols + (a * o1 + b) mod cols)
      in *.
    assert (Hp : p = a * o1 + b).
    { pose proof (Nat.div_mod_eq p o1) as Hdm. rewrite E1, E2 in Hdm. lia. }
    unfold p in Hp.
    assert (Hrow : (rows - 1 - (a * o1 + b) / cols) * cols
                   = ((a * o1 + b) / cols) * cols) by lia.
    apply Nat.mul_cancel_r in Hrow; lia.
  - assert (Hf : a * o1 + b < rows * cols) by nia.
    assert (Hc : 0 < cols) by nia.
    destruct (cell_of_position cols (a * o1 + b) Hc) as [Hf1 Hf2].
    assert (Hq : (a * o1 + b) / cols < rows).
    { apply Nat.Div0.div_lt_upper_bound. lia. }
    intros Hmid. rewrite Hconv by lia.
    replace (rows - 1 - (a * o1 + b) / cols) with ((a * o1 + b) / cols) by lia.
    rewrite <- Hf1.
    destruct (div_mod_cell o1 a b ltac:(assumption)) as [-> ->].
    reflexivity.
Qed.

(** *** Normalisation *)


End Properties.

(** The stand-in of the preparation keeps the shape of its array. *)
Lemma prepare_off_keeps_shape sf a :
  wf_ndarray a ->
  wf_ndarray (Sample.prepare_off sf a) /\ shape (Sample.prepare_off sf a) = shape a.
Proof. intros Hwf. split; [exact Hwf | reflexivity]. Qed.

(** * Further properties *)

(** ** The layout of the buffers *)

Lemma nth_error_np_tile {A} (l : list A) k i :
  i < k * length l -> nth_error (np_tile l k) i = nth_error l (i mod length l).
Proof.
  unfold np_tile. revert i. induction k as [|k IH]; intros i Hi; [lia|].
  cbn [repeat concat].
  destruct (Nat.lt_ge_cases i (length l)) as [Hlt | Hge].
  - rewrite nth_error_app1 by exact Hlt. now rewrite Nat.mod_small.
  - rewrite nth_error_app2 by exact Hge.
    rewrite IH by (cbn in Hi; lia).
    f_equal.
    replace i with ((i - length l) + 1 * length l) at 2 by lia.
    now rewrite Nat.Div0.mod_add.
Qed.

Lemma nth_error_np_c3 {A} (a b c : list A) p x y z :
  nth_error a p = Some x -> nth_error b p = Some y -> nth_error c p = Some z ->
  nth_error (np_c3 a b c) p = Some (x, y, z).
Proof.
  unfold np_c3.
  assert (Hc : forall (X Y : Type) (u : list X) (v : list Y) q s t,
             nth_error u q = Some s -> nth_error v q = Some t ->
             nth_error (combine u v) q = Some (s, t)).
  { intros X Y u. induction u as [|s0 u IH]; intros v q s t Hu Hv.
    - now destruct q.
    - destruct v as [|t0 v]; [now destruct q|].
      destruct q as [|q]; cbn in *; [congruence | now apply IH]. }
  intros Ha Hb Hc'. apply Hc; [now apply Hc | exact Hc'].
Qed.

Lemma position_of_sample n p :
  0 < n -> p = (p / n) * n + p mod n /\ p mod n < n.
Proof.
  intros Hn. split.
  - pose proof (Nat.div_mod_eq p n). lia.
  - apply Nat.mod_upper_bound. lia.
Qed.

(** The index triple of sample number [p]. *)
Lemma index_triples_nth rows cols n p :
  p < rows * cols * n ->
  nth_error (index_triples rows cols n (rows * cols)) p
  = Some ((p / n) / rows, (p / n) mod rows, p mod n).
Proof.
  intros Hp.
  assert (Hn : 0 < n) by nia. assert (Hr : 0 < rows) by nia.
  destruct (position_of_sample n p Hn) as [Hpn Hmod].
  assert (Hi : p / n < rows * cols).
  { apply Nat.Div0.div_lt_upper_bound. lia. }
  destruct (position_of_sample rows (p / n) Hr) as [Hin Himod].
  assert (Hc : p / n / rows < cols).
  { apply Nat.Div0.div_lt_upper_bound. lia. }
  unfold index_triples. apply nth_error_np_c3.
  - rewrite Hpn at 1. rewrite nth_error_np_repeat by exact Hmod.
    rewrite Hin at 1. rewrite nth_error_np_repeat by exact Himod.
    rewrite nth_error_seq. destruct (Nat.ltb_spec (p / n / rows) cols); [reflexivity | lia].
  - rewrite Hpn at 1. rewrite nth_error_np_repeat by exact Hmod.
    rewrite nth_error_np_tile by (rewrite length_seq; lia).
    rewrite length_seq, nth_error_seq.
    destruct (Nat.ltb_spec ((p / n) mod rows) rows); [reflexivity | lia].
  - rewrite nth_error_np_tile by (rewrite length_seq; lia).
    rewrite length_seq, nth_error_seq.
    destruct (Nat.ltb_spec (p mod n) n); [reflexivity | lia].
Qed.

Lemma swapaxes2_involutive d a b :
  shape d = [a; b] -> wf_ndarray d -> swapaxes2 (swapaxes2 d) = d.
Proof.
  intros Hs Hwf. unfold wf_ndarray, size in Hwf. rewrite Hs in Hwf.
  cbn in Hwf. rewrite Nat.mul_1_r in Hwf.
  unfold swapaxes2. rewrite Hs. cbn [shape flat].
  destruct d as [sh fl]. cbn [shape flat] in *. subst sh. f_equal.
  apply nth_error_ext. intros p.
  destruct (Nat.lt_ge_cases p (a * b)) as [Hp | Hp].
  - rewrite nth_error_gather by exact Hp.
    assert (Hb : 0 < b) by nia.
    assert (Hq : p / b < a) by (apply Nat.Div0.div_lt_upper_bound; lia).
    assert (Hm : p mod b < b) by (apply Nat.mod_upper_bound; lia).
    assert (Hsrc : p mod b * a + p / b < b * a) by nia.
    rewrite (nth_error_nth _ _ 0%Q
               (nth_error_gather 0%Q (b * a) (fun q => q mod a * b + q / a) fl
                  _ Hsrc)).
    destruct (div_mod_cell a (p mod b) (p / b) Hq) as [-> ->].
    replace (p / b * b + p mod b) with p
      by (pose proof (Nat.div_mod_eq p b); lia).
    symmetry. apply nth_error_nth'. lia.
  - rewrite (proj2 (nth_error_None _ _)) by (rewrite gather_length; lia).
    symmetry. apply nth_error_None. lia.
Qed.

Lemma normalise_row_bounded row q :
  In (Some q) (normalise_row row) -> (Qabs q <= 1)%Q.
Proof.
  unfold normalise_row.
  set (dm := map (fun x => (x - mean row)%Q) row).
  set (M := max_abs dm).
  intros Hin. apply in_map_iff in Hin. destruct Hin as (x & Hdiv & Hx).
  unfold np_div in Hdiv.
  destruct (Qeq_bool M 0) eqn:HM; [discriminate|].
  injection Hdiv as <-.
  assert (HM0 : ~ (M == 0)%Q) by (intros E; apply Qeq_bool_iff in E; congruence).
  pose proof (max_abs_nonneg dm) as Hnn. fold M in Hnn.
  assert (Hpos : (0 < M)%Q) by lra.
  pose proof (max_abs_ge dm x Hx) as Hge. fold M in Hge.
  unfold Qdiv. rewrite Qabs_Qmult.
  rewrite (Qabs_pos (/ M)) by (apply Qlt_le_weak, Qinv_lt_0_compat, Hpos).
  apply (Qle_shift_div_r (Qabs x) M 1 Hpos). lra.
Qed.

(** No number that leaves the normalisation is above 1 in absolute value. *)
Lemma normalised_bounded (a : ndarray Q) dn :
  normalise a = inr dn ->
  forall p q, nth_error (flat dn) p = Some (Some q) -> (Qabs q <= 1)%Q.
Proof.
  unfold normalise. intros Hnorm p q Hp.
  destruct (last_dim (shape a) =? 0); [discriminate|].
  injection Hnorm as <-. cbn [flat] in Hp.
  apply nth_error_In, in_concat in Hp.
  destruct Hp as (line & Hline & Hq).
  apply in_map_iff in Hline. destruct Hline as (row & <- & _).
  exact (normalise_row_bounded row q Hq).
Qed.

Section More.

Variable ndsubplot : nat -> nat * nat.
Variable prepare_data : pyval -> ndarray Q -> ndarray Q.
Variable color2vb : pyval -> nat -> pyexc + list rgba.

Local Abbreviation set_data := (set_data ndsubplot prepare_data color2vb).
Local Abbreviation set_data_geometry :=
  (set_data_geometry ndsubplot prepare_data).
Local Abbreviation __init__ := (__init__ ndsubplot prepare_data color2vb).
Local Abbreviation color_setter :=
  (color_setter ndsubplot prepare_data color2vb).
Local Abbreviation grid_of := (grid_of ndsubplot).
Local Abbreviation fits := (fits ndsubplot).
Local Abbreviation prepared := (prepared ndsubplot prepare_data).
Local Abbreviation uploaded := (uploaded ndsubplot).

(** What a [set_data] with an array went through when it returns. *)
Lemma set_data_returns st d axis color rnd st' :
  set_data (Some d) axis color rnd st = (st', inr tt) ->
  exists d3 g dn,
    to_3d (resolve_axis st axis) d = inr (d3, g) /\
    fst (grid_of d3) * snd (grid_of d3) * _n st = size d3 /\
    fst (grid_of d3) * snd (grid_of d3) = lead_dims (shape d3) /\
    normalise (prepared st d3) = inr dn /\
    st' = set__cbuffer (_cbuffer st') (uploaded st d3 dn).
Proof.
  intros Hset.
  rewrite set_data_run in Hset. cbv zeta in Hset.
  rewrite set_data_geometry_run in Hset.
  destruct (to_3d (resolve_axis st axis) d) as [e | [d3 g]]; [discriminate|].
  exists d3, g.
  destruct (Visual.fits ndsubplot st d3) eqn:Hfit; [|discriminate].
  destruct (normalise (prepared st d3)) as [e | dn]; [discriminate|].
  destruct (takes _ (_dbuffer st)); [|discriminate].
  destruct (takes 3 (_ibuffer st)); [|discriminate].
  exists dn. cbn [fst snd] in Hset.
  apply andb_prop in Hfit. destruct Hfit as [Hf1 Hf2].
  apply Nat.eqb_eq in Hf1, Hf2.
  split; [reflexivity|]. split; [exact Hf1|]. split; [exact Hf2|].
  split; [reflexivity|].
  destruct (is_none color).
  - injection Hset as <-. now destruct (uploaded st d3 dn).
  - pose proof (set_data_color_frame color2vb color rnd (uploaded st d3 dn))
      as Hfr.
    rewrite Hset in Hfr. exact Hfr.
Qed.

(** The index buffer a returned [set_data] leaves. *)
Lemma set_data_index_buffer st d axis color rnd st' :
  set_data (Some d) axis color rnd st = (st', inr tt) ->
  exists rows cols,
    _g_size st' = Some (rows, cols) /\
    u_size st' = (rows, cols) /\
    __len__ st' = __len__ st /\
    flat (vb_data (_ibuffer st'))
    = index_triples rows cols (__len__ st) (rows * cols).
Proof.
  intros Hset.
  destruct (set_data_returns _ _ _ _ _ _ Hset)
    as (d3 & g & dn & _ & _ & Hm & _ & Hst).
  exists (fst (grid_of d3)), (snd (grid_of d3)).
  rewrite Hst. unfold __len__.
  change (_n (set__cbuffer (_cbuffer st') (uploaded st d3 dn))) with (_n st).
  change (flat (vb_data (_ibuffer (set__cbuffer (_cbuffer st')
                                     (uploaded st d3 dn)))))
    with (index_triples (fst (grid_of d3)) (snd (grid_of d3)) (_n st)
            (lead_dims (shape d3))).
  rewrite <- Hm. repeat split.
Qed.


(** X2.  When [set_data] with an array returns, every number in the
    position buffer lies between -1 and 1, whatever the preparation step
    did to the data. *)
Theorem uploaded_samples_bounded st d axis color rnd st' :
  set_data (Some d) axis color rnd st = (st', inr tt) ->
  forall p q,
    nth_error (flat (vb_data (_dbuffer st'))) p = Some (Some q) ->
    (Qabs q <= 1)%Q.
Proof.
  intros Hset p q Hp.
  destruct (set_data_returns _ _ _ _ _ _ Hset)
    as (d3 & g & dn & _ & _ & _ & Hnorm & Hst).
  rewrite Hst in Hp.
  exact (normalised_bounded _ _ Hnorm p q Hp).
Qed.



(** *** The time axis *)

Lemma set_data_same_canonical st d d' ax ax' color rnd :
  to_3d (resolve_axis st ax) d = to_3d (resolve_axis st ax') d' ->
  set_data (Some d) ax color rnd st = set_data (Some d') ax' color rnd st.
Proof.
  intros H3. rewrite !set_data_run. cbv zeta.
  rewrite !(set_data_geometry_run ndsubplot prepare_data), H3. reflexivity.
Qed.

(** X5.  For a 2-D array, giving the time axis first is the same call as
    giving the transposed array with the time axis last: result and object
    are equal. *)
Theorem transposed_time_first st d a b color rnd :
  shape d = [a; b] -> wf_ndarray d ->
  set_data (Some (swapaxes2 d)) (Some 0%Z) color rnd st
  = set_data (Some d) (Some 1%Z) color rnd st.
Proof.
  intros Hs Hwf. apply set_data_same_canonical.
  change (resolve_axis st (Some 0%Z)) with 0%Z.
  change (resolve_axis st (Some 1%Z)) with 1%Z.
  unfold to_3d.
  assert (Hs' : shape (swapaxes2 d) = [b; a])
    by (unfold swapaxes2; rewrite Hs; reflexivity).
  rewrite Hs', Hs. cbn [Z.eqb].
  rewrite (swapaxes2_involutive d a b Hs Hwf). reflexivity.
Qed.

(** X6.  [set_data] never looks at the axis of a 1-D array, and for a 2-D
    array it only tests whether the resolved axis is 0: two calls whose
    resolved axes are both different from 0 do the same. *)
Theorem axis_only_compared_with_zero st d ax ax' color rnd :
  (ndim d = 1 ->
   set_data (Some d) ax color rnd st = set_data (Some d) ax' color rnd st) /\
  (ndim d = 2 ->
   resolve_axis st ax <> 0%Z -> resolve_axis st ax' <> 0%Z ->
   set_data (Some d) ax color rnd st = set_data (Some d) ax' color rnd st).
Proof.
  unfold ndim. split.
  - intros Hnd. apply set_data_same_canonical. unfold to_3d.
    destruct (shape d) as [|a [|b t]]; try discriminate. reflexivity.
  - intros Hnd Hax Hax'. apply set_data_same_canonical. unfold to_3d.
    destruct (shape d) as [|a [|b [|c t]]]; try discriminate.
    destruct (Z.eqb_spec (resolve_axis st ax) 0); [contradiction|].
    destruct (Z.eqb_spec (resolve_axis st ax') 0); [contradiction|].
    reflexivity.
Qed.

(** X22.  An axis of -1 is resolved against the array the object was
    constructed from, not against the array that is being set: on an object
    built from a 2-D array, [set_data] with a 3-D array and the axis -1
    (given, or kept from the constructor) takes the middle axis as the time
    axis; it is the same call as swapping the last two axes first and
    giving the axis 2. *)
Theorem minus_one_means_last_axis_of_the_constructor_array
        st d d' ax color rnd :
  ndim d = 3 -> length (_sh st) = 2 ->
  ax = Some (-1)%Z \/ (ax = None /\ _axis st = (-1)%Z) ->
  swapaxes3 d 1 = inr d' ->
  set_data (Some d) ax color rnd st
  = set_data (Some d') (Some 2%Z) color rnd st.
Proof.
  intros Hnd Hsh Hax Hsw. apply set_data_same_canonical.
  assert (Hres : resolve_axis st ax = 1%Z).
  { unfold resolve_axis.
    destruct Hax as [-> | [-> ->]]; cbn [Z.eqb]; rewrite Hsh; reflexivity. }
  rewrite Hres. change (resolve_axis st (Some 2%Z)) with 2%Z.
  unfold ndim in Hnd.
  destruct (shape d) as [|a [|b [|c [|x sh]]]] eqn:Hs; try discriminate Hnd.
  assert (Hs' : shape d' = [a; c; b]).
  { unfold swapaxes3 in Hsw. rewrite Hs in Hsw. cbn in Hsw.
    injection Hsw as <-. reflexivity. }
  unfold to_3d. rewrite Hs, Hs', Hsw. reflexivity.
Qed.

(** *** More on the lookup *)

Lemma wrap_index_out_of_range len i :
  ~ (- Z.of_nat len <= i < Z.of_nat len)%Z -> wrap_index len i = None.
Proof.
  intros Hout. unfold wrap_index.
  destruct (Z.leb_spec (- Z.of_nat len) i);
    destruct (Z.ltb_spec i (Z.of_nat len)); cbn; try reflexivity.
  lia.
Qed.

Lemma wrap_index_negative len i :
  i < len -> wrap_index len (Z.of_nat i - Z.of_nat len) = Some i.
Proof.
  intros Hi. unfold wrap_index.
  replace ((- Z.of_nat len <=? Z.of_nat i - Z.of_nat len)%Z) with true
    by (symmetry; apply Z.leb_le; lia).
  replace ((Z.of_nat i - Z.of_nat len <? Z.of_nat len)%Z) with true
    by (symmetry; apply Z.ltb_lt; lia).
  replace ((Z.of_nat i - Z.of_nat len <? 0)%Z) with true
    by (symmetry; apply Z.ltb_lt; lia).
  cbn [andb]. f_equal. lia.
Qed.

(** X7.  [_convert_row_cols] hands its arguments back unchanged when the
    row or the column is outside the grid (the bare except catches the
    IndexError). *)
Theorem convert_row_cols_falls_back st d axis color rnd st' :
  set_data (Some d) axis color rnd st = (st', inr tt) ->
  exists rows cols,
    _g_size st' = Some (rows, cols) /\
    forall row col,
      ~ (- Z.of_nat rows <= row < Z.of_nat rows)%Z \/
      ~ (- Z.of_nat cols <= col < Z.of_nat cols)%Z ->
      _convert_row_cols st' row col = (row, col).
Proof.
  intros Hset.
  destruct (set_data_layout ndsubplot prepare_data color2vb _ _ _ _ _ _ Hset)
    as (rows & cols & o0 & o1 & Hg & _ & _ & Hori & _ & Hsig).
  exists rows, cols. split; [exact Hg|].
  intros row col Hout.
  unfold _convert_row_cols, convert_try. rewrite Hsig, Hori.
  unfold getitem2. rewrite flipud_shape. cbn [shape].
  destruct Hout as [Hout | Hout].
  - now rewrite (wrap_index_out_of_range rows row Hout).
  - rewrite (wrap_index_out_of_range cols col Hout).
    now destruct (wrap_index rows row).
Qed.

(** The lookup of a cell given by indices Python accepts. *)
Lemma convert_row_cols_at st d axis color rnd st' :
  set_data (Some d) axis color rnd st = (st', inr tt) ->
  exists rows cols o0 o1,
    _g_size st' = Some (rows, cols) /\
    _ori_shape st' = Some [o0; o1] /\
    o0 * o1 = rows * cols /\
    forall row col r k,
      wrap_index rows row = Some r -> wrap_index cols col = Some k ->
      r < rows -> k < cols ->
      _convert_row_cols st' row col
      = (Z.of_nat ((r * cols + k) / o1), Z.of_nat ((r * cols + k) mod o1)).
Proof.
  intros Hset.
  destruct (set_data_layout ndsubplot prepare_data color2vb _ _ _ _ _ _ Hset)
    as (rows & cols & o0 & o1 & Hg & _ & _ & Hori & Hprod & Hsig).
  exists rows, cols, o0, o1. repeat split; try assumption.
  intros row col r k Hrow Hcol Hr Hk.
  unfold _convert_row_cols, convert_try. rewrite Hsig, Hori.
  unfold getitem2. rewrite flipud_shape. cbn [shape].
  rewrite Hrow, Hcol.
  rewrite flipud_grid by assumption.
  unfold reshape, size. rewrite flipud_shape.
  cbn [shape prod_shape fold_right flat].
  replace (o0 * (o1 * 1) =? rows * (cols * 1)) with true
    by (symmetry; apply Nat.eqb_eq; lia).
  change (flat (mk_ndarray [o0; o1]
                  (flat (flipud (mk_ndarray [rows; cols] (seq 0 (rows * cols)))))))
    with (flat (flipud (mk_ndarray [rows; cols] (seq 0 (rows * cols))))).
  rewrite (index_of_nth _ (r * cols + k) _ (flipud_grid_NoDup rows cols)
             (flipud_grid rows cols r k Hr Hk)).
  reflexivity.
Qed.

(** X8.  [_convert_row_cols] takes negative rows and columns as Python
    indexes them: [row - rows] and [col - cols] give the answer of [row] and
    [col]. *)
Theorem convert_row_cols_wraps_negative st d axis color rnd st' :
  set_data (Some d) axis color rnd st = (st', inr tt) ->
  exists rows cols,
    _g_size st' = Some (rows, cols) /\
    forall r k,
      r < rows -> k < cols ->
      _convert_row_cols st' (Z.of_nat r - Z.of_nat rows) (Z.of_nat k - Z.of_nat cols)
      = _convert_row_cols st' (Z.of_nat r) (Z.of_nat k) /\
      _convert_row_cols st' (Z.of_nat r - Z.of_nat rows) (Z.of_nat k)
      = _convert_row_cols st' (Z.of_nat r) (Z.of_nat k) /\
      _convert_row_cols st' (Z.of_nat r) (Z.of_nat k - Z.of_nat cols)
      = _convert_row_cols st' (Z.of_nat r) (Z.of_nat k).
Proof.
  intros Hset.
  destruct (convert_row_cols_at _ _ _ _ _ _ Hset)
    as (rows & cols & o0 & o1 & Hg & _ & _ & Hat).
  exists rows, cols. split; [exact Hg|].
  intros r k Hr Hk.
  pose proof (wrap_index_of_nat rows r Hr) as Pr.
  pose proof (wrap_index_of_nat cols k Hk) as Pk.
  pose proof (wrap_index_negative rows r Hr) as Nr.
  pose proof (wrap_index_negative cols k Hk) as Nk.
  rewrite (Hat _ _ r k Pr Pk Hr Hk).
  split; [exact (Hat _ _ r k Nr Nk Hr Hk)|].
  split; [exact (Hat _ _ r k Nr Pk Hr Hk) | exact (Hat _ _ r k Pr Nk Hr Hk)].
Qed.

(** Unflattening against [o1] columns, both ways. *)
Lemma unravel_inj o1 p q :
  0 < o1 -> p / o1 = q / o1 -> p mod o1 = q mod o1 -> p = q.
Proof.
  intros Ho Hd Hm.
  pose proof (Nat.div_mod_eq p o1). pose proof (Nat.div_mod_eq q o1).
  rewrite Hd, Hm in *. lia.
Qed.

(** X9.  On the cells of the grid [_convert_row_cols] is one-to-one and
    onto the positions of the original arrangement [_ori_shape]: every
    answer is inside [_ori_shape], two cells never share an answer, and
    every position is the answer of a cell. *)
Theorem convert_row_cols_is_a_bijection st d axis color rnd st' :
  set_data (Some d) axis color rnd st = (st', inr tt) ->
  exists rows cols o0 o1,
    _g_size st' = Some (rows, cols) /\
    _ori_shape st' = Some [o0; o1] /\
    (forall r k,
        r < rows -> k < cols ->
        exists a b,
          a < o0 /\ b < o1 /\
          _convert_row_cols st' (Z.of_nat r) (Z.of_nat k)
          = (Z.of_nat a, Z.of_nat b)) /\
    (forall r k r' k',
        r < rows -> k < cols -> r' < rows -> k' < cols ->
        _convert_row_cols st' (Z.of_nat r) (Z.of_nat k)
        = _convert_row_cols st' (Z.of_nat r') (Z.of_nat k') ->
        r = r' /\ k = k') /\
    (forall a b,
        a < o0 -> b < o1 ->
        exists r k,
          r < rows /\ k < cols /\
          _convert_row_cols st' (Z.of_nat r) (Z.of_nat k)
          = (Z.of_nat a, Z.of_nat b)).
Proof.
  intros Hset.
  destruct (convert_row_cols_at _ _ _ _ _ _ Hset)
    as (rows & cols & o0 & o1 & Hg & Hori & Hprod & Hat).
  exists rows, cols, o0, o1.
  split; [exact Hg|]. split; [exact Hori|].
  assert (Hconv : forall r k,
             r < rows -> k < cols ->
             _convert_row_cols st' (Z.of_nat r) (Z.of_nat k)
             = (Z.of_nat ((r * cols + k) / o1),
                Z.of_nat ((r * cols + k) mod o1))).
  { intros r k Hr Hk.
    exact (Hat _ _ r k (wrap_index_of_nat rows r Hr)
             (wrap_index_of_nat cols k Hk) Hr Hk). }
  split; [|split].
  - intros r k Hr Hk.
    assert (Hp : r * cols + k < o0 * o1) by nia.
    assert (Ho : 0 < o1) by nia.
    exists ((r * cols + k) / o1), ((r * cols + k) mod o1).
    split; [apply Nat.Div0.div_lt_upper_bound; lia|].
    split; [apply Nat.mod_upper_bound; lia | now apply Hconv].
  - intros r k r' k' Hr Hk Hr' Hk' Heq.
    rewrite (Hconv r k Hr Hk), (Hconv r' k' Hr' Hk') in Heq.
    injection Heq as E1 E2. apply Nat2Z.inj in E1, E2.
    assert (Ho : 0 < o1) by nia.
    pose proof (unravel_inj o1 _ _ Ho E1 E2) as Hp.
    destruct (div_mod_cell cols r k Hk) as [Q1 M1].
    destruct (div_mod_cell cols r' k' Hk') as [Q2 M2].
    rewrite Hp in Q1, M1. split; congruence.
  - intros a b Ha Hb.
    assert (Hp : a * o1 + b < rows * cols) by nia.
    assert (Hc : 0 < cols) by nia.
    pose proof (Nat.div_mod_eq (a * o1 + b) cols) as Hdm.
    exists ((a * o1 + b) / cols), ((a * o1 + b) mod cols).
    assert (Hr : (a * o1 + b) / cols < rows)
      by (apply Nat.Div0.div_lt_upper_bound; lia).
    assert (Hk : (a * o1 + b) mod cols < cols)
      by (apply Nat.mod_upper_bound; lia).
    split; [exact Hr|]. split; [exact Hk|].
    rewrite (Hconv _ _ Hr Hk).
    replace ((a * o1 + b) / cols * cols + (a * o1 + b) mod cols)
      with (a * o1 + b) by lia.
    destruct (div_mod_cell o1 a b Hb) as [-> ->]. reflexivity.
Qed.


(** *** The constructor and the buffers *)

Lemma length_np_repeat {A} (l : list A) k :
  length (np_repeat l k) = length l * k.
Proof.
  unfold np_repeat. induction l as [|x t IH]; cbn; [reflexivity|].
  rewrite length_app, repeat_length, IH. reflexivity.
Qed.

Lemma length_concat_lines {A} n (rows : list (list A)) :
  Forall (fun r => length r = n) rows ->
  length (concat rows) = length rows * n.
Proof.
  induction 1 as [|r t Hr _ IH]; [reflexivity|].
  cbn. rewrite length_app, IH, Hr. reflexivity.
Qed.

(** [set_data] leaves the attributes kept by the constructor, the accepted
    render parameters and their uniforms as they are. *)
Lemma set_data_inputs data axis color rnd st :
  same_inputs st (fst (set_data data axis color rnd st)).
Proof.
  rewrite set_data_run. cbv zeta.
  assert (Hgeo : forall ax d, same_inputs st (fst (set_data_geometry ax d st))).
  { intros ax d.
    exact (proj1 (set_data_geometry_inputs ndsubplot prepare_data ax d st)). }
  destruct data as [d|].
  - specialize (Hgeo (resolve_axis st axis) d).
    destruct (set_data_geometry _ d st) as [s1 [e|[]]]; cbn [fst snd] in *;
      [exact Hgeo|].
    destruct (is_none color); [exact Hgeo|].
    rewrite (set_data_color_frame color2vb). exact Hgeo.
  - cbn [fst snd]. destruct (is_none color); [repeat split|].
    rewrite (set_data_color_frame color2vb). repeat split.
Qed.

(** The constructor, statement by statement. *)
Lemma init_run data axis sf color space scale rnd self :
  __init__ data axis sf color space scale rnd = inr self ->
  exists n,
    shape_getitem (shape data) axis = Some n /\
    ndim data <= 3 /\ is_number sf = true /\ is_number space = true /\
    is_pair scale = true /\
    set_data (Some data) (Some axis) color rnd
      (fst (space_setter space
              (fst (scale_setter scale (born data n axis sf color)))))
    = (self, inr tt).
Proof.
  unfold Visual.__init__.
  destruct (ndim data <=? 3) eqn:Hnd; cbn [andb negb]; [|discriminate].
  destruct (is_number sf) eqn:Hsf; cbn [andb negb]; [|discriminate].
  destruct (is_number space) eqn:Hspace; cbn [andb negb]; [|discriminate].
  destruct (is_pair scale) eqn:Hscale; cbn [andb negb]; [|discriminate].
  destruct (shape_getitem (shape data) axis) as [n|]; [|discriminate].
  cbv zeta. fold (born data n axis sf color).
  unfold bind.
  pose proof (is_pair_scale_returns scale (born data n axis sf color) Hscale)
    as Hsc.
  destruct (scale_setter scale (born data n axis sf color)) as [s1 r1] eqn:H1.
  cbn [snd] in Hsc. subst r1.
  pose proof (setters_return space s1) as [_ Hsp].
  destruct (space_setter space s1) as [s2 r2] eqn:H2. cbn [snd] in Hsp.
  subst r2.
  destruct (set_data (Some data) (Some axis) color rnd s2) as [s3 [e|[]]] eqn:H3;
    cbn [fst snd]; [discriminate|].
  intros H; injection H as <-.
  exists n. apply Nat.leb_le in Hnd.
  rewrite H1. cbn [fst]. rewrite H2. cbn [fst].
  split; [reflexivity|]. split; [exact Hnd|].
  split; [reflexivity|]. split; [reflexivity|].
  split; [reflexivity | exact H3].
Qed.

(** The attributes the two setters leave. *)
Lemma setters_store st scale space :
  let s2 := fst (space_setter space (fst (scale_setter scale st))) in
  _scale s2 = (if is_tuple scale then Some scale else _scale st) /\
  u_scale s2
  = (if is_tuple scale && is_vec scale then Some scale else u_scale st) /\
  _space s2 = (if is_float space then Some space else _space st) /\
  u_space s2 = (if is_float space then Some space else u_space st) /\
  _n s2 = _n st /\ u_n s2 = u_n st /\ _color s2 = _color st /\
  _cbuffer s2 = _cbuffer st /\ _sf s2 = _sf st.
Proof.
  unfold scale_setter, space_setter.
  destruct (is_tuple scale), (is_vec scale), (is_float space); repeat split.
Qed.

(** A pair is a vector for the shader. *)
Lemma is_pair_vec v : is_pair v = true -> is_vec v = true.
Proof.
  destruct v as [| | | |l|l]; try discriminate; cbn;
    intros H; apply Nat.eqb_eq in H; rewrite H; reflexivity.
Qed.

(** X10.  The constructor accepts an int [space] and a list [scale] (its
    assertions allow them), but it assigns them through the setters, which
    only take a float and a tuple: [_space] or [_scale] and the uniform of
    the shader are then never assigned, the getter raises AttributeError,
    [rect] cannot be read and no vertex has a position.  A float and a tuple
    are stored and returned by the getters. *)
Theorem constructor_stores_typed_parameters
        data axis sf color space scale rnd self :
  __init__ data axis sf color space scale rnd = inr self ->
  _scale self = (if is_tuple scale then Some scale else None) /\
  u_scale self = _scale self /\
  _space self = (if is_float space then Some space else None) /\
  u_space self = _space self /\
  (is_tuple scale = false ->
   scale_getter self = (self, inl AttributeError) /\
   forall p, Shader.vertex self p = None) /\
  (is_float space = false ->
   space_getter self = (self, inl AttributeError) /\ rect self = None /\
   forall p, Shader.vertex self p = None) /\
  (is_tuple scale = true -> scale_getter self = (self, inr scale)) /\
  (is_float space = true -> space_getter self = (self, inr space)).
Proof.
  intros Hinit.
  destruct (init_run _ _ _ _ _ _ _ _ Hinit)
    as (n & _ & _ & _ & _ & Hpair & Hset).
  pose proof (setters_store (born data n axis sf color) scale space) as Hst.
  cbv zeta in Hst.
  set (s2 := fst (space_setter space
                    (fst (scale_setter scale (born data n axis sf color))))) in *.
  destruct Hst as (A1 & A2 & A3 & A4 & _).
  rewrite (is_pair_vec scale Hpair), andb_true_r in A2.
  pose proof (set_data_inputs (Some data) (Some axis) color rnd s2) as Hin.
  rewrite Hset in Hin. cbn [fst] in Hin.
  destruct Hin as (_ & _ & _ & _ & _ & _ & B1 & B2 & B3 & B4 & _).
  assert (C1 : _scale self = if is_tuple scale then Some scale else None)
    by (rewrite B1, A1; reflexivity).
  assert (C2 : u_scale self = if is_tuple scale then Some scale else None)
    by (rewrite B3, A2; reflexivity).
  assert (C3 : _space self = if is_float space then Some space else None)
    by (rewrite B2, A3; reflexivity).
  assert (C4 : u_space self = if is_float space then Some space else None)
    by (rewrite B4, A4; reflexivity).
  split; [exact C1|]. split; [congruence|].
  split; [exact C3|]. split; [congruence|].
  unfold scale_getter, space_getter, bind, get, of_option, rect, Shader.vertex.
  rewrite C1, C2, C3, C4.
  split; [intros ->; split; reflexivity|].
  split; [intros ->; repeat split; intros p; now destruct (if is_tuple scale then _ else _)|].
  split; intros ->; reflexivity.
Qed.

Lemma last_app_default {A} (l l' : list (option A)) d :
  last (l ++ l') d = last l' (last l d).
Proof.
  assert (Hdef : forall (u : list (option A)) x y,
             u <> [] -> last u x = last u y).
  { induction u as [|z u IHu]; intros x y Hne; [contradiction|].
    destruct u as [|w u]; [reflexivity|].
    cbn [last]. apply IHu. discriminate. }
  induction l as [|x t IH]; [reflexivity|].
  destruct t as [|y t].
  - cbn [app last]. destruct l' as [|z u]; [reflexivity|].
    apply Hdef. discriminate.
  - cbn [app last] in *. exact IH.
Qed.

(** X11.  On an object that has a scale and a space (one constructed with
    a tuple and a float), after any sequence of calls: [scale] holds the
    last tuple that was assigned to it, also when that assignment raised
    TypeError in the shader (a tuple of fewer than 2 or more than 4
    elements), while the shader keeps the last tuple of 2 to 4 elements;
    [space] and its shader variable hold the last float assigned.  A value of
    another type and every other call leave them as they are. *)
Theorem getters_return_last_accepted ops st :
  _uscale st <> None -> _scale st <> None -> _space st <> None ->
  let self := run_operations ndsubplot prepare_data color2vb ops st in
  _scale self = last (map Some (stored_scales ops)) (_scale st) /\
  u_scale self = last (map Some (uniform_scales ops)) (u_scale st) /\
  _space self = last (map Some (accepted_spaces ops)) (_space st) /\
  u_space self = last (map Some (accepted_spaces ops)) (u_space st).
Proof.
  intros _ _ _.
  pose proof (@last_app_default pyval) as Hlast.
  cbv zeta. revert st.
  induction ops as [|op rest IH]; intros st; [repeat split|].
  cbn [Visual.run_operations].
  destruct (IH (fst (run_operation ndsubplot prepare_data color2vb op st)))
    as (I1 & I2 & I3 & I4).
  rewrite I1, I2, I3, I4. clear IH I1 I2 I3 I4.
  unfold stored_scales, uniform_scales, accepted_spaces.
  cbn [flat_map]. rewrite !map_app, !Hlast.
  destruct op as [data axis color rnd | v | v | v rnd | ];
    cbn [Visual.run_operation map last].
  - pose proof (set_data_inputs data axis color rnd st)
      as (_ & _ & _ & _ & _ & _ & B1 & B2 & B3 & B4 & _).
    rewrite B1, B2, B3, B4. repeat split.
  - unfold scale_setter. destruct (is_tuple v), (is_vec v); repeat split.
  - unfold space_setter. destruct (is_float v); repeat split.
  - unfold Visual.color_setter, bind, modify.
    pose proof (set_data_inputs None None v rnd (set__color v st))
      as (_ & _ & _ & _ & _ & _ & B1 & B2 & B3 & B4 & _).
    destruct (Visual.set_data _ _ _ None None v rnd (set__color v st))
      as [s1 r1]; cbn [fst snd] in *.
    destruct r1; cbn [fst]; rewrite B1, B2, B3, B4; repeat split.
  - repeat split.
Qed.

(** The shape of the array handed to the normalisation, for a preparation
    that keeps shapes. *)
Lemma prepared_shape st d3 :
  (forall sf a,
      wf_ndarray a ->
      wf_ndarray (prepare_data sf a) /\ shape (prepare_data sf a) = shape a) ->
  shape (prepared st d3) = [lead_dims (shape d3); _n st] /\
  length (flat (prepared st d3)) = lead_dims (shape d3) * _n st.
Proof.
  intros Hprep. unfold Visual.prepared.
  set (m := lead_dims (shape d3)).
  set (x := reshape_order_F m (_n st) _).
  assert (Hx : wf_ndarray x /\ shape x = [m; _n st]).
  { unfold x, reshape_order_F, wf_ndarray, size. cbn [shape flat].
    rewrite gather_length. cbn. split; [lia | reflexivity]. }
  destruct Hx as [Hwf Hsx].
  destruct (Hprep (_sf st) x Hwf) as [Hwf' Hs'].
  rewrite Hs', Hsx. split; [reflexivity|].
  unfold wf_ndarray, size in Hwf'. rewrite Hwf', Hs', Hsx. cbn. lia.
Qed.

(** The position buffer a [set_data] with an array leaves. *)
Lemma set_data_position_buffer st d axis color rnd st' :
  (forall sf a,
      wf_ndarray a ->
      wf_ndarray (prepare_data sf a) /\ shape (prepare_data sf a) = shape a) ->
  set_data (Some d) axis color rnd st = (st', inr tt) ->
  exists rows cols,
    _g_size st' = Some (rows, cols) /\
    1 <= __len__ st' /\
    shape (vb_data (_dbuffer st')) = [rows * cols; __len__ st'] /\
    length (flat (vb_data (_dbuffer st'))) = rows * cols * __len__ st'.
Proof.
  intros Hprep Hset.
  destruct (set_data_returns _ _ _ _ _ _ Hset)
    as (d3 & g & dn & _ & _ & Hm & Hnorm & Hst).
  exists (fst (grid_of d3)), (snd (grid_of d3)).
  rewrite Hst. unfold __len__.
  change (_n (set__cbuffer (_cbuffer st') (uploaded st d3 dn))) with (_n st).
  change (vb_data (_dbuffer (set__cbuffer (_cbuffer st') (uploaded st d3 dn))))
    with dn.
  destruct (prepared_shape st d3 Hprep) as [Hs Hl].
  rewrite <- Hm in Hs, Hl.
  destruct (normalise_lines _ _ _ _ Hs Hl Hnorm) as (Hlines & Hlen & Hpos).
  assert (Hdn : shape dn = shape (prepared st d3)
                /\ flat dn = concat (map normalise_row (lines (prepared st d3)))).
  { unfold normalise in Hnorm.
    destruct (last_dim (shape (prepared st d3)) =? 0); [discriminate|].
    injection Hnorm as <-. split; reflexivity. }
  destruct Hdn as [Hsh Hfl].
  split; [reflexivity|]. split; [exact Hpos|].
  split; [now rewrite Hsh|].
  rewrite Hfl, (length_concat_lines (_n st)).
  - now rewrite length_map, Hlen.
  - apply Forall_map. unfold lines. rewrite Hs.
    cbn [last_dim last lead_dims removelast prod_shape fold_right].
    rewrite Nat.mul_1_r.
    eapply Forall_impl; [|apply chunks_row_length, Hl].
    intros r Hr. now rewrite normalise_row_length.
Qed.

(** The colour buffer a [set_data] with an array and a colour leaves. *)
Lemma set_data_color_buffer st d axis color rnd st' :
  set_data (Some d) axis color rnd st = (st', inr tt) ->
  is_none color = false ->
  exists rows cols singcol,
    _g_size st' = Some (rows, cols) /\
    (if is_random color then singcol = map rnd (seq 0 (rows * cols))
     else exists c, color2vb color (rows * cols) = inr c
                    /\ singcol = map drop_alpha c) /\
    flat (vb_data (_cbuffer st')) = np_repeat singcol (__len__ st').
Proof.
  intros Hset Hnone.
  rewrite set_data_run in Hset. cbv zeta in Hset.
  rewrite (set_data_geometry_run ndsubplot prepare_data) in Hset.
  destruct (to_3d (resolve_axis st axis) d) as [e | [d3 g]];
    [discriminate|].
  destruct (Visual.fits ndsubplot st d3); [|discriminate].
  destruct (normalise (prepared st d3)) as [e | dn]; [discriminate|].
  destruct (takes _ (_dbuffer st)); [|discriminate].
  destruct (takes 3 (_ibuffer st)); [|discriminate].
  cbn [fst snd] in Hset. rewrite Hnone in Hset.
  rewrite (set_data_color_run color2vb) in Hset.
  change (_g_size (uploaded st d3 dn))
    with (Some (fst (grid_of d3), snd (grid_of d3))) in Hset.
  cbn [fst snd] in Hset.
  exists (fst (grid_of d3)), (snd (grid_of d3)).
  destruct (is_random color).
  - eexists. apply paint_returns in Hset. destruct Hset as [-> _].
    split; [reflexivity|]. split; [reflexivity|]. reflexivity.
  - destruct (color2vb color (fst (grid_of d3) * snd (grid_of d3)))
      as [e|c] eqn:Hc; [discriminate|].
    exists (map drop_alpha c). apply paint_returns in Hset.
    destruct Hset as [-> _].
    split; [reflexivity|]. split; [exists c; split; reflexivity|]. reflexivity.
Qed.

(** X12.  When [set_data] with an array and a colour returns, the three
    buffers have one entry per sample: the position buffer has the shape
    [(rows * cols, n)], and the index and colour buffers have
    [rows * cols * n] lines, with [n >= 1].  The preparation is assumed to
    keep the shape of its array and the colour resolution to give one
    colour per signal. *)
Theorem buffers_in_step st d axis color rnd st' :
  (forall sf a,
      wf_ndarray a ->
      wf_ndarray (prepare_data sf a) /\ shape (prepare_data sf a) = shape a) ->
  (forall m l, color2vb color m = inr l -> length l = m) ->
  set_data (Some d) axis color rnd st = (st', inr tt) ->
  is_none color = false ->
  exists rows cols,
    _g_size st' = Some (rows, cols) /\
    1 <= __len__ st' /\
    shape (vb_data (_dbuffer st')) = [rows * cols; __len__ st'] /\
    length (flat (vb_data (_dbuffer st'))) = rows * cols * __len__ st' /\
    length (flat (vb_data (_ibuffer st'))) = rows * cols * __len__ st' /\
    length (flat (vb_data (_cbuffer st'))) = rows * cols * __len__ st'.
Proof.
  intros Hprep Hcol Hset Hnone.
  destruct (set_data_position_buffer _ _ _ _ _ _ Hprep Hset)
    as (rows & cols & Hg & Hpos & Hsh & Hlen).
  destruct (set_data_index_buffer _ _ _ _ _ _ Hset)
    as (rows' & cols' & Hg' & _ & Hn & Hib).
  destruct (set_data_color_buffer _ _ _ _ _ _ Hset Hnone)
    as (rows'' & cols'' & singcol & Hg'' & Hsing & Hcb).
  rewrite Hg in Hg', Hg''.
  injection Hg' as <- <-. injection Hg'' as <- <-.
  exists rows, cols.
  split; [exact Hg|]. split; [exact Hpos|]. split; [exact Hsh|].
  split; [exact Hlen|].
  split.
  { rewrite Hib, <- Hn. apply index_triples_length. }
  rewrite Hcb, length_np_repeat.
  destruct (is_random color).
  - subst singcol. now rewrite length_map, length_seq.
  - destruct Hsing as (c & Hc & ->).
    now rewrite length_map, (Hcol _ _ Hc).
Qed.

(** X13.  An object that was constructed has at least one time sample:
    its length is [data.shape[axis]], it is not 0 (an empty time axis makes
    the constructor raise), the uniform [u_n] holds it, and the array had
    one to three dimensions. *)
Theorem constructor_needs_samples data axis sf color space scale rnd self :
  (forall sf a,
      wf_ndarray a ->
      wf_ndarray (prepare_data sf a) /\ shape (prepare_data sf a) = shape a) ->
  __init__ data axis sf color space scale rnd = inr self ->
  shape_getitem (shape data) axis = Some (__len__ self) /\
  1 <= __len__ self /\ u_n self = __len__ self /\ 1 <= ndim data <= 3.
Proof.
  intros Hprep Hinit.
  destruct (init_run _ _ _ _ _ _ _ _ Hinit) as (n & Hn & Hnd & _ & _ & _ & Hset).
  pose proof (setters_store (born data n axis sf color) scale space) as Hst.
  cbv zeta in Hst.
  set (s2 := fst (space_setter space
                    (fst (scale_setter scale (born data n axis sf color))))) in *.
  destruct Hst as (_ & _ & _ & _ & A5 & A6 & _).
  pose proof (set_data_inputs (Some data) (Some axis) color rnd s2) as Hin.
  rewrite Hset in Hin. cbn [fst] in Hin.
  destruct Hin as (_ & B2 & _ & _ & _ & _ & _ & _ & _ & _ & B11 & _).
  destruct (set_data_returns _ _ _ _ _ _ Hset)
    as (d3 & g & dn & _ & _ & Hm & Hnorm & Hst').
  destruct (prepared_shape s2 d3 Hprep) as [Hs _].
  unfold normalise in Hnorm. rewrite Hs in Hnorm.
  cbn [last_dim last] in Hnorm.
  destruct (Nat.eqb_spec (_n s2) 0) as [|Hpos]; [discriminate|].
  unfold __len__.
  assert (Hlen : _n self = n) by (rewrite B2, A5; reflexivity).
  split; [now rewrite Hlen|].
  split; [lia|]. split; [rewrite B2, B11, A5, A6; reflexivity|].
  { split; [|exact Hnd]. unfold ndim.
    destruct (shape data) as [|x sh] eqn:Hsh; [|cbn; lia].
    rewrite shape_getitem_out_of_range in Hn by (cbn; lia). discriminate. }
Qed.

Lemma color_setter_run v rnd st :
  color_setter v rnd st = set_data None None v rnd (set__color v st).
Proof. reflexivity. Qed.

(** X14.  The colour setter stores the value before it resolves it: the
    getter returns the new value whatever happens next, positions, indices
    and layout are never touched, [None] is stored without touching the
    colour buffer, a colour set before any data raises AttributeError, and
    when the call raises the only change to the object is the stored
    value (the colour buffer keeps the previous colours). *)
Theorem color_setter_stores_before_resolving v rnd st :
  let r := color_setter v rnd st in
  _color (fst r) = v /\
  color_getter (fst r) = (fst r, inr v) /\
  same_geometry st (fst r) /\
  (is_none v = true -> snd r = inr tt /\ _cbuffer (fst r) = _cbuffer st) /\
  (is_none v = false -> _g_size st = None -> snd r = inl AttributeError) /\
  (forall e, snd r = inl e -> fst r = set__color v st).
Proof.
  cbv zeta. rewrite color_setter_run, set_data_run. cbv zeta.
  cbn [fst snd]. unfold color_getter, bind, get, ret.
  destruct (is_none v) eqn:Hnone.
  { cbn [fst snd]. repeat split; try reflexivity; try discriminate. }
  rewrite (set_data_color_run color2vb).
  change (_g_size (set__color v st)) with (_g_size st).
  assert (Hpaint : forall singcol,
             let r := paint (set__color v st) singcol in
             _color (fst r) = v /\ same_geometry st (fst r) /\
             (forall e, snd r = inl e -> fst r = set__color v st)).
  { intros singcol. cbv zeta. unfold paint, painted.
    change (_cbuffer (set__color v st)) with (_cbuffer st).
    destruct (takes 3 (_cbuffer st)); cbn [fst snd];
      repeat split; discriminate. }
  destruct (_g_size st) as [g|] eqn:Hg.
  - destruct (is_random v).
    + destruct (Hpaint (map rnd (seq 0 (fst g * snd g)))) as (P1 & P3 & P6).
      split; [exact P1|]. split; [now rewrite P1|]. split; [exact P3|].
      split; [discriminate|]. split; [discriminate | exact P6].
    + destruct (color2vb v (fst g * snd g)) as [e|c]; cbn [fst snd].
      * repeat split; try reflexivity; discriminate.
      * destruct (Hpaint (map drop_alpha c)) as (P1 & P3 & P6).
        split; [exact P1|]. split; [now rewrite P1|]. split; [exact P3|].
        split; [discriminate|]. split; [discriminate | exact P6].
  - cbn [fst snd]. repeat split; try reflexivity; discriminate.
Qed.

(** *** The vertex shader *)

Lemma inject_nat_pos k : 1 <= k -> (1 <= inject_Z (Z.of_nat k))%Q.
Proof.
  intros Hk. change 1%Q with (inject_Z 1). rewrite <- Zle_Qle. lia.
Qed.

Lemma inject_nat_le j k :
  j <= k -> (inject_Z (Z.of_nat j) <= inject_Z (Z.of_nat k))%Q.
Proof. intros H. rewrite <- Zle_Qle. lia. Qed.

Lemma np_div_nonzero x d : ~ (d == 0)%Q -> np_div x d = Some (x / d)%Q.
Proof.
  intros Hd. unfold np_div.
  destruct (Qeq_bool d 0) eqn:E; [|reflexivity].
  apply Qeq_bool_iff in E. contradiction.
Qed.

(** With the scale (1, 1) the shader puts sample [k] of the signal of cell
    [(c, r)] in a box around the centre of the cell, 0.98 / ncols wide on
    each side and 0.98 / nrows high on each side. *)
Lemma main_vertex_cell rows cols n (space y : Q) c r k :
  1 <= rows -> 1 <= cols -> 2 <= n -> k < n -> (Qabs y <= 1)%Q ->
  exists vx vy,
    Shader.main_vertex
      (inject_Z (Z.of_nat rows), inject_Z (Z.of_nat cols))
      (inject_Z (Z.of_nat n)) (1, 1)%Q space
      (Shader.index_as_vec3 (c, r, k)) y = Some (vx, vy) /\
    (Qabs (vx - (-1 + space * (inject_Z (Z.of_nat c) + (1 # 2))
                         / inject_Z (Z.of_nat cols)))
     <= (98 # 100) / inject_Z (Z.of_nat cols))%Q /\
    (Qabs (vy - (-1 + space * (inject_Z (Z.of_nat r) + (1 # 2))
                         / inject_Z (Z.of_nat rows)))
     <= (98 # 100) / inject_Z (Z.of_nat rows))%Q.
Proof.
  intros Hr Hc Hn Hk Hy.
  pose proof (inject_nat_pos rows Hr) as HR.
  pose proof (inject_nat_pos cols Hc) as HC.
  assert (HN : (2 <= inject_Z (Z.of_nat n))%Q).
  { change 2%Q with (inject_Z 2). rewrite <- Zle_Qle. lia. }
  assert (HK : (0 <= inject_Z (Z.of_nat k)
                /\ inject_Z (Z.of_nat k) <= inject_Z (Z.of_nat n) - 1)%Q).
  { split.
    - change 0%Q with (inject_Z 0). rewrite <- Zle_Qle. lia.
    - change 1%Q with (inject_Z 1). unfold Qminus.
      rewrite <- inject_Z_opp, <- inject_Z_plus, <- Zle_Qle. lia. }
  unfold Shader.main_vertex, Shader.index_as_vec3. cbn [fst snd].
  set (R := inject_Z (Z.of_nat rows)) in *.
  set (C := inject_Z (Z.of_nat cols)) in *.
  set (N := inject_Z (Z.of_nat n)) in *.
  set (K := inject_Z (Z.of_nat k)) in *.
  set (X := inject_Z (Z.of_nat c)).
  set (Y := inject_Z (Z.of_nat r)).
  rewrite (np_div_nonzero _ (N - 1)) by lra.
  rewrite (np_div_nonzero _ 1) by lra.
  rewrite (np_div_nonzero 1 C) by lra.
  rewrite (np_div_nonzero 1 R) by lra.
  rewrite (np_div_nonzero _ C) by lra.
  rewrite (np_div_nonzero _ R) by lra.
  eexists. eexists. split; [reflexivity|].
  assert (HT : (0 <= K / (N - 1) /\ K / (N - 1) <= 1)%Q).
  { split.
    - apply Qle_shift_div_l; lra.
    - apply Qle_shift_div_r; lra. }
  set (T := (K / (N - 1))%Q) in *.
  assert (HiC : (0 < / C)%Q) by (apply Qinv_lt_0_compat; lra).
  assert (HiR : (0 < / R)%Q) by (apply Qinv_lt_0_compat; lra).
  split.
  - assert (E : (1 / C * (98 # 100) * 1 * (-1 + 2 * K / (N - 1) - (1 - 1 / 1))
                 + (-1 + space * (X + (1 # 2)) / C)
                 - (-1 + space * (X + (1 # 2)) / C)
                 == (98 # 100) / C * (2 * T - 1))%Q).
    { unfold T. field. split; lra. }
    rewrite E, Qabs_Qmult.
    rewrite (Qabs_pos ((98 # 100) / C)) by (unfold Qdiv; nra).
    assert (HA : (Qabs (2 * T - 1) <= 1)%Q) by (apply Qabs_Qle_condition; lra).
    assert (H0 : (0 <= (98 # 100) / C)%Q) by (unfold Qdiv; nra).
    nra.
  - assert (E : (1 / R * (98 # 100) * 1 * y
                 + (-1 + space * (Y + (1 # 2)) / R)
                 - (-1 + space * (Y + (1 # 2)) / R)
                 == (98 # 100) / R * y)%Q).
    { field. lra. }
    rewrite E, Qabs_Qmult.
    rewrite (Qabs_pos ((98 # 100) / R)) by (unfold Qdiv; nra).
    assert (H0 : (0 <= (98 # 100) / R)%Q) by (unfold Qdiv; nra).
    nra.
Qed.

(** X15.  The vertex shader on a constructed object with the scale (1, 1)
    and at least two time samples: every sample that is a number is drawn
    in the box of its own cell, within 0.98 / cols of the centre of its
    column and 0.98 / rows of the centre of its row; and when the space is
    at least 1.96 the vertex lies inside the rectangle [rect] gives to the
    camera. *)
Theorem constructed_vertices_inside_rect data axis sf color s rnd self :
  (forall sf a,
      wf_ndarray a ->
      wf_ndarray (prepare_data sf a) /\ shape (prepare_data sf a) = shape a) ->
  __init__ data axis sf color (PyFloat s) (PyTuple [PyFloat 1; PyFloat 1]) rnd
  = inr self ->
  2 <= __len__ self ->
  forall p y,
    nth_error (flat (vb_data (_dbuffer self))) p = Some (Some y) ->
    exists rows cols vx vy,
      _g_size self = Some (rows, cols) /\
      Shader.vertex self p = Some (vx, vy) /\
      (Qabs (vx - (-1 + s * (inject_Z (Z.of_nat (p / __len__ self / rows))
                             + (1 # 2)) / inject_Z (Z.of_nat cols)))
       <= (98 # 100) / inject_Z (Z.of_nat cols))%Q /\
      (Qabs (vy - (-1 + s * (inject_Z (Z.of_nat ((p / __len__ self) mod rows))
                             + (1 # 2)) / inject_Z (Z.of_nat rows)))
       <= (98 # 100) / inject_Z (Z.of_nat rows))%Q /\
      ((196 # 100 <= s)%Q ->
       exists r, rect self = Some r /\ in_rect r (vx, vy)).
Proof.
  intros Hprep Hinit Hn2 p y Hp.
  destruct (init_run _ _ _ _ _ _ _ _ Hinit) as (n & _ & _ & _ & _ & _ & Hset).
  pose proof (setters_store (born data n axis sf color)
                (PyTuple [PyFloat 1; PyFloat 1]) (PyFloat s)) as Hst.
  cbv zeta in Hst.
  set (s2 := fst (space_setter (PyFloat s)
                    (fst (scale_setter (PyTuple [PyFloat 1; PyFloat 1])
                            (born data n axis sf color))))) in *.
  cbn [is_tuple is_float] in Hst.
  destruct Hst as (_ & A2 & A3 & A4 & A5 & A6 & _).
  pose proof (set_data_inputs (Some data) (Some axis) color rnd s2) as Hin.
  rewrite Hset in Hin. cbn [fst] in Hin.
  destruct Hin as (_ & B2 & _ & _ & _ & _ & _ & B8 & B9 & B10 & B11 & _).
  destruct (set_data_position_buffer _ _ _ _ _ _ Hprep Hset)
    as (rows & cols & Hg & _ & _ & Hlen).
  destruct (set_data_index_buffer _ _ _ _ _ _ Hset)
    as (rows' & cols' & Hg' & Hu & Hn & Hib).
  rewrite Hg in Hg'. injection Hg' as <- <-.
  assert (Hplt : p < rows * cols * __len__ self).
  { rewrite <- Hlen. apply nth_error_Some. congruence. }
  assert (Hy : (Qabs y <= 1)%Q).
  { destruct (set_data_returns _ _ _ _ _ _ Hset)
      as (d3 & g & dn & _ & _ & _ & Hnorm & Hself).
    rewrite Hself in Hp.
    exact (normalised_bounded _ _ Hnorm p y Hp). }
  assert (Hidx : nth_error (flat (vb_data (_ibuffer self))) p
                 = Some (p / __len__ self / rows, (p / __len__ self) mod rows,
                         p mod __len__ self)).
  { rewrite Hib, <- Hn. now apply index_triples_nth. }
  assert (Hun : u_n self = __len__ self).
  { unfold __len__. rewrite B11, B2, A5, A6. reflexivity. }
  set (N := __len__ self) in *.
  assert (Hrows : 1 <= rows) by nia.
  assert (Hcols : 1 <= cols) by nia.
  assert (Hk : p mod N < N) by (apply Nat.mod_upper_bound; lia).
  assert (Hi : p / N < rows * cols).
  { apply Nat.Div0.div_lt_upper_bound. lia. }
  assert (Hc : p / N / rows < cols).
  { apply Nat.Div0.div_lt_upper_bound. lia. }
  assert (Hr : (p / N) mod rows < rows) by (apply Nat.mod_upper_bound; lia).
  destruct (main_vertex_cell rows cols N s y (p / N / rows) ((p / N) mod rows)
              (p mod N) Hrows Hcols Hn2 Hk Hy)
    as (vx & vy & Hv & Hbx & Hby).
  exists rows, cols, vx, vy.
  split; [exact Hg|].
  split.
  { unfold Shader.vertex.
    rewrite B9, A2, B10, A4, Hidx, Hp, Hu, Hun.
    cbn [Shader.as_vec2 as_number fst snd].
    change (inject_Z 1) with 1%Q. exact Hv. }
  split; [exact Hbx|]. split; [exact Hby|].
  intros Hs. unfold rect. rewrite B8, A3. cbn [as_number].
  eexists. split; [reflexivity|].
  unfold in_rect. cbn [fst snd].
  pose proof (inject_nat_pos rows Hrows) as HR.
  pose proof (inject_nat_pos cols Hcols) as HC.
  assert (HX : (0 <= inject_Z (Z.of_nat (p / N / rows))
                /\ inject_Z (Z.of_nat (p / N / rows)) + 1
                   <= inject_Z (Z.of_nat cols))%Q).
  { split.
    - change 0%Q with (inject_Z 0). rewrite <- Zle_Qle. lia.
    - change 1%Q with (inject_Z 1).
      rewrite <- inject_Z_plus, <- Zle_Qle. lia. }
  assert (HY : (0 <= inject_Z (Z.of_nat ((p / N) mod rows))
                /\ inject_Z (Z.of_nat ((p / N) mod rows)) + 1
                   <= inject_Z (Z.of_nat rows))%Q).
  { split.
    - change 0%Q with (inject_Z 0). rewrite <- Zle_Qle. lia.
    - change 1%Q with (inject_Z 1).
      rewrite <- inject_Z_plus, <- Zle_Qle. lia. }
  apply Qabs_Qle_condition in Hbx, Hby.
  revert Hbx Hby HX HY.
  generalize (inject_Z (Z.of_nat (p / N / rows))).
  generalize (inject_Z (Z.of_nat ((p / N) mod rows))).
  revert HR HC.
  generalize (inject_Z (Z.of_nat rows)). generalize (inject_Z (Z.of_nat cols)).
  intros C R HR HC Y X Hbx Hby HX HY.
  assert (HiC : (0 < / C /\ C * / C == 1)%Q).
  { split; [apply Qinv_lt_0_compat; lra | apply Qmult_inv_r; lra]. }
  assert (HiR : (0 < / R /\ R * / R == 1)%Q).
  { split; [apply Qinv_lt_0_compat; lra | apply Qmult_inv_r; lra]. }
  unfold Qdiv in *.
  revert Hbx Hby HiC HiR. generalize (/ C)%Q. generalize (/ R)%Q.
  intros iR iC Hbx Hby [HiC1 HiC2] [HiR1 HiR2].
  assert (PX1 : (0 <= X * iC)%Q) by nra.
  assert (PX2 : (X * iC <= 1 - iC)%Q) by nra.
  assert (PY1 : (0 <= Y * iR)%Q) by nra.
  assert (PY2 : (Y * iR <= 1 - iR)%Q) by nra.
  assert (SX1 : (0 <= s * (X * iC))%Q) by nra.
  assert (SX2 : (s * (X * iC) <= s * (1 - iC))%Q) by nra.
  assert (SY1 : (0 <= s * (Y * iR))%Q) by nra.
  assert (SY2 : (s * (Y * iR) <= s * (1 - iR))%Q) by nra.
  assert (TX : (0 <= (s * (1 # 2) - (98 # 100)) * iC)%Q) by nra.
  assert (TY : (0 <= (s * (1 # 2) - (98 # 100)) * iR)%Q) by nra.
  repeat split; lra.
Qed.

(** *** One colour per signal *)

(** X16.  A signal has one colour: after [set_data] with an array and a
    colour, sample number [p] has the colour of signal [p / n], which is
    draw number [p / n] of the random generator for 'random' and line
    [p / n] of the resolved colours (without alpha) otherwise. *)
Theorem one_colour_per_signal st d axis color rnd st' :
  set_data (Some d) axis color rnd st = (st', inr tt) ->
  is_none color = false ->
  exists rows cols,
    _g_size st' = Some (rows, cols) /\
    forall p,
      p < rows * cols * __len__ st' ->
      if is_random color
      then nth_error (flat (vb_data (_cbuffer st'))) p
           = Some (rnd (p / __len__ st'))
      else exists c,
          color2vb color (rows * cols) = inr c /\
          nth_error (flat (vb_data (_cbuffer st'))) p
          = option_map drop_alpha (nth_error c (p / __len__ st')).
Proof.
  intros Hset Hnone.
  destruct (set_data_color_buffer _ _ _ _ _ _ Hset Hnone)
    as (rows & cols & singcol & Hg & Hsing & Hcb).
  exists rows, cols. split; [exact Hg|].
  intros p Hp.
  assert (Hn : 0 < __len__ st') by nia.
  destruct (position_of_sample (__len__ st') p Hn) as [Hpn Hmod].
  assert (Hi : p / __len__ st' < rows * cols).
  { apply Nat.Div0.div_lt_upper_bound. lia. }
  assert (Hnth : nth_error (flat (vb_data (_cbuffer st'))) p
                 = nth_error singcol (p / __len__ st')).
  { rewrite Hcb. rewrite Hpn at 1. now apply nth_error_np_repeat. }
  destruct (is_random color).
  - rewrite Hnth, Hsing, nth_error_map, nth_error_seq.
    destruct (Nat.ltb_spec (p / __len__ st') (rows * cols)); [reflexivity|lia].
  - destruct Hsing as (c & Hc & ->). exists c. split; [exact Hc|].
    now rewrite Hnth, nth_error_map.
Qed.

(** *** A time axis of one sample *)

(** X17.  A time axis of one sample is accepted without an error, but
    every uploaded position is nan (each signal is divided by its own zero
    peak) and no vertex has a position. *)
Theorem single_sample_is_never_drawn st d axis color rnd st' :
  (forall sf a,
      wf_ndarray a ->
      wf_ndarray (prepare_data sf a) /\ shape (prepare_data sf a) = shape a) ->
  set_data (Some d) axis color rnd st = (st', inr tt) ->
  __len__ st' = 1 ->
  (forall p x,
      nth_error (flat (vb_data (_dbuffer st'))) p = Some x -> x = None) /\
  (forall p, Shader.vertex st' p = None).
Proof.
  intros Hprep Hset H1.
  assert (Hnan : forall p x,
             nth_error (flat (vb_data (_dbuffer st'))) p = Some x -> x = None).
  { intros p x Hp.
    destruct (set_data_returns _ _ _ _ _ _ Hset)
      as (d3 & g & dn & _ & _ & Hm & Hnorm & Hst).
    pose proof (set_data_index_buffer _ _ _ _ _ _ Hset)
      as (_ & _ & _ & _ & Hn & _).
    unfold __len__ in H1, Hn. rewrite H1 in Hn.
    rewrite Hst in Hp.
    change (vb_data (_dbuffer (set__cbuffer (_cbuffer st') (uploaded st d3 dn))))
      with dn in Hp.
    destruct (prepared_shape st d3 Hprep) as [Hs Hl].
    rewrite <- Hn in Hs, Hl.
    unfold normalise in Hnorm. rewrite Hs in Hnorm.
    cbn [last_dim last lead_dims removelast prod_shape fold_right] in Hnorm.
    injection Hnorm as <-. cbn [flat] in Hp.
    apply nth_error_In, in_concat in Hp.
    destruct Hp as (line & Hline & Hx).
    apply in_map_iff in Hline. destruct Hline as (row & <- & Hrow).
    assert (Hlen : length row = 1).
    { pose proof (chunks_row_length 1 (lead_dims (shape d3) * 1)
                    (flat (prepared st d3))) as Hall.
      rewrite Forall_forall in Hall. apply Hall; [lia | exact Hrow]. }
    destruct row as [|x0 [|x1 row]]; try discriminate Hlen.
    rewrite normalise_row_constant in Hx.
    - destruct Hx as [<- | []]. reflexivity.
    - intros u v [<- | []] [<- | []]. reflexivity. }
  split; [exact Hnan|].
  intros p. unfold Shader.vertex.
  destruct (u_scale st'); [|reflexivity].
  destruct (u_space st'); [|reflexivity].
  destruct (nth_error (flat (vb_data (_ibuffer st'))) p); [|reflexivity].
  destruct (nth_error (flat (vb_data (_dbuffer st'))) p) as [[y|]|] eqn:Hp;
    try reflexivity.
  apply Hnan in Hp. discriminate.
Qed.

(** *** The fragment shader *)

Lemma fract_between c t x :
  (0 < t)%Q -> (t < 1)%Q -> (x == inject_Z c + t)%Q ->
  Shader.Qpositive (Shader.fract x) = true.
Proof.
  intros H0 H1 Hx. unfold Shader.Qpositive, Shader.fract.
  destruct (Qle_bool (x - inject_Z (Qfloor x)) 0) eqn:E; [|reflexivity].
  apply Qle_bool_iff in E.
  pose proof (Qfloor_le x) as Hle.
  assert (Hxf : (x == inject_Z (Qfloor x))%Q) by lra.
  assert (Hlt : (inject_Z c < inject_Z (Qfloor x))%Q) by lra.
  assert (Hlt' : (inject_Z (Qfloor x) < inject_Z (c + 1))%Q).
  { rewrite inject_Z_plus. change (inject_Z 1) with 1%Q. lra. }
  rewrite <- Zlt_Qlt in Hlt, Hlt'. lia.
Qed.

Lemma fract_whole c x :
  (x == inject_Z c)%Q -> Shader.Qpositive (Shader.fract x) = false.
Proof.
  intros Hx. unfold Shader.Qpositive, Shader.fract.
  assert (Hf : Qfloor x = c).
  { rewrite (Qfloor_comp _ _ Hx). apply Qfloor_Z. }
  rewrite Hf.
  destruct (Qle_bool (x - inject_Z c) 0) eqn:E; [reflexivity|].
  assert (H : (x - inject_Z c <= 0)%Q) by lra.
  apply Qle_bool_iff in H. congruence.
Qed.

(** X18.  The fragment shader cuts the line strip between the signals:
    every fragment strictly between two consecutive vertices of the index
    buffer is discarded when the second vertex starts a new signal, and is
    kept with its colour when both belong to the same signal. *)
Theorem fragments_between_signals_are_discarded
        st d axis color rnd st' p a b t col :
  set_data (Some d) axis color rnd st = (st', inr tt) ->
  nth_error (flat (vb_data (_ibuffer st'))) p = Some a ->
  nth_error (flat (vb_data (_ibuffer st'))) (S p) = Some b ->
  (0 < t)%Q -> (t < 1)%Q ->
  Shader.main_fragment col
    (Shader.mix3 (Shader.index_as_vec3 a) (Shader.index_as_vec3 b) t)
  = if (S p) mod __len__ st' =? 0 then None else Some col.
Proof.
  intros Hset Ha Hb H0 H1.
  destruct (set_data_index_buffer _ _ _ _ _ _ Hset)
    as (rows & cols & _ & _ & Hn & Hib).
  rewrite Hib, <- Hn in Ha, Hb.
  set (n := __len__ st') in *.
  assert (Hsp : S p < rows * cols * n).
  { rewrite <- (index_triples_length rows cols n).
    apply nth_error_Some. congruence. }
  rewrite index_triples_nth in Ha, Hb by lia.
  injection Ha as <-. injection Hb as <-.
  assert (Hnpos : 0 < n) by nia. assert (Hr : 0 < rows) by nia.
  unfold Shader.main_fragment, Shader.mix3, Shader.index_as_vec3.
  destruct (Nat.eqb_spec (S p mod n) 0) as [Hz | Hnz].
  - assert (Hq : S p / n = S (p / n)).
    { pose proof (Nat.div_mod_eq (S p) n) as E1.
      pose proof (Nat.div_mod_eq p n) as E2.
      pose proof (Nat.mod_upper_bound p n ltac:(lia)) as B.
      rewrite Hz in E1.
      assert (E3 : n * (S p / n) = n * S (p / n)).
      { assert (p mod n = n - 1).
        { destruct (Nat.eq_dec (p mod n) (n - 1)) as [|Hne]; [assumption|].
          exfalso.
          assert (Hm : S p mod n = S (p mod n)).
          { symmetry. apply (Nat.mod_unique (S p) n (p / n)); lia. }
          lia. }
        nia. }
      apply Nat.mul_cancel_l in E3; lia. }
    rewrite Hq.
    set (k := p / n).
    pose proof (Nat.div_mod_eq k rows) as Ek.
    pose proof (Nat.mod_upper_bound k rows ltac:(lia)) as Bk.
    destruct (Nat.eq_dec (k mod rows) (rows - 1)) as [Hlast | Hin].
    + assert (Hc : S k / rows = S (k / rows)).
      { symmetry. apply (Nat.div_unique (S k) rows (S (k / rows)) 0); lia. }
      rewrite Hc.
      rewrite (fract_between (Z.of_nat (k / rows)) t); [reflexivity | | |];
        try assumption.
      rewrite Nat2Z.inj_succ. unfold Z.succ. rewrite inject_Z_plus.
      change (inject_Z 1) with 1%Q. ring.
    + assert (Hc : S k / rows = k / rows).
      { symmetry. apply (Nat.div_unique (S k) rows (k / rows) (S (k mod rows)));
          lia. }
      assert (Hm : S k mod rows = S (k mod rows)).
      { symmetry. apply (Nat.mod_unique (S k) rows (k / rows)); lia. }
      rewrite Hc, Hm.
      rewrite (fract_whole (Z.of_nat (k / rows))) by ring.
      rewrite (fract_between (Z.of_nat (k mod rows)) t); [reflexivity | | |];
        try assumption.
      rewrite Nat2Z.inj_succ. unfold Z.succ. rewrite inject_Z_plus.
      change (inject_Z 1) with 1%Q. ring.
  - assert (Hq : S p / n = p / n).
    { pose proof (Nat.div_mod_eq (S p) n) as E1.
      pose proof (Nat.div_mod_eq p n) as E2.
      pose proof (Nat.mod_upper_bound p n ltac:(lia)) as B.
      pose proof (Nat.mod_upper_bound (S p) n ltac:(lia)) as B'.
      assert (Hne : p mod n <> n - 1).
      { intros Heq. apply Hnz.
        symmetry. apply (Nat.mod_unique (S p) n (S (p / n))); [lia|]. nia. }
      symmetry. apply (Nat.div_unique (S p) n (p / n) (S (p mod n))); lia. }
    rewrite Hq.
    rewrite (fract_whole (Z.of_nat (p / n / rows))) by ring.
    rewrite (fract_whole (Z.of_nat ((p / n) mod rows))) by ring.
    reflexivity.
Qed.

End More.

(** ** The canvas with axes *)

Lemma canvas_step_frame op c :
  let c' := fst (AxisCanvas.run_operation op c) in
  AxisCanvas._title c' = AxisCanvas._title c /\
  AxisCanvas._xlabel c' = AxisCanvas._xlabel c /\
  AxisCanvas._ylabel c' = AxisCanvas._ylabel c /\
  AxisCanvas.has_widgets c' = AxisCanvas.has_widgets c /\
  AxisCanvas._axis c'
  = match op with
    | AxisCanvas.OpVisibleAxis v => v
    | _ => AxisCanvas._axis c
    end.
Proof.
  destruct c as [ax t xl yl [p|] cam u]; destruct op as [cam' | t' x' y' | v];
    cbn; try (destruct ax); cbn; repeat split;
    try (destruct x', y', t'; cbn; repeat split).
Qed.

Lemma last_cons_default {A} (l : list A) x d :
  last (x :: l) d = last l x.
Proof.
  revert x d. induction l as [|y l IH]; intros x d; [reflexivity|].
  change (last (x :: y :: l) d) with (last (y :: l) d).
  rewrite (IH y d), (IH y x). reflexivity.
Qed.

Lemma canvas_reachable ops c :
  let c' := AxisCanvas.run_operations ops c in
  AxisCanvas._title c' = AxisCanvas._title c /\
  AxisCanvas._xlabel c' = AxisCanvas._xlabel c /\
  AxisCanvas._ylabel c' = AxisCanvas._ylabel c /\
  AxisCanvas.has_widgets c' = AxisCanvas.has_widgets c /\
  AxisCanvas._axis c'
  = last (AxisCanvas.asked_visible ops) (AxisCanvas._axis c).
Proof.
  cbv zeta. revert c. induction ops as [|op ops IH]; intros c.
  - repeat split.
  - cbn [AxisCanvas.run_operations].
    destruct (IH (fst (AxisCanvas.run_operation op c)))
      as (I1 & I2 & I3 & I4 & I5).
    destruct (canvas_step_frame op c) as (S1 & S2 & S3 & S4 & S5).
    rewrite I1, I2, I3, I4, I5, S1, S2, S3, S4, S5.
    repeat split.
    destruct op as [cam | t x y | v]; cbn [AxisCanvas.asked_visible flat_map app];
      try reflexivity.
    fold (AxisCanvas.asked_visible ops).
    symmetry. apply last_cons_default.
Qed.

(** X19.  [AxisCanvas]: whatever is called after the construction, the
    saved [_title], [_xlabel] and [_ylabel] are those of the constructor
    ([set_info] changes the widgets only), the axis widgets exist exactly
    when the canvas was built with [axis=True], and [_axis] is the argument
    of the last [visible_axis] call, or the constructor's. *)
Theorem canvas_keeps_constructor_labels ops axis x_label y_label title :
  let c := AxisCanvas.run_operations ops
             (AxisCanvas.__init__ axis x_label y_label title) in
  AxisCanvas._title c = title /\
  AxisCanvas._xlabel c = x_label /\
  AxisCanvas._ylabel c = y_label /\
  AxisCanvas.has_widgets c = axis /\
  AxisCanvas._axis c = last (AxisCanvas.asked_visible ops) axis.
Proof.
  cbv zeta.
  destruct (canvas_reachable ops (AxisCanvas.__init__ axis x_label y_label title))
    as (H1 & H2 & H3 & H4 & H5).
  rewrite H1, H2, H3, H4, H5. destruct axis; repeat split.
Qed.

(** X20.  [AxisCanvas.set_info] after any sequence of calls.  If the axis
    was last hidden (or never asked for) it raises ValueError and changes
    nothing.  If it is shown on a canvas built with an axis, the call
    returns, the canvas is updated once, and the title and the labels that
    were given replace those of the widgets while the others stay.  If
    [visible_axis(True)] was called on a canvas built without an axis, the
    call raises AttributeError as soon as one argument is given. *)
Theorem set_info_outcome ops axis x_label y_label ttl title xlabel ylabel :
  let c := AxisCanvas.run_operations ops
             (AxisCanvas.__init__ axis x_label y_label ttl) in
  let shown := last (AxisCanvas.asked_visible ops) axis in
  let r := AxisCanvas.set_info title xlabel ylabel c in
  (shown = false -> r = (c, inl ValueError)) /\
  (shown = true -> axis = true ->
   snd r = inr tt /\
   AxisCanvas.canvas_updates (fst r) = S (AxisCanvas.canvas_updates c) /\
   exists p p',
     AxisCanvas.parts c = Some p /\ AxisCanvas.parts (fst r) = Some p' /\
     AxisCanvas.titleObj_text p'
     = AxisCanvas.given title (AxisCanvas.titleObj_text p) /\
     AxisCanvas.axis_label (AxisCanvas.xaxis p')
     = AxisCanvas.given xlabel (AxisCanvas.axis_label (AxisCanvas.xaxis p)) /\
     AxisCanvas.axis_label (AxisCanvas.yaxis p')
     = AxisCanvas.given ylabel (AxisCanvas.axis_label (AxisCanvas.yaxis p))) /\
  (shown = true -> axis = false ->
   match title, xlabel, ylabel with
   | None, None, None => snd r = inr tt
   | _, _, _ => r = (c, inl AttributeError)
   end).
Proof.
  cbv zeta.
  destruct (canvas_reachable ops (AxisCanvas.__init__ axis x_label y_label ttl))
    as (_ & _ & _ & H4 & H5).
  set (c := AxisCanvas.run_operations ops _) in *.
  assert (H0 : AxisCanvas._axis (AxisCanvas.__init__ axis x_label y_label ttl)
               = axis) by reflexivity.
  assert (Hw : AxisCanvas.has_widgets
                 (AxisCanvas.__init__ axis x_label y_label ttl) = axis)
    by (destruct axis; reflexivity).
  rewrite H0 in H5. rewrite Hw in H4. rewrite <- H5.
  unfold AxisCanvas.set_info, AxisCanvas.has_widgets in *.
  split; [intros ->; reflexivity|].
  split.
  - intros -> ->.
    destruct (AxisCanvas.parts c) as [p|]; [|discriminate].
    cbn [fst snd AxisCanvas.canvas_updates AxisCanvas.parts].
    split; [reflexivity|]. split; [reflexivity|].
    eexists. eexists. split; [reflexivity|]. split; [reflexivity|].
    cbn [AxisCanvas.titleObj_text AxisCanvas.xaxis AxisCanvas.yaxis].
    split; [reflexivity|].
    destruct xlabel, ylabel; split; reflexivity.
  - intros -> ->.
    destruct (AxisCanvas.parts c) as [p|]; [discriminate|].
    destruct title, xlabel, ylabel; reflexivity.
Qed.

(** X21.  [AxisCanvas.set_camera] after any sequence of calls: the camera
    is always set on the main view; with the axis hidden the axis widgets
    are left alone; with the axis shown on a canvas built with an axis both
    axes are linked to the view; on a canvas built without an axis and
    switched on by [visible_axis(True)] the call raises AttributeError
    (after the camera is set). *)
Theorem set_camera_outcome ops axis x_label y_label ttl camera :
  let c := AxisCanvas.run_operations ops
             (AxisCanvas.__init__ axis x_label y_label ttl) in
  let shown := last (AxisCanvas.asked_visible ops) axis in
  let r := AxisCanvas.set_camera camera c in
  AxisCanvas.wc_camera (fst r) = Some camera /\
  (shown = false ->
   snd r = inr tt /\ AxisCanvas.parts (fst r) = AxisCanvas.parts c) /\
  (shown = true -> axis = true ->
   snd r = inr tt /\
   exists p,
     AxisCanvas.parts (fst r) = Some p /\
     AxisCanvas.linked (AxisCanvas.xaxis p) = true /\
     AxisCanvas.linked (AxisCanvas.yaxis p) = true) /\
  (shown = true -> axis = false -> snd r = inl AttributeError).
Proof.
  cbv zeta.
  destruct (canvas_reachable ops (AxisCanvas.__init__ axis x_label y_label ttl))
    as (_ & _ & _ & H4 & H5).
  set (c := AxisCanvas.run_operations ops _) in *.
  assert (H0 : AxisCanvas._axis (AxisCanvas.__init__ axis x_label y_label ttl)
               = axis) by reflexivity.
  assert (Hw : AxisCanvas.has_widgets
                 (AxisCanvas.__init__ axis x_label y_label ttl) = axis)
    by (destruct axis; reflexivity).
  rewrite H0 in H5. rewrite Hw in H4. rewrite <- H5.
  unfold AxisCanvas.set_camera, AxisCanvas.has_widgets in *.
  cbn [AxisCanvas._axis AxisCanvas.parts].
  split.
  { destruct (AxisCanvas._axis c); [|reflexivity].
    destruct (AxisCanvas.parts c); reflexivity. }
  split; [intros ->; split; reflexivity|].
  split.
  - intros -> ->.
    destruct (AxisCanvas.parts c) as [p|]; [|discriminate].
    split; [reflexivity|]. eexists. split; [reflexivity|]. split; reflexivity.
  - intros -> ->.
    destruct (AxisCanvas.parts c) as [p|]; [discriminate | reflexivity].
Qed.

(** ** The properties on the sample objects *)

Lemma grid_2x3_t5_built :
  Visual.__init__ Planner.ndsubplot Sample.prepare_off Sample.color2vb
    Sample.data_2x3x5 (-1) (PyFloat 1) (PyStr "random") (PyFloat 2)
    (PyTuple [PyFloat 1; PyFloat 1]) Sample.rnd1
  = inr Sample.grid_2x3_t5.
Proof. vm_compute. reflexivity. Qed.

Lemma redrawn_returns :
  Visual.set_data Planner.ndsubplot Sample.prepare_off Sample.color2vb
    (Some Sample.data_6x5) None (PyStr "red") Sample.rnd2 Sample.grid_2x3_t5
  = (Sample.redrawn, inr tt).
Proof. vm_compute. reflexivity. Qed.

Lemma single_again_returns :
  Visual.set_data Planner.ndsubplot Sample.prepare_off Sample.color2vb
    (Some Sample.data_3x1) None PyNone Sample.rnd1 Sample.grid_single
  = (Sample.single_again, inr tt).
Proof. vm_compute. reflexivity. Qed.

Lemma red_for_every_signal m l :
  Sample.color2vb (PyStr "red") m = inr l -> length l = m.
Proof. intros H. injection H as <-. apply repeat_length. Qed.

Lemma uploaded_samples_bounded_witness :
  Visual.set_data Planner.ndsubplot Sample.prepare_off Sample.color2vb
    (Some Sample.data_6x5) None (PyStr "red") Sample.rnd2 Sample.grid_2x3_t5
  = (Sample.redrawn, inr tt) /\
  nth_error (flat (vb_data (_dbuffer Sample.redrawn))) 3 = Some (Some (90 # 90)) /\
  (Qabs (90 # 90) <= 1)%Q.
Proof.
  assert (Hp : nth_error (flat (vb_data (_dbuffer Sample.redrawn))) 3
               = Some (Some (90 # 90))) by (vm_compute; reflexivity).
  split; [exact redrawn_returns|]. split; [exact Hp|].
  exact (uploaded_samples_bounded Planner.ndsubplot Sample.prepare_off
           Sample.color2vb Sample.grid_2x3_t5 Sample.data_6x5 None (PyStr "red")
           Sample.rnd2 Sample.redrawn redrawn_returns 3 (90 # 90) Hp).
Defined.



Lemma transposed_time_first_witness :
  shape Sample.data_6x5 = [6; 5] /\ wf_ndarray Sample.data_6x5 /\
  Visual.set_data Planner.ndsubplot Sample.prepare_off Sample.color2vb
    (Some (swapaxes2 Sample.data_6x5)) (Some 0%Z) (PyStr "red") Sample.rnd2
    Sample.grid_2x3_t5
  = Visual.set_data Planner.ndsubplot Sample.prepare_off Sample.color2vb
      (Some Sample.data_6x5) (Some 1%Z) (PyStr "red") Sample.rnd2
      Sample.grid_2x3_t5.
Proof.
  assert (Hs : shape Sample.data_6x5 = [6; 5]) by reflexivity.
  assert (Hwf : wf_ndarray Sample.data_6x5) by reflexivity.
  split; [exact Hs|]. split; [exact Hwf|].
  exact (transposed_time_first Planner.ndsubplot Sample.prepare_off
           Sample.color2vb Sample.grid_2x3_t5 Sample.data_6x5 6 5 (PyStr "red")
           Sample.rnd2 Hs Hwf).
Defined.

Lemma convert_row_cols_falls_back_witness :
  Visual.set_data Planner.ndsubplot Sample.prepare_off Sample.color2vb
    (Some Sample.data_6x5) None (PyStr "red") Sample.rnd2 Sample.grid_2x3_t5
  = (Sample.redrawn, inr tt) /\
  exists rows cols,
    _g_size Sample.redrawn = Some (rows, cols) /\
    forall row col,
      ~ (- Z.of_nat rows <= row < Z.of_nat rows)%Z \/
      ~ (- Z.of_nat cols <= col < Z.of_nat cols)%Z ->
      _convert_row_cols Sample.redrawn row col = (row, col).
Proof.
  split; [exact redrawn_returns|].
  exact (convert_row_cols_falls_back Planner.ndsubplot Sample.prepare_off
           Sample.color2vb Sample.grid_2x3_t5 Sample.data_6x5 None (PyStr "red")
           Sample.rnd2 Sample.redrawn redrawn_returns).
Defined.

Lemma convert_row_cols_wraps_negative_witness :
  Visual.set_data Planner.ndsubplot Sample.prepare_off Sample.color2vb
    (Some Sample.data_6x5) None (PyStr "red") Sample.rnd2 Sample.grid_2x3_t5
  = (Sample.redrawn, inr tt) /\
  exists rows cols,
    _g_size Sample.redrawn = Some (rows, cols) /\
    forall r k,
      r < rows -> k < cols ->
      _convert_row_cols Sample.redrawn (Z.of_nat r - Z.of_nat rows)
        (Z.of_nat k - Z.of_nat cols)
      = _convert_row_cols Sample.redrawn (Z.of_nat r) (Z.of_nat k).
Proof.
  split; [exact redrawn_returns|].
  destruct (convert_row_cols_wraps_negative Planner.ndsubplot
              Sample.prepare_off Sample.color2vb Sample.grid_2x3_t5
              Sample.data_6x5 None (PyStr "red") Sample.rnd2 Sample.redrawn
              redrawn_returns)
    as (rows & cols & Hg & Hall).
  exists rows, cols. split; [exact Hg|].
  intros r k Hr Hk. exact (proj1 (Hall r k Hr Hk)).
Defined.

Lemma convert_row_cols_is_a_bijection_witness :
  Visual.set_data Planner.ndsubplot Sample.prepare_off Sample.color2vb
    (Some Sample.data_6x5) None (PyStr "red") Sample.rnd2 Sample.grid_2x3_t5
  = (Sample.redrawn, inr tt) /\
  exists rows cols o0 o1,
    _g_size Sample.redrawn = Some (rows, cols) /\
    _ori_shape Sample.redrawn = Some [o0; o1] /\
    forall a b,
      a < o0 -> b < o1 ->
      exists r k,
        r < rows /\ k < cols /\
        _convert_row_cols Sample.redrawn (Z.of_nat r) (Z.of_nat k)
        = (Z.of_nat a, Z.of_nat b).
Proof.
  split; [exact redrawn_returns|].
  destruct (convert_row_cols_is_a_bijection Planner.ndsubplot
              Sample.prepare_off Sample.color2vb Sample.grid_2x3_t5
              Sample.data_6x5 None (PyStr "red") Sample.rnd2 Sample.redrawn
              redrawn_returns)
    as (rows & cols & o0 & o1 & Hg & Ho & _ & _ & Honto).
  exists rows, cols, o0, o1.
  split; [exact Hg|]. split; [exact Ho | exact Honto].
Defined.

Lemma constructor_stores_typed_parameters_witness :
  Visual.__init__ Planner.ndsubplot Sample.prepare_off Sample.color2vb
    Sample.data_2x3x5 (-1) (PyFloat 1) (PyStr "random") (PyInt 2)
    (PyList [PyFloat 1; PyFloat 1]) Sample.rnd1
  = inr Sample.grid_untyped /\
  scale_getter Sample.grid_untyped = (Sample.grid_untyped, inl AttributeError) /\
  space_getter Sample.grid_untyped = (Sample.grid_untyped, inl AttributeError) /\
  rect Sample.grid_untyped = None /\
  forall p, Shader.vertex Sample.grid_untyped p = None.
Proof.
  assert (Hinit : Visual.__init__ Planner.ndsubplot Sample.prepare_off
                    Sample.color2vb Sample.data_2x3x5 (-1) (PyFloat 1)
                    (PyStr "random") (PyInt 2)
                    (PyList [PyFloat 1; PyFloat 1]) Sample.rnd1
                  = inr Sample.grid_untyped) by (vm_compute; reflexivity).
  split; [exact Hinit|].
  destruct (constructor_stores_typed_parameters Planner.ndsubplot
              Sample.prepare_off Sample.color2vb Sample.data_2x3x5 (-1)
              (PyFloat 1) (PyStr "random") (PyInt 2)
              (PyList [PyFloat 1; PyFloat 1]) Sample.rnd1 Sample.grid_untyped
              Hinit)
    as (_ & _ & _ & _ & Hscale & Hspace & _).
  destruct (Hscale eq_refl) as (Hsg & _).
  destruct (Hspace eq_refl) as (Hpg & Hrect & Hv).
  split; [exact Hsg|]. split; [exact Hpg|]. split; [exact Hrect | exact Hv].
Defined.

Lemma buffers_in_step_witness :
  (forall sf a,
      wf_ndarray a ->
      wf_ndarray (Sample.prepare_off sf a)
      /\ shape (Sample.prepare_off sf a) = shape a) /\
  (forall m l, Sample.color2vb (PyStr "red") m = inr l -> length l = m) /\
  Visual.set_data Planner.ndsubplot Sample.prepare_off Sample.color2vb
    (Some Sample.data_6x5) None (PyStr "red") Sample.rnd2 Sample.grid_2x3_t5
  = (Sample.redrawn, inr tt) /\
  is_none (PyStr "red") = false /\
  exists rows cols,
    _g_size Sample.redrawn = Some (rows, cols) /\
    1 <= __len__ Sample.redrawn /\
    shape (vb_data (_dbuffer Sample.redrawn))
    = [rows * cols; __len__ Sample.redrawn] /\
    length (flat (vb_data (_dbuffer Sample.redrawn)))
    = rows * cols * __len__ Sample.redrawn /\
    length (flat (vb_data (_ibuffer Sample.redrawn)))
    = rows * cols * __len__ Sample.redrawn /\
    length (flat (vb_data (_cbuffer Sample.redrawn)))
    = rows * cols * __len__ Sample.redrawn.
Proof.
  split; [exact prepare_off_keeps_shape|].
  split; [exact red_for_every_signal|].
  split; [exact redrawn_returns|].
  split; [exact eq_refl|].
  exact (buffers_in_step Planner.ndsubplot Sample.prepare_off Sample.color2vb
           Sample.grid_2x3_t5 Sample.data_6x5 None (PyStr "red") Sample.rnd2
           Sample.redrawn prepare_off_keeps_shape red_for_every_signal
           redrawn_returns eq_refl).
Defined.

Lemma constructor_needs_samples_witness :
  (forall sf a,
      wf_ndarray a ->
      wf_ndarray (Sample.prepare_off sf a)
      /\ shape (Sample.prepare_off sf a) = shape a) /\
  Visual.__init__ Planner.ndsubplot Sample.prepare_off Sample.color2vb
    Sample.data_2x3x5 (-1) (PyFloat 1) (PyStr "random") (PyFloat 2)
    (PyTuple [PyFloat 1; PyFloat 1]) Sample.rnd1
  = inr Sample.grid_2x3_t5 /\
  shape_getitem (shape Sample.data_2x3x5) (-1)
  = Some (__len__ Sample.grid_2x3_t5) /\
  1 <= __len__ Sample.grid_2x3_t5 /\
  u_n Sample.grid_2x3_t5 = __len__ Sample.grid_2x3_t5 /\
  1 <= ndim Sample.data_2x3x5 <= 3.
Proof.
  split; [exact prepare_off_keeps_shape|].
  split; [exact grid_2x3_t5_built|].
  exact (constructor_needs_samples Planner.ndsubplot Sample.prepare_off
           Sample.color2vb Sample.data_2x3x5 (-1) (PyFloat 1) (PyStr "random")
           (PyFloat 2) (PyTuple [PyFloat 1; PyFloat 1]) Sample.rnd1
           Sample.grid_2x3_t5 prepare_off_keeps_shape grid_2x3_t5_built).
Defined.

Lemma constructed_vertices_inside_rect_witness :
  Visual.__init__ Planner.ndsubplot Sample.prepare_off Sample.color2vb
    Sample.data_2x3x5 (-1) (PyFloat 1) (PyStr "random") (PyFloat 2)
    (PyTuple [PyFloat 1; PyFloat 1]) Sample.rnd1
  = inr Sample.grid_2x3_t5 /\
  2 <= __len__ Sample.grid_2x3_t5 /\
  nth_error (flat (vb_data (_dbuffer Sample.grid_2x3_t5))) 3
  = Some (Some (90 # 90)) /\
  (196 # 100 <= 2)%Q /\
  exists vx vy r,
    Shader.vertex Sample.grid_2x3_t5 3 = Some (vx, vy) /\
    rect Sample.grid_2x3_t5 = Some r /\ in_rect r (vx, vy).
Proof.
  assert (Hn : 2 <= __len__ Sample.grid_2x3_t5) by (vm_compute; lia).
  assert (Hp : nth_error (flat (vb_data (_dbuffer Sample.grid_2x3_t5))) 3
               = Some (Some (90 # 90))) by (vm_compute; reflexivity).
  assert (Hs : (196 # 100 <= 2)%Q) by (unfold Qle; cbn; lia).
  split; [exact grid_2x3_t5_built|]. split; [exact Hn|].
  split; [exact Hp|]. split; [exact Hs|].
  destruct (constructed_vertices_inside_rect Planner.ndsubplot
              Sample.prepare_off Sample.color2vb Sample.data_2x3x5 (-1)
              (PyFloat 1) (PyStr "random") 2%Q Sample.rnd1 Sample.grid_2x3_t5
              prepare_off_keeps_shape grid_2x3_t5_built Hn 3 (90 # 90) Hp)
    as (rows & cols & vx & vy & _ & Hv & _ & _ & Hrect).
  destruct (Hrect Hs) as (r & Hr & Hin).
  exists vx, vy, r.
  split; [exact Hv|]. split; [exact Hr | exact Hin].
Defined.

Lemma one_colour_per_signal_witness :
  Visual.set_data Planner.ndsubplot Sample.prepare_off Sample.color2vb
    (Some Sample.data_6x5) None (PyStr "red") Sample.rnd2 Sample.grid_2x3_t5
  = (Sample.redrawn, inr tt) /\
  is_none (PyStr "red") = false /\
  exists rows cols,
    _g_size Sample.redrawn = Some (rows, cols) /\
    forall p,
      p < rows * cols * __len__ Sample.redrawn ->
      if is_random (PyStr "red")
      then nth_error (flat (vb_data (_cbuffer Sample.redrawn))) p
           = Some (Sample.rnd2 (p / __len__ Sample.redrawn))
      else exists c,
          Sample.color2vb (PyStr "red") (rows * cols) = inr c /\
          nth_error (flat (vb_data (_cbuffer Sample.redrawn))) p
          = option_map drop_alpha (nth_error c (p / __len__ Sample.redrawn)).
Proof.
  split; [exact redrawn_returns|]. split; [exact eq_refl|].
  exact (one_colour_per_signal Planner.ndsubplot Sample.prepare_off
           Sample.color2vb Sample.grid_2x3_t5 Sample.data_6x5 None (PyStr "red")
           Sample.rnd2 Sample.redrawn redrawn_returns eq_refl).
Defined.

Lemma single_sample_is_never_drawn_witness :
  (forall sf a,
      wf_ndarray a ->
      wf_ndarray (Sample.prepare_off sf a)
      /\ shape (Sample.prepare_off sf a) = shape a) /\
  Visual.set_data Planner.ndsubplot Sample.prepare_off Sample.color2vb
    (Some Sample.data_3x1) None PyNone Sample.rnd1 Sample.grid_single
  = (Sample.single_again, inr tt) /\
  __len__ Sample.single_again = 1 /\
  (forall p x,
      nth_error (flat (vb_data (_dbuffer Sample.single_again))) p = Some x ->
      x = None) /\
  (forall p, Shader.vertex Sample.single_again p = None).
Proof.
  assert (H1 : __len__ Sample.single_again = 1) by (vm_compute; reflexivity).
  split; [exact prepare_off_keeps_shape|].
  split; [exact single_again_returns|]. split; [exact H1|].
  exact (single_sample_is_never_drawn Planner.ndsubplot Sample.prepare_off
           Sample.color2vb Sample.grid_single Sample.data_3x1 None PyNone
           Sample.rnd1 Sample.single_again prepare_off_keeps_shape
           single_again_returns H1).
Defined.

Lemma fragments_between_signals_are_discarded_witness :
  Visual.set_data Planner.ndsubplot Sample.prepare_off Sample.color2vb
    (Some Sample.data_6x5) None (PyStr "red") Sample.rnd2 Sample.grid_2x3_t5
  = (Sample.redrawn, inr tt) /\
  nth_error (flat (vb_data (_ibuffer Sample.redrawn))) 4 = Some (0, 0, 4) /\
  nth_error (flat (vb_data (_ibuffer Sample.redrawn))) 5 = Some (0, 1, 0) /\
  (0 < 1 # 2)%Q /\ (1 # 2 < 1)%Q /\
  Shader.main_fragment (1, 0, 0, 1)%Q
    (Shader.mix3 (Shader.index_as_vec3 (0, 0, 4))
       (Shader.index_as_vec3 (0, 1, 0)) (1 # 2))
  = if 5 mod __len__ Sample.redrawn =? 0 then None else Some (1, 0, 0, 1)%Q.
Proof.
  assert (Ha : nth_error (flat (vb_data (_ibuffer Sample.redrawn))) 4
               = Some (0, 0, 4)) by (vm_compute; reflexivity).
  assert (Hb : nth_error (flat (vb_data (_ibuffer Sample.redrawn))) 5
               = Some (0, 1, 0)) by (vm_compute; reflexivity).
  assert (H0 : (0 < 1 # 2)%Q) by reflexivity.
  assert (H1 : (1 # 2 < 1)%Q) by reflexivity.
  split; [exact redrawn_returns|]. split; [exact Ha|]. split; [exact Hb|].
  split; [exact H0|]. split; [exact H1|].
  exact (fragments_between_signals_are_discarded Planner.ndsubplot
           Sample.prepare_off Sample.color2vb Sample.grid_2x3_t5
           Sample.data_6x5 None (PyStr "red") Sample.rnd2 Sample.redrawn 4
           (0, 0, 4) (0, 1, 0) (1 # 2) (1, 0, 0, 1)%Q redrawn_returns Ha Hb
           H0 H1).
Defined.

Lemma minus_one_means_last_axis_of_the_constructor_array_witness :
  ndim Sample.data_2x3x5 = 3 /\ length (_sh Sample.grid_6x5) = 2 /\
  swapaxes3 Sample.data_2x3x5 1 = inr Sample.data_2x5x3 /\
  Visual.set_data Planner.ndsubplot Sample.prepare_off Sample.color2vb
    (Some Sample.data_2x3x5) (Some (-1)%Z) PyNone Sample.rnd1 Sample.grid_6x5
  = Visual.set_data Planner.ndsubplot Sample.prepare_off Sample.color2vb
      (Some Sample.data_2x5x3) (Some 2%Z) PyNone Sample.rnd1 Sample.grid_6x5.
Proof.
  assert (Hnd : ndim Sample.data_2x3x5 = 3) by reflexivity.
  assert (Hsh : length (_sh Sample.grid_6x5) = 2) by (vm_compute; reflexivity).
  assert (Hsw : swapaxes3 Sample.data_2x3x5 1 = inr Sample.data_2x5x3)
    by (vm_compute; reflexivity).
  split; [exact Hnd|]. split; [exact Hsh|]. split; [exact Hsw|].
  exact (minus_one_means_last_axis_of_the_constructor_array Planner.ndsubplot
           Sample.prepare_off Sample.color2vb Sample.grid_6x5
           Sample.data_2x3x5 Sample.data_2x5x3 (Some (-1)%Z) PyNone
           Sample.rnd1 Hnd Hsh (or_introl eq_refl) Hsw).
Defined.

(** ** The claims on the sample objects *)






(** C5 fails: [set_data] takes a 2-D array with axis 7, which is out of
    range for two dimensions, and returns. *)
Lemma set_data_accepts_axis_out_of_range :
  ndim Sample.data_6x5 = 2 /\
  ~ (-2 <= 7 < 2)%Z /\
  snd (Sample.set_data (Some Sample.data_6x5) (Some 7%Z) PyNone Sample.rnd1
         Sample.grid_2x3_t5) = inr tt.
Proof.
  split; [reflexivity|]. split; [lia|]. vm_compute. reflexivity.
Qed.

Lemma shape_errors_witness :
  3 < ndim Sample.data_4d /\
  ~ (- Z.of_nat (ndim Sample.data_6x5) <= 2 < Z.of_nat (ndim Sample.data_6x5))%Z /\
  ndim Sample.data_2x3x5 = 3 /\
  ~ (-3 <= resolve_axis Sample.grid_2x3_t5 (Some 3%Z) < 3)%Z /\
  Sample.init Sample.data_4d (-1) (PyStr "random") = inl AssertionError /\
  Sample.init Sample.data_6x5 2 (PyStr "random") = inl IndexError /\
  Sample.set_data (Some Sample.data_4d) None PyNone Sample.rnd1
    Sample.grid_2x3_t5
  = (Sample.grid_2x3_t5, inl UnboundLocalError) /\
  Sample.set_data (Some Sample.data_2x3x5) (Some 3%Z) PyNone Sample.rnd1
    Sample.grid_2x3_t5
  = (Sample.grid_2x3_t5, inl AxisError).
Proof.
  assert (H4 : 3 < ndim Sample.data_4d) by (cbn; lia).
  assert (Hax : ~ (- Z.of_nat (ndim Sample.data_6x5) <= 2
                   < Z.of_nat (ndim Sample.data_6x5))%Z) by (cbn; lia).
  assert (H3 : ndim Sample.data_2x3x5 = 3) by reflexivity.
  assert (Hax3 : ~ (-3 <= resolve_axis Sample.grid_2x3_t5 (Some 3%Z) < 3)%Z).
  { change (resolve_axis Sample.grid_2x3_t5 (Some 3%Z)) with 3%Z. lia. }
  split; [exact H4|]. split; [exact Hax|]. split; [exact H3|].
  split; [exact Hax3|]. split; [|split; [|split]].
  - destruct (shape_errors Planner.ndsubplot Sample.prepare_off Sample.color2vb
                Sample.data_4d (-1) (PyFloat 1) (PyStr "random") (PyFloat 2)
                (PyTuple [PyFloat 1; PyFloat 1]) Sample.rnd1
                Sample.grid_2x3_t5 None)
      as (Hrank & _).
    exact (Hrank H4).
  - destruct (shape_errors Planner.ndsubplot Sample.prepare_off Sample.color2vb
                Sample.data_6x5 2 (PyFloat 1) (PyStr "random") (PyFloat 2)
                (PyTuple [PyFloat 1; PyFloat 1]) Sample.rnd1
                Sample.grid_2x3_t5 None)
      as (_ & Haxis & _).
    destruct (Haxis Hax) as [Hbad | Hgood]; [|exact Hgood].
    vm_compute in Hbad. discriminate.
  - destruct (shape_errors Planner.ndsubplot Sample.prepare_off Sample.color2vb
                Sample.data_4d (-1) (PyFloat 1) PyNone (PyFloat 2)
                (PyTuple [PyFloat 1; PyFloat 1]) Sample.rnd1
                Sample.grid_2x3_t5 None)
      as (_ & _ & Hset & _).
    exact (Hset (or_introl H4)).
  - destruct (shape_errors Planner.ndsubplot Sample.prepare_off Sample.color2vb
                Sample.data_2x3x5 (-1) (PyFloat 1) PyNone (PyFloat 2)
                (PyTuple [PyFloat 1; PyFloat 1]) Sample.rnd1
                Sample.grid_2x3_t5 (Some 3%Z))
      as (_ & _ & _ & Hset).
    exact (Hset H3 Hax3).
Defined.

Lemma grid_2x3_t5_paintable :
  _g_size Sample.grid_2x3_t5 = Some (2, 3) /\
  takes 3 (_cbuffer Sample.grid_2x3_t5) = true /\
  0 < __len__ Sample.grid_2x3_t5.
Proof.
  split; [vm_compute; reflexivity|].
  split; [vm_compute; reflexivity | vm_compute; lia].
Qed.

Lemma set_data_color_only_witness :
  _g_size Sample.grid_2x3_t5 = Some (2, 3) /\
  takes 3 (_cbuffer Sample.grid_2x3_t5) = true /\
  0 < __len__ Sample.grid_2x3_t5 /\
  0 < fst (2, 3) * snd (2, 3) /\
  Sample.rnd1 0 <> Sample.rnd2 0 /\
  is_none (PyStr "red") = false /\
  Sample.color2vb (PyStr "red") (fst (2, 3) * snd (2, 3))
  = inr (repeat (1, 0, 0, 1)%Q (fst (2, 3) * snd (2, 3))) /\
  (let r1 := Visual.set_data Planner.ndsubplot Sample.prepare_off
               Sample.color2vb None None (PyStr "random") Sample.rnd1
               Sample.grid_2x3_t5 in
   let r2 := Visual.set_data Planner.ndsubplot Sample.prepare_off
               Sample.color2vb None None (PyStr "random") Sample.rnd2
               (fst r1) in
   snd r1 = inr tt /\ snd r2 = inr tt /\
   _cbuffer (fst r1) <> _cbuffer (fst r2) /\
   _dbuffer (fst r1) = _dbuffer (fst r2) /\
   _ibuffer (fst r1) = _ibuffer (fst r2)) /\
  (let r := Visual.set_data Planner.ndsubplot Sample.prepare_off
              Sample.color2vb None None (PyStr "red") Sample.rnd1
              Sample.grid_2x3_t5 in
   snd r = inr tt /\ same_geometry Sample.grid_2x3_t5 (fst r) /\
   exists g singcol,
     _g_size Sample.grid_2x3_t5 = Some g /\
     (exists c,
         Sample.color2vb (PyStr "red") (fst g * snd g) = inr c /\
         singcol = map drop_alpha c) /\
     vb_data (_cbuffer (fst r))
     = mk_ndarray [length (np_repeat singcol (__len__ Sample.grid_2x3_t5))]
         (np_repeat singcol (__len__ Sample.grid_2x3_t5))).
Proof.
  destruct grid_2x3_t5_paintable as (Hg & Ht & Hn).
  assert (Hk : 0 < fst (2, 3) * snd (2, 3)) by (cbn; lia).
  assert (Hd : Sample.rnd1 0 <> Sample.rnd2 0)
    by (intros H; vm_compute in H; discriminate).
  assert (Hred : Sample.color2vb (PyStr "red") (fst (2, 3) * snd (2, 3))
                 = inr (repeat (1, 0, 0, 1)%Q (fst (2, 3) * snd (2, 3))))
    by reflexivity.
  split; [exact Hg|]. split; [exact Ht|]. split; [exact Hn|].
  split; [exact Hk|]. split; [exact Hd|]. split; [exact eq_refl|].
  split; [exact Hred|]. split.
  - destruct (set_data_color_only Planner.ndsubplot Sample.prepare_off
                Sample.color2vb Sample.grid_2x3_t5 None (PyStr "random")
                Sample.rnd1) as (_ & _ & _ & _ & _ & Hrandom).
    destruct (Hrandom (2, 3) Sample.rnd1 Sample.rnd2 0 Hg Ht Hn Hk Hd)
      as (R1 & R2 & _ & _ & Hc & Hdb & Hib).
    cbv zeta.
    split; [exact R1|]. split; [exact R2|]. split; [exact Hc|].
    split; [exact Hdb | exact Hib].
  - destruct (set_data_color_only Planner.ndsubplot Sample.prepare_off
                Sample.color2vb Sample.grid_2x3_t5 None (PyStr "red")
                Sample.rnd1) as (_ & Hgeo & _ & Hbuf & Hret & _).
    cbv zeta.
    pose proof (Hret (2, 3) Hg Ht
                  (or_intror (ex_intro _ _ Hred))) as Hr.
    split; [exact Hr|]. split; [exact Hgeo|].
    exact (Hbuf eq_refl Hr).
Defined.

(** C7 fails.  A call with an array of another time length raises after
    [_ori_shape] is overwritten, and the lookup answers differently
    afterwards; a call with a good array and a colour that is refused
    raises after the new positions are in place. *)
Lemma set_data_not_atomic :
  (let r := Sample.set_data (Some Sample.data_2x3x2) (Some 2%Z) PyNone
              Sample.rnd1 Sample.grid_6x5 in
   snd r = inl ValueError /\
   _ori_shape Sample.grid_6x5 = Some [1; 6] /\
   _ori_shape (fst r) = Some [2; 3] /\
   _convert_row_cols Sample.grid_6x5 1 0 = (0, 3)%Z /\
   _convert_row_cols (fst r) 1 0 = (1, 0)%Z) /\
  (let r := Sample.set_data (Some Sample.data_6x5_rev) None (PyInt 5)
              Sample.rnd1 Sample.grid_2x3_t5 in
   (exists e, snd r = inl e) /\
   _dbuffer (fst r) <> _dbuffer Sample.grid_2x3_t5).
Proof.
  split; cbv zeta.
  - split; [vm_compute; reflexivity|].
    split; [vm_compute; reflexivity|].
    split; [vm_compute; reflexivity|].
    split; vm_compute; reflexivity.
  - split; [eexists; vm_compute; reflexivity|].
    intros H. vm_compute in H. discriminate.
Qed.

Lemma set_data_raise_frame_witness :
  snd (Sample.set_data (Some Sample.data_4x3) None PyNone Sample.rnd1
         Sample.grid_2x3_t5) = inl ValueError /\
  _cbuffer (fst (Sample.set_data (Some Sample.data_4x3) None PyNone Sample.rnd1
                   Sample.grid_2x3_t5)) = _cbuffer Sample.grid_2x3_t5 /\
  same_inputs Sample.grid_2x3_t5
    (fst (Sample.set_data (Some Sample.data_4x3) None PyNone Sample.rnd1
            Sample.grid_2x3_t5)).
Proof.
  assert (Hraise : snd (Sample.set_data (Some Sample.data_4x3) None PyNone
                          Sample.rnd1 Sample.grid_2x3_t5) = inl ValueError)
    by (vm_compute; reflexivity).
  split; [exact Hraise|].
  destruct (set_data_raise_frame Planner.ndsubplot Sample.prepare_off
              Sample.color2vb (Some Sample.data_4x3) None PyNone Sample.rnd1
              Sample.grid_2x3_t5 ValueError Hraise) as (Hc & Hin & _).
  split; [exact Hc | exact Hin].
Defined.

Lemma sig_index_flipped_witness :
  Visual.set_data Planner.ndsubplot Sample.prepare_off Sample.color2vb
    (Some Sample.data_6x5) None (PyStr "red") Sample.rnd2 Sample.grid_2x3_t5
  = (Sample.redrawn, inr tt) /\
  exists rows cols sig,
    _g_size Sample.redrawn = Some (rows, cols) /\
    _sig_index Sample.redrawn = Some sig /\
    forall k,
      0 < rows -> k < cols ->
      getitem2 sig 0 (Z.of_nat k)
      = getitem2 (mk_ndarray [rows; cols] (seq 0 (rows * cols)))
          (Z.of_nat (rows - 1)) (Z.of_nat k).
Proof.
  split; [exact redrawn_returns|].
  destruct (sig_index_flipped Planner.ndsubplot Sample.prepare_off
              Sample.color2vb Sample.grid_2x3_t5 Sample.data_6x5 None
              (PyStr "red") Sample.rnd2 Sample.redrawn redrawn_returns)
    as (rows & cols & sig & Hg & Hsig & _ & _ & Hends).
  exists rows, cols, sig.
  split; [exact Hg|]. split; [exact Hsig|].
  intros k Hr Hk. exact (proj1 (Hends k Hr Hk)).
Defined.

Lemma len_fixed_at_construction_witness :
  Visual.__init__ Planner.ndsubplot Sample.prepare_off Sample.color2vb
    Sample.data_2x3x5 (-1) (PyFloat 1) (PyStr "random") (PyFloat 2)
    (PyTuple [PyFloat 1; PyFloat 1]) Sample.rnd1
  = inr Sample.grid_2x3_t5 /\
  shape_getitem (shape Sample.data_2x3x5) (-1)
  = Some (__len__ Sample.grid_2x3_t5) /\
  __len__ (Visual.run_operations Planner.ndsubplot Sample.prepare_off
             Sample.color2vb
             [OpSetData (Some Sample.data_4x3) None PyNone Sample.rnd2;
              OpScale (PyTuple [PyFloat 2; PyFloat 2]);
              OpColor (PyStr "red") Sample.rnd2;
              OpClean]
             Sample.grid_2x3_t5) = __len__ Sample.grid_2x3_t5.
Proof.
  split; [exact grid_2x3_t5_built|].
  destruct (len_fixed_at_construction Planner.ndsubplot Sample.prepare_off
              Sample.color2vb Sample.data_2x3x5 (-1) (PyFloat 1)
              (PyStr "random") (PyFloat 2) (PyTuple [PyFloat 1; PyFloat 1])
              Sample.rnd1 Sample.grid_2x3_t5
              [OpSetData (Some Sample.data_4x3) None PyNone Sample.rnd2;
               OpScale (PyTuple [PyFloat 2; PyFloat 2]);
               OpColor (PyStr "red") Sample.rnd2;
               OpClean]
              grid_2x3_t5_built) as (Hn & _ & Hlen & _).
  split; [exact Hn | exact Hlen].
Defined.

Lemma getters_return_last_accepted_witness :
  _uscale Sample.grid_2x3_t5 <> None /\
  _scale Sample.grid_2x3_t5 <> None /\
  _space Sample.grid_2x3_t5 <> None /\
  (let self := Visual.run_operations Planner.ndsubplot Sample.prepare_off
                 Sample.color2vb
                 [OpScale (PyTuple [PyFloat 2; PyFloat 2]);
                  OpScale (PyTuple [PyFloat 3]);
                  OpSpace (PyInt 3);
                  OpClean]
                 Sample.grid_2x3_t5 in
   _scale self = Some (PyTuple [PyFloat 3]) /\
   u_scale self = Some (PyTuple [PyFloat 2; PyFloat 2]) /\
   _space self = _space Sample.grid_2x3_t5 /\
   u_space self = u_space Sample.grid_2x3_t5).
Proof.
  assert (H1 : _uscale Sample.grid_2x3_t5 <> None)
    by (vm_compute; discriminate).
  assert (H2 : _scale Sample.grid_2x3_t5 <> None)
    by (vm_compute; discriminate).
  assert (H3 : _space Sample.grid_2x3_t5 <> None)
    by (vm_compute; discriminate).
  split; [exact H1|]. split; [exact H2|]. split; [exact H3|].
  exact (getters_return_last_accepted Planner.ndsubplot Sample.prepare_off
           Sample.color2vb
           [OpScale (PyTuple [PyFloat 2; PyFloat 2]);
            OpScale (PyTuple [PyFloat 3]);
            OpSpace (PyInt 3);
            OpClean]
           Sample.grid_2x3_t5 H1 H2 H3).
Defined.

Lemma set_data_never_pads_witness :
  to_3d (resolve_axis Sample.grid_2x3_t5 None) Sample.data_5x5
  = inr (mk_ndarray [1; 5; 5] (flat Sample.data_5x5), (5, 1)) /\
  fst (Planner.ndsubplot 5) * snd (Planner.ndsubplot 5) <> lead_dims [1; 5; 5] /\
  snd (Visual.set_data Planner.ndsubplot Sample.prepare_off Sample.color2vb
         (Some Sample.data_5x5) None PyNone Sample.rnd1 Sample.grid_2x3_t5)
  = inl ValueError /\
  same_geometry Sample.grid_2x3_t5
    (fst (Visual.set_data Planner.ndsubplot Sample.prepare_off Sample.color2vb
            (Some Sample.data_5x5) None PyNone Sample.rnd1
            Sample.grid_2x3_t5)).
Proof.
  assert (H3 : to_3d (resolve_axis Sample.grid_2x3_t5 None) Sample.data_5x5
               = inr (mk_ndarray [1; 5; 5] (flat Sample.data_5x5), (5, 1)))
    by (vm_compute; reflexivity).
  assert (Hne : fst (Planner.ndsubplot 5) * snd (Planner.ndsubplot 5)
                <> lead_dims [1; 5; 5]) by (vm_compute; lia).
  split; [exact H3|]. split; [exact Hne|].
  destruct (set_data_never_pads Planner.ndsubplot Sample.prepare_off
              Sample.color2vb Sample.grid_2x3_t5 Sample.data_5x5 None PyNone
              Sample.rnd1 _ _ H3)
    as (Hpad & _).
  destruct (Hpad Hne) as (Hraise & Hgeo & _).
  split; [exact Hraise | exact Hgeo].
Defined.
